(** * The collaboration relay of the editor backend

    A shallow embedding of [backend/services/collaborationService.js]
    (class [CollaborationService]), of the instance methods of
    [backend/models/Project.js] that the relay calls, and of the Socket.IO
    connection handler of the server entry point.

    Conventions of the embedding.
    - A JavaScript [Map] is an association list in insertion order
      ([JsMap]): [set] on a present key overwrites in place, on a fresh key
      appends; iteration follows the list.
    - A value that may be [undefined] is an [option]; a number is an
      integer of [Z]; a string is a [string] of one-byte characters, so
      that its [length] and its UTF-8 byte length coincide.
    - [new Date()] and [Date.now()] read a clock: every handler takes the
      current time [now] in milliseconds.
    - A handler returns the new world and the list of deliveries it causes:
      each [emit] is resolved against the transport rooms into one delivery
      per receiving connection.
    - Each handler, and each timer callback, runs as one atomic step: the
      event loop is single-threaded and the interleavings that an [await]
      allows inside a handler are not part of the model.
    - The document database behind Mongoose is a pair of lookup functions
      and the error, if any, with which [save] rejects. One check of
      Mongoose on [save] is not left to that parameter: the author that
      the debounced save gives to [updateFile] must be an ObjectId
      ([Project.isObjectId]), as the schema declares [modifiedBy]. *)

From Stdlib Require Import ZArith List String Ascii Bool Lia Permutation.
Import ListNotations.
Open Scope string_scope.
Open Scope Z_scope.

Set Implicit Arguments.

(** ** JavaScript values *)

(** [!x] for a value that is a string or [undefined]. *)
Definition falsy (x : option string) : bool :=
  match x with
  | None => true
  | Some s => String.eqb s ""
  end.

(** The outcome of a call that may throw: [Throw] carries [error.message]. *)
Inductive Result (A : Type) : Type :=
| Ok (a : A)
| Throw (message : string).
Arguments Throw {A} message.

(** The outcome of [Model.findById]: a document, [null], or a rejection
    (cast error, connection error). *)
Inductive DbResult (A : Type) : Type :=
| Found (a : A)
| Missing
| Failed (message : string).
Arguments Missing {A}.
Arguments Failed {A} message.

(** ** Insertion-ordered maps with string keys *)

Module JsMap.
Section Ops.
Variable V : Type.

Definition t := list (string * V).

Definition empty : t := [].

Fixpoint get (m : t) (k : string) : option V :=
  match m with
  | [] => None
  | (k', v) :: rest => if String.eqb k' k then Some v else get rest k
  end.

Definition has (m : t) (k : string) : bool :=
  match get m k with
  | Some _ => true
  | None => false
  end.

Fixpoint set (m : t) (k : string) (v : V) : t :=
  match m with
  | [] => [(k, v)]
  | (k', v') :: rest =>
      if String.eqb k' k then (k, v) :: rest else (k', v') :: set rest k v
  end.

Fixpoint delete (m : t) (k : string) : t :=
  match m with
  | [] => []
  | (k', v') :: rest =>
      if String.eqb k' k then rest else (k', v') :: delete rest k
  end.

Definition size (m : t) : nat := List.length m.

Definition keys (m : t) : list string := map fst m.

Definition values (m : t) : list V := map snd m.

(** No key occurs twice: the shape of every map built by [set]. *)
Definition wf (m : t) : Prop := NoDup (keys m).
End Ops.
End JsMap.

(** ** Edit operations and the positional adjustment *)

Module OT.

(** The [operation] object of a code-change event. Its [type] is any
    string or absent, its [position] a number; [length] and [text] may
    each be absent. *)
Record Operation : Type := mkOperation {
  type : option string;
  position : Z;
  length : option Z;
  text : option string
}.

Definition isType (op : Operation) (name : string) : bool :=
  match type op with
  | Some s => String.eqb s name
  | None => false
  end.

Definition withPosition (op : Operation) (p : Z) : Operation :=
  {| type := type op; position := p; length := length op; text := text op |}.

(** [op.text?.length || 0] *)
Definition textLength (op : Operation) : Z :=
  match text op with
  | Some s => Z.of_nat (String.length s)
  | None => 0
  end.

(** [op2.length || op2.text?.length || 0] *)
Definition insertedLength (op2 : Operation) : Z :=
  match length op2 with
  | Some l => if l =? 0 then textLength op2 else l
  | None => textLength op2
  end.

(** [op2.length || 1] *)
Definition deletedLength (op2 : Operation) : Z :=
  match length op2 with
  | Some l => if l =? 0 then 1 else l
  | None => 1
  end.

Definition transformAgainstOperation (op1 op2 : Operation) : Operation :=
  if isType op1 "insert" && isType op2 "insert" then
    if position op1 >=? position op2
    then withPosition op1 (position op1 + insertedLength op2)
    else op1
  else if isType op1 "delete" && isType op2 "insert" then
    if position op1 >? position op2
    then withPosition op1 (position op1 + insertedLength op2)
    else op1
  else if isType op1 "insert" && isType op2 "delete" then
    if position op1 >? position op2
    then withPosition op1 (position op1 - deletedLength op2)
    else op1
  else op1.

(** An entry of a pending-operation queue. *)
Record QueuedOp : Type := mkQueuedOp {
  operation : Operation;
  content : option string;
  userId : option string;
  timestamp : option Z
}.

(** [a < b] on timestamps: false as soon as one side is [undefined]. *)
Definition tsLt (a b : option Z) : bool :=
  match a, b with
  | Some x, Some y => x <? y
  | _, _ => false
  end.

(** The loop of [transformOperation] over the pending operations. *)
Fixpoint transformLoop (pendingOps : list QueuedOp) (dataTimestamp : option Z)
    (transformedOp : Operation) : Operation :=
  match pendingOps with
  | [] => transformedOp
  | pendingOp :: rest =>
      transformLoop rest dataTimestamp
        (if tsLt (timestamp pendingOp) dataTimestamp
         then transformAgainstOperation transformedOp (operation pendingOp)
         else transformedOp)
  end.

Definition queueKey (projectId filePath : string) : string :=
  projectId ++ ":" ++ filePath.

Definition transformOperation (operationQueue : JsMap.t (list QueuedOp))
    (projectId : string) (op : Operation)
    (dataFilePath : string) (dataTimestamp : option Z) : Operation :=
  let pendingOps :=
    match JsMap.get operationQueue (queueKey projectId dataFilePath) with
    | Some q => q
    | None => []
    end in
  transformLoop pendingOps dataTimestamp op.

(** [queue.slice(-100)] *)
Definition lastHundred (A : Type) (queue : list A) : list A :=
  skipn (List.length queue - 100) queue.

Definition queueOperation (operationQueue : JsMap.t (list QueuedOp))
    (projectId filePath : string) (entry : QueuedOp) : JsMap.t (list QueuedOp) :=
  let key := queueKey projectId filePath in
  let q0 := if JsMap.has operationQueue key then operationQueue
            else JsMap.set operationQueue key [] in
  let queue :=
    match JsMap.get q0 key with
    | Some q => (q ++ [entry])%list
    | None => [entry]
    end in
  let q1 := JsMap.set q0 key queue in
  if (100 <? List.length queue)%nat
  then JsMap.set q1 key (lastHundred queue)
  else q1.

End OT.

(** ** The project document ([models/Project.js]) *)

Module Project.

Inductive Role : Type := role_owner | role_admin | role_write | role_read.

Inductive InviteStatus : Type := pending | accepted | declined.

Inductive Action : Type :=
| act_read | act_write | act_delete | act_invite
| act_manage_settings | act_manage_git.

Record Collaborator : Type := mkCollaborator {
  user : string;
  role : Role;
  status : InviteStatus
}.

Record HistoryEntry : Type := mkHistoryEntry {
  h_version : Z;
  h_content : string;
  h_modifiedBy : option string;
  h_modifiedAt : Z
}.

Record File : Type := mkFile {
  name : string;
  path : string;
  content : string;
  language : string;
  size : Z;
  parent : string;
  version : Z;
  history : list HistoryEntry;
  lastModified : Z;
  modifiedBy : option string
}.

Inductive ActivityType : Type :=
| file_created | file_modified | file_deleted | file_renamed.

Record Activity : Type := mkActivity {
  a_type : ActivityType;
  a_user : option string;
  a_filePath : option string;
  a_newPath : option string;
  a_timestamp : Z
}.

(** The fields of the schema that the relay reads or writes. *)
Record t : Type := mkProject {
  owner : string;
  collaborators : list Collaborator;
  files : list File;
  activity : list Activity
}.

Definition withFiles (p : t) (fs : list File) : t :=
  {| owner := owner p; collaborators := collaborators p;
     files := fs; activity := activity p |}.

Definition withActivity (p : t) (acts : list Activity) : t :=
  {| owner := owner p; collaborators := collaborators p;
     files := files p; activity := acts |}.

(** [this.files.find(f => f.path === filePath)]; a path that is
    [undefined] equals no stored path. *)
Definition findFile (p : t) (filePath : option string) : option File :=
  match filePath with
  | None => None
  | Some fp => find (fun f => String.eqb (path f) fp) (files p)
  end.

Definition slash : ascii := "/"%char.

(** [s.split('/').pop()]: what follows the last slash. *)
Fixpoint lastSegment (s cur : string) : string :=
  match s with
  | EmptyString => cur
  | String c rest =>
      if Ascii.eqb c slash then lastSegment rest ""
      else lastSegment rest (cur ++ String c "")
  end.

(** [s.substring(0, s.lastIndexOf('/'))]: [seen] is the part already read,
    [upto] the part before the last slash read so far. *)
Fixpoint beforeLastSlash (s seen upto : string) : string :=
  match s with
  | EmptyString => upto
  | String c rest =>
      if Ascii.eqb c slash
      then beforeLastSlash rest (seen ++ String c "") seen
      else beforeLastSlash rest (seen ++ String c "") upto
  end.

(** [s.substring(0, s.lastIndexOf('/')) || '/'] *)
Definition parentOf (s : string) : string :=
  let d := beforeLastSlash s "" "" in
  if String.eqb d "" then "/" else d.

Definition byteLength (s : string) : Z := Z.of_nat (String.length s).

Definition splitOfUndefined : string :=
  "Cannot read properties of undefined (reading 'split')".

(** [addFile(filePath, content)], with the default language. *)
Definition addFile (now : Z) (p : t) (filePath : option string)
    (content : string) : Result (t * File) :=
  match findFile p filePath with
  | Some _ => Throw "File already exists"
  | None =>
      match filePath with
      | None => Throw splitOfUndefined
      | Some fp =>
          let newFile :=
            {| name := lastSegment fp "";
               path := fp;
               content := content;
               language := "plaintext";
               size := byteLength content;
               parent := parentOf fp;
               version := 1;
               history := [ {| h_version := 1; h_content := content;
                               h_modifiedBy := None; h_modifiedAt := now |} ];
               lastModified := now;
               modifiedBy := None |} in
          Ok (withFiles p (files p ++ [newFile]), newFile)
      end
  end.

Definition touch (now : Z) (f : File) (newContent userId : string) : File :=
  {| name := name f;
     path := path f;
     content := newContent;
     language := language f;
     size := byteLength newContent;
     parent := parent f;
     version := version f + 1;
     history := history f ++
                [ {| h_version := version f + 1; h_content := content f;
                     h_modifiedBy := Some userId; h_modifiedAt := now |} ];
     lastModified := now;
     modifiedBy := Some userId |}.

(** Replace the first file whose path is [fp]. *)
Fixpoint replaceFirst (fs : list File) (fp : string) (g : File -> File)
    : list File :=
  match fs with
  | [] => []
  | f :: rest =>
      if String.eqb (path f) fp then g f :: rest
      else f :: replaceFirst rest fp g
  end.

Definition updateFile (now : Z) (p : t) (filePath : string)
    (content userId : string) : Result (t * File) :=
  match findFile p (Some filePath) with
  | None => Throw "File not found"
  | Some f =>
      Ok (withFiles p
            (replaceFirst (files p) filePath
               (fun f' => touch now f' content userId)),
          touch now f content userId)
  end.

(** [splice(fileIndex, 1)] at the first file whose path is [fp]. *)
Fixpoint removeFirst (fs : list File) (fp : string) : list File :=
  match fs with
  | [] => []
  | f :: rest =>
      if String.eqb (path f) fp then rest else f :: removeFirst rest fp
  end.

Definition deleteFile (p : t) (filePath : option string) : Result t :=
  match findFile p filePath, filePath with
  | Some _, Some fp => Ok (withFiles p (removeFirst (files p) fp))
  | _, _ => Throw "File not found"
  end.

Definition getCollaboratorRole (p : t) (userId : string) : option Role :=
  match
    find (fun c => String.eqb (user c) userId &&
                   match status c with accepted => true | _ => false end)
         (collaborators p)
  with
  | Some c => Some (role c)
  | None => None
  end.

(** The table [permissions] of [canUserAccess]. *)
Definition permitted (action : Action) (r : Role) : bool :=
  match action, r with
  | act_read, (role_read | role_write | role_admin) => true
  | act_write, (role_write | role_admin) => true
  | (act_delete | act_invite | act_manage_settings | act_manage_git),
    role_admin => true
  | _, _ => false
  end.

(** [canUserAccess(userId, action)]; a connection without a user
    identifier compares unequal to every owner and collaborator. *)
Definition canUserAccess (p : t) (userId : option string) (action : Action)
    : bool :=
  match userId with
  | None => false
  | Some uid =>
      if String.eqb (owner p) uid then true
      else match getCollaboratorRole p uid with
           | None => false
           | Some r => permitted action r
           end
  end.

Definition addToActivity (now : Z) (p : t) (ty : ActivityType)
    (userId : option string) (filePath newPath : option string) : t :=
  withActivity p
    (firstn 100
       ({| a_type := ty; a_user := userId; a_filePath := filePath;
           a_newPath := newPath; a_timestamp := now |} :: activity p)).

Definition isHexDigit (c : ascii) : bool :=
  let n := nat_of_ascii c in
  ((48 <=? n) && (n <=? 57) || (65 <=? n) && (n <=? 70)
   || (97 <=? n) && (n <=? 102))%nat.

Fixpoint allHex (s : string) : bool :=
  match s with
  | EmptyString => true
  | String c rest => isHexDigit c && allHex rest
  end.

(** The strings that the schema type [ObjectId] takes: [user] of a
    collaborator and of an activity record, [modifiedBy] of a file and of
    its history entries are declared with it (lines 13, 18, 25 and 127).
    Mongoose casts a string with [new ObjectId(string)], which takes
    twenty-four hexadecimal digits or a string of twelve bytes and throws
    on any other; a path that was assigned a value it cannot cast makes
    [save()] reject. *)
Definition isObjectId (s : string) : bool :=
  ((String.length s =? 24) && allHex s || (String.length s =? 12))%nat.

End Project.

(** ** The transport: Socket.IO rooms and emits *)

Module SocketIO.

(** A room name is whatever value was passed to [join]: a string or
    [undefined]. The room that every connection has under its own
    identifier is left out: the rooms the relay addresses are named by
    project ids, which are never connection identifiers. *)
Definition Room := option string.

Definition roomEqb (a b : Room) : bool :=
  match a, b with
  | Some x, Some y => String.eqb x y
  | None, None => true
  | _, _ => false
  end.

(** The adapter's membership table: pairs of a room and a connection
    identifier, in the order the connections joined. *)
Definition Rooms := list (Room * string).

Definition isMember (rs : Rooms) (room : Room) (sid : string) : bool :=
  existsb (fun e => roomEqb (fst e) room && String.eqb (snd e) sid) rs.

(** [socket.join(room)] *)
Definition join (rs : Rooms) (room : Room) (sid : string) : Rooms :=
  if isMember rs room sid then rs else (rs ++ [(room, sid)])%list.

Definition members (rs : Rooms) (room : Room) : list string :=
  map snd (filter (fun e => roomEqb (fst e) room) rs).

(** What the transport does when a connection closes. *)
Definition leaveAll (rs : Rooms) (sid : string) : Rooms :=
  filter (fun e => negb (String.eqb (snd e) sid)) rs.

Section Emit.
Variable Event : Type.

(** One event handed to one connection. *)
Definition Delivery := (string * Event)%type.

(** [socket.emit(ev)] *)
Definition emit (sid : string) (ev : Event) : list Delivery :=
  [(sid, ev)].

(** [io.to(room).emit(ev)]: every member of the room. *)
Definition ioTo (rs : Rooms) (room : Room) (ev : Event) : list Delivery :=
  map (fun sid => (sid, ev)) (members rs room).

(** [socket.to(room).emit(ev)]: every member of the room but the
    sender. *)
Definition socketTo (rs : Rooms) (sender : string) (room : Room)
    (ev : Event) : list Delivery :=
  map (fun sid => (sid, ev))
      (filter (fun sid => negb (String.eqb sid sender)) (members rs room)).
End Emit.

End SocketIO.

(** ** The relay ([services/collaborationService.js]) *)

Module Collab.

(** A connection: its identifier and the user identifier that
    authentication has attached to it, if any. *)
Record Socket : Type := mkSocket {
  id : string;
  userId : option string
}.

Record Position : Type := mkPosition { line : Z; column : Z }.

Record Selection : Type := mkSelection {
  selStart : Position;
  selEnd : Position
}.

(** [{ filePath, position, selection }] *)
Record Cursor : Type := mkCursor {
  c_filePath : option string;
  c_position : option Position;
  c_selection : option Selection
}.

(** An entry of [this.cursors]. *)
Record CursorEntry : Type := mkCursorEntry {
  ce_cursor : Cursor;
  ce_timestamp : Z
}.

(** What [User.findById(...).select(...)] yields, with the virtual
    [fullName]. *)
Record User : Type := mkUser {
  username : string;
  fullName : string;
  avatar : string
}.

(** A Session: a value of the inner maps of [this.activeUsers]. *)
Record UserData : Type := mkUserData {
  ud_userId : string;
  ud_socketId : string;
  ud_username : string;
  ud_fullName : string;
  ud_avatar : string;
  joinedAt : Z;
  lastActivity : Z;
  cursor : option Cursor
}.

Record UserView : Type := mkUserView {
  uv_id : string;
  uv_username : string;
  uv_fullName : string;
  uv_avatar : string
}.

Record ActiveUser : Type := mkActiveUser {
  au_socketId : string;
  au_user : UserView;
  au_cursor : option Cursor
}.

Record CodeChangeData : Type := mkCodeChangeData {
  cc_projectId : option string;
  cc_filePath : option string;
  cc_operation : OT.Operation;
  cc_content : option string;
  cc_position : option Position;
  cc_timestamp : option Z
}.

Record CursorMoveData : Type := mkCursorMoveData {
  cm_projectId : option string;
  cm_filePath : option string;
  cm_position : option Position;
  cm_selection : option Selection
}.

Record FileOperationData : Type := mkFileOperationData {
  fo_projectId : option string;
  fo_operation : option string;
  fo_filePath : option string;
  fo_newPath : option string;
  fo_content : option string
}.

(** The [result] field of an outbound [file-operation]. *)
Inductive FileOpResult : Type :=
| resFile (f : Project.File)
| resPath (filePath : option string).

Inductive Event : Type :=
| collaboration_error (error : string)
| user_joined (socketId : string) (u : UserView)
| active_users (users : list ActiveUser)
| project_joined (projectId : string) (activeUsers : nat)
| user_left (socketId userId : string)
| code_change (socketId : string) (filePath : string)
    (operation : OT.Operation) (content : option string)
    (position : option Position) (timestamp : option Z)
    (userId : option string)
| cursor_move (socketId : string) (userId : option string) (c : Cursor)
| file_operation (data : FileOperationData) (result : FileOpResult)
    (userId : option string) (timestamp : Z)
| user_inactive (socketId userId : string).

Definition Delivery := SocketIO.Delivery Event.

(** A successful [project.save()]. *)
Inductive StoreWrite : Type :=
| FileSaved (projectId filePath content author : string)
| FileOpSaved (projectId : string) (ty : Project.ActivityType)
    (filePath : option string).

(** The document database as the relay sees it: the outcome of
    [Project.findById] and of [User.findById] for every id, and the error
    with which [project.save()] rejects, if it does. *)
Record Database : Type := mkDatabase {
  projects : string -> DbResult Project.t;
  users : string -> DbResult User;
  saveError : option string
}.

(** [Project.findById(projectId)]; Mongoose turns [findById(undefined)]
    into a query that matches no document. *)
Definition findProjectById (d : Database) (projectId : option string)
    : DbResult Project.t :=
  match projectId with
  | None => Missing
  | Some pid => projects d pid
  end.

Definition storeProject (d : Database) (pid : string) (p : Project.t)
    : Database :=
  {| projects := fun k => if String.eqb k pid then Found p else projects d k;
     users := users d;
     saveError := saveError d |}.

(** A pending [setTimeout] of [debouncedSave], with the variables its
    callback closes over. *)
Record Timer : Type := mkTimer {
  handle : nat;
  due : Z;
  t_projectId : string;
  t_filePath : string;
  t_content : option string
}.

(** The fields of a [CollaborationService]; [saveTimeouts] does not exist
    before the first call of [debouncedSave]. *)
Record Service : Type := mkService {
  activeUsers : JsMap.t (JsMap.t UserData);
  cursors : JsMap.t CursorEntry;
  operationQueue : JsMap.t (list OT.QueuedOp);
  saveTimeouts : option (JsMap.t nat)
}.

(** [new CollaborationService(io)] *)
Definition newService : Service :=
  {| activeUsers := []; cursors := []; operationQueue := [];
     saveTimeouts := None |}.

(** All that the handlers read and change: the relay, the rooms of the
    transport, the database, the pending timers of the event loop with
    the next handle [setTimeout] will return, and the saves made so
    far. *)
Record World : Type := mkWorld {
  service : Service;
  rooms : SocketIO.Rooms;
  db : Database;
  timers : list Timer;
  nextHandle : nat;
  saveLog : list StoreWrite
}.

Definition withService (w : World) (s : Service) : World :=
  {| service := s; rooms := rooms w; db := db w; timers := timers w;
     nextHandle := nextHandle w; saveLog := saveLog w |}.

Definition withRooms (w : World) (rs : SocketIO.Rooms) : World :=
  {| service := service w; rooms := rs; db := db w; timers := timers w;
     nextHandle := nextHandle w; saveLog := saveLog w |}.

Definition withActiveUsers (s : Service) (au : JsMap.t (JsMap.t UserData))
    : Service :=
  {| activeUsers := au; cursors := cursors s;
     operationQueue := operationQueue s; saveTimeouts := saveTimeouts s |}.

Definition withCursors (s : Service) (cs : JsMap.t CursorEntry) : Service :=
  {| activeUsers := activeUsers s; cursors := cs;
     operationQueue := operationQueue s; saveTimeouts := saveTimeouts s |}.

Definition withOperationQueue (s : Service)
    (q : JsMap.t (list OT.QueuedOp)) : Service :=
  {| activeUsers := activeUsers s; cursors := cursors s;
     operationQueue := q; saveTimeouts := saveTimeouts s |}.

Definition withSaveTimeouts (s : Service) (m : option (JsMap.t nat))
    : Service :=
  {| activeUsers := activeUsers s; cursors := cursors s;
     operationQueue := operationQueue s; saveTimeouts := m |}.

(** The world of a server that has just started. *)
Definition initial (d : Database) : World :=
  {| service := newService; rooms := []; db := d; timers := [];
     nextHandle := O; saveLog := [] |}.

Definition roomOf (s : Service) (projectId : string) : JsMap.t UserData :=
  match JsMap.get (activeUsers s) projectId with
  | Some projectUsers => projectUsers
  | None => []
  end.

Definition viewOf (u : UserData) : ActiveUser :=
  {| au_socketId := ud_socketId u;
     au_user := {| uv_id := ud_userId u; uv_username := ud_username u;
                   uv_fullName := ud_fullName u; uv_avatar := ud_avatar u |};
     au_cursor := cursor u |}.

Definition denied (w : World) (socket : Socket) (msg : string)
    : World * list Delivery :=
  (w, SocketIO.emit (id socket) (collaboration_error msg)).

(** The Session that [handleUserJoin] stores. *)
Definition newSession (now : Z) (socket : Socket) (uid : string)
    (user : User) : UserData :=
  {| ud_userId := uid; ud_socketId := id socket;
     ud_username := username user; ud_fullName := fullName user;
     ud_avatar := avatar user;
     joinedAt := now; lastActivity := now; cursor := None |}.

(** [handleUserJoin(socket, projectId)]. The entry of the project is
    made, and the room of the transport joined, before the user record is
    looked up; when that lookup fails both stay as they are. *)
Definition handleUserJoin (now : Z) (w : World) (socket : Socket)
    (projectId : option string) : World * list Delivery :=
  match userId socket with
  | None => denied w socket "User not authenticated"
  | Some uid =>
    if falsy (Some uid) then denied w socket "User not authenticated" else
    match projectId, findProjectById (db w) projectId with
    | _, Failed _ => denied w socket "Failed to join project"
    | None, _ | _, Missing => denied w socket "Access denied to project"
    | Some pid, Found project =>
      if negb (Project.canUserAccess project (Some uid) Project.act_read)
      then denied w socket "Access denied to project"
      else
        let rs := SocketIO.join (rooms w) (Some pid) (id socket) in
        let au1 :=
          if JsMap.has (activeUsers (service w)) pid
          then activeUsers (service w)
          else JsMap.set (activeUsers (service w)) pid [] in
        let w1 := withRooms (withService w
                    (withActiveUsers (service w) au1)) rs in
        match users (db w) uid with
        | Found user =>
            let projectUsers :=
              JsMap.set (roomOf (service w1) pid) (id socket)
                (newSession now socket uid user) in
            let w2 := withService w1
                        (withActiveUsers (service w1)
                           (JsMap.set au1 pid projectUsers)) in
            let activeUsersList :=
              map viewOf
                (filter (fun u => negb (String.eqb (ud_socketId u) (id socket)))
                        (JsMap.values projectUsers)) in
            (w2,
             (SocketIO.socketTo rs (id socket) (Some pid)
                (user_joined (id socket)
                   {| uv_id := uid; uv_username := username user;
                      uv_fullName := fullName user;
                      uv_avatar := avatar user |})
              ++ SocketIO.emit (id socket) (active_users activeUsersList)
              ++ SocketIO.emit (id socket)
                   (project_joined pid (S (List.length activeUsersList))))%list)
        | Missing | Failed _ => denied w1 socket "Failed to join project"
        end
    end
  end.

(** The loop of [handleUserLeave] over [this.activeUsers]: the first
    room that holds the connection loses it, is dropped when that
    empties it, and the loop breaks. *)
Fixpoint leaveLoop (entries : JsMap.t (JsMap.t UserData)) (sid : string)
    : option (string * UserData) * JsMap.t (JsMap.t UserData) :=
  match entries with
  | [] => (None, [])
  | (projectId, projectUsers) :: rest =>
      match JsMap.get projectUsers sid with
      | Some userData =>
          let projectUsers' := JsMap.delete projectUsers sid in
          (Some (projectId, userData),
           if (JsMap.size projectUsers' =? 0)%nat then rest
           else (projectId, projectUsers') :: rest)
      | None =>
          let (found, rest') := leaveLoop rest sid in
          (found, (projectId, projectUsers) :: rest')
      end
  end.

Definition handleUserLeave (w : World) (socket : Socket)
    : World * list Delivery :=
  match leaveLoop (activeUsers (service w)) (id socket) with
  | (None, _) => (w, [])
  | (Some (projectId, userData), au) =>
      (withService w
         (withCursors (withActiveUsers (service w) au)
            (JsMap.delete (cursors (service w)) (id socket))),
       SocketIO.socketTo (rooms w) (id socket) (Some projectId)
         (user_left (id socket) (ud_userId userData)))
  end.

Definition withTimers (w : World) (ts : list Timer) (next : nat) : World :=
  {| service := service w; rooms := rooms w; db := db w; timers := ts;
     nextHandle := next; saveLog := saveLog w |}.

Definition withStore (w : World) (d : Database) (log : list StoreWrite)
    : World :=
  {| service := service w; rooms := rooms w; db := d; timers := timers w;
     nextHandle := nextHandle w; saveLog := log |}.

Definition saveKey (projectId filePath : string) : string :=
  "save_" ++ projectId ++ "_" ++ filePath.

(** [clearTimeout(h)]: a handle that is no longer pending is ignored. *)
Definition clearTimeout (ts : list Timer) (h : nat) : list Timer :=
  filter (fun tm => negb (Nat.eqb (handle tm) h)) ts.

Definition saveDelay : Z := 2000.

Definition debouncedSave (now : Z) (w : World) (projectId filePath : string)
    (content : option string) : World :=
  let key := saveKey projectId filePath in
  let pending :=
    match saveTimeouts (service w) with
    | Some m =>
        match JsMap.get m key with
        | Some h => clearTimeout (timers w) h
        | None => timers w
        end
    | None => timers w
    end in
  let m0 :=
    match saveTimeouts (service w) with
    | Some m => m
    | None => []
    end in
  let h := nextHandle w in
  withTimers
    (withService w
       (withSaveTimeouts (service w) (Some (JsMap.set m0 key h))))
    (pending ++ [ {| handle := h; due := now + saveDelay;
                     t_projectId := projectId; t_filePath := filePath;
                     t_content := content |} ])%list
    (S h).

Definition forgetTimeout (w : World) (key : string) : World :=
  withService w
    (withSaveTimeouts (service w)
       (match saveTimeouts (service w) with
        | Some m => Some (JsMap.delete m key)
        | None => None
        end)).

(** The outcome of [project.save()] after [updateFile] has put [author]
    into [modifiedBy] of the file and of its new history entry: a value
    that is no ObjectId fails the validation of the document, whatever
    the store would do with it. *)
Definition saveErrorAs (d : Database) (author : string) : option string :=
  if Project.isObjectId author then saveError d
  else Some "Project validation failed".

(** The callback that [debouncedSave] hands to [setTimeout]; any
    exception is caught and leaves the entry of the key in place. The
    author it gives to [updateFile] is the string [system]. *)
Definition saveCallback (w : World) (tm : Timer) : World :=
  let key := saveKey (t_projectId tm) (t_filePath tm) in
  match projects (db w) (t_projectId tm) with
  | Failed _ => w
  | Missing => forgetTimeout w key
  | Found project =>
      match t_content tm with
      | None => w
      | Some content =>
          match Project.updateFile (due tm) project (t_filePath tm)
                  content "system" with
          | Throw _ => w
          | Ok (project', _) =>
              match saveErrorAs (db w) "system" with
              | Some _ => w
              | None =>
                  forgetTimeout
                    (withStore w
                       (storeProject (db w) (t_projectId tm) project')
                       (saveLog w ++
                        [FileSaved (t_projectId tm) (t_filePath tm)
                           content "system"])%list)
                    key
              end
          end
      end
  end.

(** The clock reaches [now]: the pending timers that are due fire in the
    order they were set. *)
Definition runTimers (now : Z) (w : World) : World :=
  let dueNow := filter (fun tm => due tm <=? now) (timers w) in
  let later := filter (fun tm => negb (due tm <=? now)) (timers w) in
  fold_left saveCallback dueNow (withTimers w later (nextHandle w)).

Definition handleCodeChange (now : Z) (w : World) (socket : Socket)
    (data : CodeChangeData) : World * list Delivery :=
  if falsy (cc_projectId data) || falsy (cc_filePath data)
  then denied w socket "Missing project or file information"
  else
    match cc_projectId data, cc_filePath data,
          findProjectById (db w) (cc_projectId data) with
    | _, _, Failed _ => denied w socket "Failed to process code change"
    | Some projectId, Some filePath, Found project =>
        if negb (Project.canUserAccess project (userId socket)
                   Project.act_write)
        then denied w socket "Insufficient permissions"
        else
          let transformedOperation :=
            OT.transformOperation (operationQueue (service w)) projectId
              (cc_operation data) filePath (cc_timestamp data) in
          let out :=
            SocketIO.socketTo (rooms w) (id socket) (Some projectId)
              (code_change (id socket) filePath transformedOperation
                 (cc_content data) (cc_position data) (cc_timestamp data)
                 (userId socket)) in
          let w1 :=
            withService w
              (withOperationQueue (service w)
                 (OT.queueOperation (operationQueue (service w))
                    projectId filePath
                    {| OT.operation := transformedOperation;
                       OT.content := cc_content data;
                       OT.userId := userId socket;
                       OT.timestamp := cc_timestamp data |})) in
          (debouncedSave now w1 projectId filePath (cc_content data), out)
    | _, _, _ => denied w socket "Insufficient permissions"
    end.

Definition cursorOf (data : CursorMoveData) : Cursor :=
  {| c_filePath := cm_filePath data; c_position := cm_position data;
     c_selection := cm_selection data |}.

Definition moved (now : Z) (u : UserData) (c : Cursor) : UserData :=
  {| ud_userId := ud_userId u; ud_socketId := ud_socketId u;
     ud_username := ud_username u; ud_fullName := ud_fullName u;
     ud_avatar := ud_avatar u; joinedAt := joinedAt u;
     lastActivity := now; cursor := Some c |}.

Definition handleCursorMove (now : Z) (w : World) (socket : Socket)
    (data : CursorMoveData) : World * list Delivery :=
  let cs :=
    JsMap.set (cursors (service w)) (id socket)
      {| ce_cursor := cursorOf data; ce_timestamp := now |} in
  let au :=
    match cm_projectId data with
    | None => activeUsers (service w)
    | Some projectId =>
        match JsMap.get (activeUsers (service w)) projectId with
        | None => activeUsers (service w)
        | Some projectUsers =>
            match JsMap.get projectUsers (id socket) with
            | None => activeUsers (service w)
            | Some userData =>
                JsMap.set (activeUsers (service w)) projectId
                  (JsMap.set projectUsers (id socket)
                     (moved now userData (cursorOf data)))
            end
        end
    end in
  (withService w (withCursors (withActiveUsers (service w) au) cs),
   SocketIO.socketTo (rooms w) (id socket) (cm_projectId data)
     (cursor_move (id socket) (userId socket) (cursorOf data))).

(** [renameFile(project, oldPath, newPath)] *)
Definition renameFile (project : Project.t) (oldPath newPath : option string)
    : Result (Project.t * Project.File) :=
  match Project.findFile project oldPath, oldPath with
  | Some file, Some old =>
      match Project.findFile project newPath with
      | Some _ => Throw "File with new name already exists"
      | None =>
          match newPath with
          | None => Throw Project.splitOfUndefined
          | Some np =>
              let rename (f : Project.File) : Project.File :=
                {| Project.name := Project.lastSegment np "";
                   Project.path := np;
                   Project.content := Project.content f;
                   Project.language := Project.language f;
                   Project.size := Project.size f;
                   Project.parent := Project.parentOf np;
                   Project.version := Project.version f;
                   Project.history := Project.history f;
                   Project.lastModified := Project.lastModified f;
                   Project.modifiedBy := Project.modifiedBy f |} in
              Ok (Project.withFiles project
                    (Project.replaceFirst (Project.files project) old rename),
                  rename file)
          end
      end
  | _, _ => Throw "File not found"
  end.

Definition isOp (data : FileOperationData) (name : string) : bool :=
  match fo_operation data with
  | Some s => String.eqb s name
  | None => false
  end.

(** The [switch] of [handleFileOperation]. *)
Definition applyFileOperation (now : Z) (project : Project.t)
    (data : FileOperationData)
    : Result (Project.t * FileOpResult * Project.ActivityType) :=
  if isOp data "create" then
    match Project.addFile now project (fo_filePath data)
            (match fo_content data with
             | Some c => c
             | None => ""
             end) with
    | Ok (project', file) => Ok (project', resFile file, Project.file_created)
    | Throw msg => Throw msg
    end
  else if isOp data "delete" then
    match Project.deleteFile project (fo_filePath data) with
    | Ok project' =>
        Ok (project', resPath (fo_filePath data), Project.file_deleted)
    | Throw msg => Throw msg
    end
  else if isOp data "rename" then
    match renameFile project (fo_filePath data) (fo_newPath data) with
    | Ok (project', file) => Ok (project', resFile file, Project.file_renamed)
    | Throw msg => Throw msg
    end
  else Throw "Unknown file operation".

Definition fileOperationFailed (w : World) (socket : Socket) (msg : string)
    : World * list Delivery :=
  denied w socket ("File operation failed: " ++ msg).

Definition handleFileOperation (now : Z) (w : World) (socket : Socket)
    (data : FileOperationData) : World * list Delivery :=
  match fo_projectId data, findProjectById (db w) (fo_projectId data) with
  | _, Failed msg => fileOperationFailed w socket msg
  | Some projectId, Found project =>
      if negb (Project.canUserAccess project (userId socket)
                 Project.act_write)
      then denied w socket "Insufficient permissions"
      else
        match applyFileOperation now project data with
        | Throw msg => fileOperationFailed w socket msg
        | Ok (project1, result, activityType) =>
            let project2 :=
              Project.addToActivity now project1 activityType
                (userId socket) (fo_filePath data)
                (if falsy (fo_newPath data) then None else fo_newPath data) in
            match saveError (db w) with
            | Some msg => fileOperationFailed w socket msg
            | None =>
                (withStore w (storeProject (db w) projectId project2)
                   (saveLog w ++
                    [FileOpSaved projectId activityType (fo_filePath data)])%list,
                 SocketIO.ioTo (rooms w) (Some projectId)
                   (file_operation data result (userId socket) now))
            end
        end
  | _, _ => denied w socket "Insufficient permissions"
  end.

Definition inactiveThreshold : Z := 5 * 60 * 1000.

Definition isInactive (now : Z) (u : UserData) : bool :=
  now - lastActivity u >? inactiveThreshold.

(** The inner loop of [cleanupInactiveUsers] over one room: what is
    left of the room, the connections evicted, in order. *)
Fixpoint sweepRoom (now : Z) (projectUsers : JsMap.t UserData)
    : JsMap.t UserData * list (string * string) :=
  match projectUsers with
  | [] => ([], [])
  | (socketId, userData) :: rest =>
      let (kept, evicted) := sweepRoom now rest in
      if isInactive now userData
      then (kept, (socketId, ud_userId userData) :: evicted)
      else ((socketId, userData) :: kept, evicted)
  end.

(** The outer loop: rooms left, connections evicted, deliveries. *)
Fixpoint sweepRooms (now : Z) (rs : SocketIO.Rooms)
    (entries : JsMap.t (JsMap.t UserData))
    : JsMap.t (JsMap.t UserData) * list string * list Delivery :=
  match entries with
  | [] => ([], [], [])
  | (projectId, projectUsers) :: rest =>
      let (kept, evicted) := sweepRoom now projectUsers in
      let out :=
        flat_map (fun e => SocketIO.ioTo rs (Some projectId)
                             (user_inactive (fst e) (snd e))) evicted in
      let '(rest', gone, out') := sweepRooms now rs rest in
      (if (JsMap.size kept =? 0)%nat then rest'
       else (projectId, kept) :: rest',
       (map fst evicted ++ gone)%list,
       (out ++ out')%list)
  end.

Definition cleanupInactiveUsers (now : Z) (w : World)
    : World * list Delivery :=
  let '(au, gone, out) :=
    sweepRooms now (rooms w) (activeUsers (service w)) in
  (withService w
     (withCursors (withActiveUsers (service w) au)
        (fold_left (fun cs sid => JsMap.delete cs sid) gone
                   (cursors (service w)))),
   out).

End Collab.

(** ** The connection handler of the server *)

Module Server.
Import Collab.

(** An event arriving on a connection, or the clock advancing. *)
Inductive Inbound : Type :=
| join_project (socket : Socket) (projectId : option string)
| code_change_in (socket : Socket) (data : CodeChangeData)
| cursor_move_in (socket : Socket) (data : CursorMoveData)
| file_operation_in (socket : Socket) (data : FileOperationData)
| disconnect (socket : Socket)
| sweep
| tick.

(** [socket.on('join-project', ...)]: the connection joins the room,
    then the relay is asked. *)
Definition onJoinProject (now : Z) (w : World) (socket : Socket)
    (projectId : option string) : World * list Delivery :=
  handleUserJoin now
    (withRooms w (SocketIO.join (rooms w) projectId (id socket)))
    socket projectId.

(** [socket.on('disconnect', ...)]: the transport has taken the
    connection out of its rooms. *)
Definition onDisconnect (w : World) (socket : Socket)
    : World * list Delivery :=
  let (w', out) := handleUserLeave w socket in
  (withRooms w' (SocketIO.leaveAll (rooms w') (id socket)), out).

Definition step (now : Z) (w : World) (e : Inbound) : World * list Delivery :=
  match e with
  | join_project socket projectId => onJoinProject now w socket projectId
  | code_change_in socket data => handleCodeChange now w socket data
  | cursor_move_in socket data => handleCursorMove now w socket data
  | file_operation_in socket data => handleFileOperation now w socket data
  | disconnect socket => onDisconnect w socket
  | sweep => cleanupInactiveUsers now w
  | tick => (runTimers now w, [])
  end.

(** A run: timed inbound events, one after the other; the deliveries
    of all steps, in order. *)
Fixpoint run (w : World) (trace : list (Z * Inbound))
    : World * list Delivery :=
  match trace with
  | [] => (w, [])
  | (now, e) :: rest =>
      let (w1, out1) := step now w e in
      let (w2, out2) := run w1 rest in
      (w2, (out1 ++ out2)%list)
  end.

(** The access check of [handleUserJoin] turns the connection away:
    the project is not found, or it does not grant it read access. *)
Definition accessDenied (d : Database) (socket : Socket) (pid : string)
    : bool :=
  match projects d pid with
  | Found project =>
      negb (Project.canUserAccess project (userId socket) Project.act_read)
  | Missing => true
  | Failed _ => false
  end.

(** The connection does not close during the trace. *)
Definition staysConnected (socket : Socket) (trace : list (Z * Inbound))
    : Prop :=
  Forall (fun te => match snd te with
                    | disconnect s => id s <> id socket
                    | _ => True
                    end) trace.

End Server.

(** ** Reading the timers and the log of saves *)

Module Debounce.
Import Collab.

(** The key under which [debouncedSave] files the timer. *)
Definition keyOf (tm : Timer) : string :=
  saveKey (t_projectId tm) (t_filePath tm).

(** The pending timers filed under a key. *)
Definition pendingFor (w : World) (key : string) : list Timer :=
  filter (fun tm => String.eqb (keyOf tm) key) (timers w).

(** The saves of one file made by the debounced callback. *)
Definition savesOf (projectId filePath : string) (log : list StoreWrite)
    : list StoreWrite :=
  filter (fun e => match e with
                   | FileSaved p f _ _ =>
                       String.eqb p projectId && String.eqb f filePath
                   | FileOpSaved _ _ _ => false
                   end) log.

(** Every pending timer is the one [this.saveTimeouts] holds for its
    key, and no handle is pending twice or still to be handed out. *)
Definition timersTracked (w : World) : Prop :=
  NoDup (map handle (timers w)) /\
  Forall (fun tm =>
            (handle tm < nextHandle w)%nat /\
            exists m, saveTimeouts (service w) = Some m /\
                      JsMap.get m (keyOf tm) = Some (handle tm))
         (timers w).

(** The store has the file and accepts saves. *)
Definition storeHasFile (d : Database) (projectId filePath : string)
    : Prop :=
  saveError d = None /\
  exists project file,
    projects d projectId = Found project /\
    Project.findFile project (Some filePath) = Some file.

(** No key has two pending timers. *)
Definition atMostOnePerKey (w : World) : Prop :=
  forall key, (List.length (pendingFor w key) <= 1)%nat.

(** The timer that [debouncedSave] sets for a file. *)
Definition theTimer (projectId filePath : string) (h : nat) (d : Z)
    (c : string) : Timer :=
  {| handle := h; due := d; t_projectId := projectId;
     t_filePath := filePath; t_content := Some c |}.

(** The last pending timer is the one of the file, with handle [h], due
    at [d] and carrying [c]; [this.saveTimeouts] holds [h] for the key
    of the file, and no other pending timer is filed under that key. *)
Definition focused (w : World) (projectId filePath : string) (h : nat)
    (d : Z) (c : string) : Prop :=
  exists rest m,
    timers w =
      (rest ++ [ {| handle := h; due := d; t_projectId := projectId;
                    t_filePath := filePath; t_content := Some c |} ])%list
    /\ Forall (fun tm => keyOf tm <> saveKey projectId filePath) rest
    /\ saveTimeouts (service w) = Some m
    /\ JsMap.get m (saveKey projectId filePath) = Some h.

(** The pending timers filed under [key] are known to
    [this.saveTimeouts]. *)
Definition keyTracked (w : World) (key : string) : Prop :=
  Forall (fun tm =>
            keyOf tm = key ->
            exists m, saveTimeouts (service w) = Some m /\
                      JsMap.get m key = Some (handle tm))
         (timers w).

End Debounce.

(** ** Reading the session directory *)

Module Directory.
Import Collab.

(** The project ids under which the directory holds a Session of the
    connection, in the order of the directory. *)
Definition roomsOfConnection (s : Service) (sid : string) : list string :=
  map fst (filter (fun e => JsMap.has (snd e) sid) (activeUsers s)).

(** The number of Sessions of a project's Room; a project without an
    entry has none. *)
Definition sessionCount (s : Service) (projectId : string) : nat :=
  JsMap.size (roomOf s projectId).

(** The entries of the directory that hold no Session. *)
Definition emptyRooms (s : Service) : list string :=
  map fst (filter (fun e => (JsMap.size (snd e) =? 0)%nat) (activeUsers s)).

(** Every Room of the directory has each connection at most once. *)
Definition roomsWf (s : Service) : Prop :=
  Forall (fun e => JsMap.wf (snd e)) (activeUsers s).

Inductive Presence : Type := Join | Leave.

(** One Join or Leave of [socket] on [projectId], straight on the relay. *)
Definition presenceStep (socket : Socket) (projectId : string) (w : World)
    (e : Z * Presence) : World :=
  match snd e with
  | Join => fst (handleUserJoin (fst e) w socket (Some projectId))
  | Leave => fst (handleUserLeave w socket)
  end.

Definition presenceRun (socket : Socket) (projectId : string) (w : World)
    (trace : list (Z * Presence)) : World :=
  fold_left (presenceStep socket projectId) trace w.

(** No project id has two entries, and no Room lists a connection
    twice. *)
Definition directoryWf (s : Service) : Prop :=
  JsMap.wf (activeUsers s) /\ roomsWf s.

(** Every entry of the directory holds at least one Session. *)
Definition noEmptyRoom (s : Service) : Prop :=
  Forall (fun e => JsMap.size (snd e) <> 0%nat) (activeUsers s).

(** What a run of Joins and Leaves of one connection on one project
    keeps true: the directory is empty, or it is the one Room of the
    project with the one Session of the connection. *)
Definition aloneOrAbsent (socket : Socket) (pid : string) (d : Database)
    (w : World) : Prop :=
  db w = d /\
  (activeUsers (service w) = [] \/
   exists session,
     activeUsers (service w) = [(pid, [(id socket, session)])]).

End Directory.

(** ** Concrete operations, connections and worlds *)

Module Scenario.
Import Collab.

Definition insertAt (p : Z) (s : string) : OT.Operation :=
  {| OT.type := Some "insert"; OT.position := p; OT.length := None;
     OT.text := Some s |}.

Definition deleteAt (p n : Z) : OT.Operation :=
  {| OT.type := Some "delete"; OT.position := p; OT.length := Some n;
     OT.text := None |}.

Definition queued (op : OT.Operation) (ts : Z) : OT.QueuedOp :=
  {| OT.operation := op; OT.content := None; OT.userId := Some "u1";
     OT.timestamp := Some ts |}.

(** One pending operation for file [main.js] of project [p1]. *)
Definition queueWith (prior : OT.QueuedOp) : JsMap.t (list OT.QueuedOp) :=
  [(OT.queueKey "p1" "main.js", [prior])].

Definition mainFile : Project.File :=
  {| Project.name := "main.js"; Project.path := "src/main.js";
     Project.content := "let x = 1;"; Project.language := "javascript";
     Project.size := 10; Project.parent := "src"; Project.version := 1;
     Project.history := []; Project.lastModified := 0;
     Project.modifiedBy := None |}.

(** Owned by alice; bob may write, carol may read, dave has not
    accepted his invitation. *)
Definition projectOne : Project.t :=
  {| Project.owner := "alice";
     Project.collaborators :=
       [ Project.mkCollaborator "bob" Project.role_write Project.accepted;
         Project.mkCollaborator "carol" Project.role_read Project.accepted;
         Project.mkCollaborator "dave" Project.role_write Project.pending ];
     Project.files := [mainFile];
     Project.activity := [] |}.

(** Owned by ghost, whose user record is gone. *)
Definition projectTwo : Project.t :=
  {| Project.owner := "ghost"; Project.collaborators := [];
     Project.files := []; Project.activity := [] |}.

Definition projectThree : Project.t :=
  {| Project.owner := "alice"; Project.collaborators := [];
     Project.files := []; Project.activity := [] |}.

Definition store : Database :=
  {| projects := fun k =>
       if String.eqb k "p1" then Found projectOne
       else if String.eqb k "p2" then Found projectTwo
       else if String.eqb k "p3" then Found projectThree
       else Missing;
     users := fun k =>
       if String.eqb k "alice" then Found (mkUser "alice" "Alice A" "a.png")
       else if String.eqb k "bob" then Found (mkUser "bob" "Bob B" "b.png")
       else if String.eqb k "carol"
       then Found (mkUser "carol" "Carol C" "c.png")
       else if String.eqb k "mallory"
       then Found (mkUser "mallory" "Mallory M" "m.png")
       else Missing;
     saveError := None |}.

Definition alice : Socket := {| id := "s-alice"; userId := Some "alice" |}.
Definition bob : Socket := {| id := "s-bob"; userId := Some "bob" |}.
Definition carol : Socket := {| id := "s-carol"; userId := Some "carol" |}.
Definition mallory : Socket :=
  {| id := "s-mallory"; userId := Some "mallory" |}.
Definition ghost : Socket := {| id := "s-ghost"; userId := Some "ghost" |}.


(** alice's connection has joined project p1 on a server that has
    just started. *)
Definition aliceInRoom : World :=
  fst (Server.run (initial store)
         [(0, Server.join_project alice (Some "p1"))]).

(** alice's and bob's connections have joined project p1. *)
Definition aliceAndBobInRoom : World :=
  fst (Server.run (initial store)
         [(0, Server.join_project alice (Some "p1"));
          (1, Server.join_project bob (Some "p1"))]).

(** alice's connection has joined p1; mallory's has asked to and has
    been turned away. *)
Definition malloryTurnedAway : World :=
  fst (Server.run (initial store)
         [(0, Server.join_project alice (Some "p1"));
          (1, Server.join_project mallory (Some "p1"))]).

Definition cursorInMain : CursorMoveData :=
  {| cm_projectId := Some "p1"; cm_filePath := Some "src/main.js";
     cm_position := Some {| line := 1; column := 2 |};
     cm_selection := None |}.

Definition editMain : CodeChangeData :=
  {| cc_projectId := Some "p1"; cc_filePath := Some "src/main.js";
     cc_operation := insertAt 4 "y";
     cc_content := Some "let y = 1;";
     cc_position := Some {| line := 1; column := 5 |};
     cc_timestamp := Some 10 |}.

(** A cursor-move that names the project and nothing else. *)
Definition cursorWithoutFile : CursorMoveData :=
  {| cm_projectId := Some "p1"; cm_filePath := None;
     cm_position := None; cm_selection := None |}.

Definition editWithoutFile : CodeChangeData :=
  {| cc_projectId := Some "p1"; cc_filePath := None;
     cc_operation := insertAt 4 "y";
     cc_content := Some "let y = 1;";
     cc_position := None; cc_timestamp := Some 10 |}.

Definition createWithoutPath : FileOperationData :=
  {| fo_projectId := Some "p1"; fo_operation := Some "create";
     fo_filePath := None; fo_newPath := None; fo_content := Some "x" |}.

Definition createMainAgain : FileOperationData :=
  {| fo_projectId := Some "p1"; fo_operation := Some "create";
     fo_filePath := Some "src/main.js"; fo_newPath := None;
     fo_content := Some "let z = 0;" |}.

(** An edit of [src/main.js] by its owner, with the full new content. *)
Definition editTo (content : string) (ts : Z) : CodeChangeData :=
  {| cc_projectId := Some "p1"; cc_filePath := Some "src/main.js";
     cc_operation := insertAt 0 "x";
     cc_content := Some content;
     cc_position := None; cc_timestamp := Some ts |}.

(** alice inserts four characters at offset 3, then bob, with a later
    timestamp, one character at offset 10. *)
Definition twoInserts : list (Z * Server.Inbound) :=
  [ (10, Server.code_change_in alice
           {| cc_projectId := Some "p1"; cc_filePath := Some "src/main.js";
              cc_operation := insertAt 3 "abcd";
              cc_content := Some "letabcd x = 1;";
              cc_position := None; cc_timestamp := Some 1 |});
    (11, Server.code_change_in bob
           {| cc_projectId := Some "p1"; cc_filePath := Some "src/main.js";
              cc_operation := insertAt 10 "!";
              cc_content := Some "let x = 1;!";
              cc_position := None; cc_timestamp := Some 2 |}) ].

(** Three edits within two seconds, the clock running in between and
    then past the delay. *)
Definition threeEdits : list (Z * Server.Inbound) :=
  [ (0, Server.code_change_in alice (editTo "one" 0));
    (600, Server.tick);
    (600, Server.code_change_in alice (editTo "two" 600));
    (1900, Server.tick);
    (1900, Server.code_change_in alice (editTo "three" 1900));
    (3000, Server.tick);
    (3900, Server.tick) ].

End Scenario.

(** ** Collaborators of a project ([models/Project.js]) *)

Module Collaborators.

Definition withCollaborators (p : Project.t)
    (cs : list Project.Collaborator) : Project.t :=
  {| Project.owner := Project.owner p; Project.collaborators := cs;
     Project.files := Project.files p; Project.activity := Project.activity p |}.

Definition isUser (userId : string) (c : Project.Collaborator) : bool :=
  String.eqb (Project.user c) userId.

(** [addCollaborator(userId, role, invitedBy)]: [role] defaults to read;
    who invited is not among the fields kept of a collaborator. *)
Definition addCollaborator (p : Project.t) (userId : string)
    (role : option Project.Role)
    : Result (Project.t * Project.Collaborator) :=
  match find (isUser userId) (Project.collaborators p) with
  | Some _ => Throw "User is already a collaborator"
  | None =>
      let c :=
        {| Project.user := userId;
           Project.role := match role with
                           | Some r => r
                           | None => Project.role_read
                           end;
           Project.status := Project.pending |} in
      Ok (withCollaborators p (Project.collaborators p ++ [c])%list, c)
  end.

(** [splice(collaboratorIndex, 1)] at the first entry of the user. *)
Fixpoint removeFirstOf (cs : list Project.Collaborator) (userId : string)
    : list Project.Collaborator :=
  match cs with
  | [] => []
  | c :: rest =>
      if isUser userId c then rest else c :: removeFirstOf rest userId
  end.

Definition removeCollaborator (p : Project.t) (userId : string)
    : Result Project.t :=
  match find (isUser userId) (Project.collaborators p) with
  | None => Throw "Collaborator not found"
  | Some _ =>
      Ok (withCollaborators p (removeFirstOf (Project.collaborators p) userId))
  end.

(** No user has two collaborator entries. *)
Definition uniqueUsers (p : Project.t) : Prop :=
  NoDup (map Project.user (Project.collaborators p)).

End Collaborators.

(** ** Diagnostics of the relay *)

Module Stats.
Import Collab.

Record ProjectStats : Type := mkProjectStats {
  ps_activeUsers : nat;
  ps_users : list UserData
}.

(** [getProjectStats(projectId)]: the listed users are copies of the
    Sessions, field by field. *)
Definition getProjectStats (s : Service) (projectId : string) : ProjectStats :=
  match JsMap.get (activeUsers s) projectId with
  | None => {| ps_activeUsers := O; ps_users := [] |}
  | Some projectUsers =>
      let users := JsMap.values projectUsers in
      {| ps_activeUsers := List.length users; ps_users := users |}
  end.

Record Analytics : Type := mkAnalytics {
  an_activeUsers : nat;
  an_totalOperations : nat;
  an_recentActivity : list OT.QueuedOp;
  an_cursors : list (string * CursorEntry)
}.

(** [operations.slice(-10)] *)
Definition lastTen (A : Type) (l : list A) : list A :=
  skipn (List.length l - 10) l.

(** [getAnalytics(projectId)]: the pending operations are looked up under
    the project id itself. *)
Definition getAnalytics (s : Service) (projectId : string) : Analytics :=
  let projectUsers := JsMap.get (activeUsers s) projectId in
  let operations :=
    match JsMap.get (operationQueue s) projectId with
    | Some q => q
    | None => []
    end in
  {| an_activeUsers := match projectUsers with
                       | Some m => JsMap.size m
                       | None => O
                       end;
     an_totalOperations := List.length operations;
     an_recentActivity := lastTen operations;
     an_cursors :=
       filter (fun e => match projectUsers with
                        | Some m => JsMap.has m (fst e)
                        | None => false
                        end) (cursors s) |}.

End Stats.

(** ** What the further properties speak of *)

Module Observing.
Import Collab.

(** The lengths that a list of pending inserts adds up to. *)
Definition sumInserted (pendingOps : list OT.QueuedOp) : Z :=
  fold_right (fun p acc => OT.insertedLength (OT.operation p) + acc) 0
             pendingOps.

(** The pending operations of a file. *)
Definition pendingOf (q : JsMap.t (list OT.QueuedOp))
    (projectId filePath : string) : list OT.QueuedOp :=
  match JsMap.get q (OT.queueKey projectId filePath) with
  | Some l => l
  | None => []
  end.

Fixpoint hasColon (s : string) : bool :=
  match s with
  | EmptyString => false
  | String c rest => Ascii.eqb c ":"%char || hasColon rest
  end.

Fixpoint hasSlash (s : string) : bool :=
  match s with
  | EmptyString => false
  | String c rest => Ascii.eqb c Project.slash || hasSlash rest
  end.

(** Every queue of pending operations holds between one and a hundred
    entries, under a key with a colon. *)
Definition queuesBounded (s : Service) : Prop :=
  Forall (fun e => (1 <= List.length (snd e) <= 100)%nat
                   /\ hasColon (fst e) = true)
         (operationQueue s).

(** Every Session is filed under the identifier of its connection. *)
Definition sessionsKeyed (s : Service) : Prop :=
  Forall (fun e => Forall (fun kv => ud_socketId (snd kv) = fst kv) (snd e))
         (activeUsers s).

(** The number of Sessions in all Rooms. *)
Definition totalSessions (s : Service) : nat :=
  list_sum (map (fun e => JsMap.size (snd e)) (activeUsers s)).

(** No path names two files. *)
Definition uniquePaths (p : Project.t) : Prop :=
  NoDup (map Project.path (Project.files p)).

(** The history of a file has one entry per version. *)
Definition versioned (f : Project.File) : Prop :=
  Z.of_nat (List.length (Project.history f)) = Project.version f.

(** A world that some run reaches from a server that has just started. *)
Definition reachable (w : World) : Prop :=
  exists d trace, w = fst (Server.run (initial d) trace).

End Observing.

(** ** Further concrete cases *)

Module Cases.
Import Collab.

(** A pending delete of [n] characters at offset [p], queued at [ts]. *)
Definition queuedDelete (p n ts : Z) : OT.QueuedOp :=
  Scenario.queued (Scenario.deleteAt p n) ts.

Definition queuedInsert (p : Z) (s : string) (ts : Z) : OT.QueuedOp :=
  Scenario.queued (Scenario.insertAt p s) ts.

(** Pending operations for file [main.js] of project [p1]. *)
Definition queueOf (pendingOps : list OT.QueuedOp)
    : JsMap.t (list OT.QueuedOp) :=
  [(OT.queueKey "p1" "main.js", pendingOps)].

End Cases.

Module Cases2.
Import Collab.

(** alice and bob join p1 and each makes an insert into [src/main.js]. *)
Definition joinsAndInserts : list (Z * Server.Inbound) :=
  ((0, Server.join_project Scenario.alice (Some "p1"))
   :: (1, Server.join_project Scenario.bob (Some "p1"))
   :: Scenario.twoInserts)%list.

End Cases2.

Module Cases3.

(** A second file beside [src/main.js], in a project of alice. *)
Definition readme : Project.File :=
  {| Project.name := "README.md"; Project.path := "README.md";
     Project.content := "hello"; Project.language := "markdown";
     Project.size := 5; Project.parent := "/"; Project.version := 1;
     Project.history :=
       [ {| Project.h_version := 1; Project.h_content := "hello";
            Project.h_modifiedBy := None; Project.h_modifiedAt := 0 |} ];
     Project.lastModified := 0; Project.modifiedBy := None |}.

Definition twoFiles : Project.t :=
  {| Project.owner := "alice"; Project.collaborators := [];
     Project.files := [Scenario.mainFile; readme];
     Project.activity := [] |}.

End Cases3.

Module Cases4.
Import Collab.

(** alice and bob are in the Room of p1; alice was last active at 0, bob
    at 120000 milliseconds. *)
Definition aliceIdleBobActive : World :=
  fst (Server.run (initial Scenario.store)
         [(0, Server.join_project Scenario.alice (Some "p1"));
          (1, Server.join_project Scenario.bob (Some "p1"));
          (120000, Server.cursor_move_in Scenario.bob Scenario.cursorInMain)]).

End Cases4.

Module Cases5.
Import Collab.

(** alice is in the Room of p1; mallory, who was never let in, has moved
    its cursor. *)
Definition malloryMovedCursor : World :=
  fst (Server.run (initial Scenario.store)
         [(0, Server.join_project Scenario.alice (Some "p1"));
          (1, Server.cursor_move_in Scenario.mallory Scenario.cursorInMain)]).

(** The projects of [Scenario.store], and a user record under every id. *)
Definition everyoneKnown : Database :=
  {| projects := projects Scenario.store;
     users := fun k => Found (mkUser k k "");
     saveError := None |}.

(** Joins, a Leave and a sweep, also by the owner of p2. *)
Definition comingAndGoing : list (Z * Server.Inbound) :=
  [ (0, Server.join_project Scenario.alice (Some "p1"));
    (1, Server.join_project Scenario.ghost (Some "p2"));
    (2, Server.join_project Scenario.bob (Some "p1"));
    (3, Server.disconnect Scenario.alice);
    (400000, Server.sweep) ].

End Cases5.

Module Writes.
Import Collab.

(** The save was made to project [pid]. *)
Definition writesTo (pid : string) (e : StoreWrite) : bool :=
  match e with
  | FileSaved p _ _ _ => String.eqb p pid
  | FileOpSaved p _ _ => String.eqb p pid
  end.

(** Every code-change and file-operation of the trace that names project
    [pid] comes from a connection of user [uid]. *)
Definition onlyBy (uid : option string) (pid : string)
    (trace : list (Z * Server.Inbound)) : Prop :=
  Forall (fun te =>
            match snd te with
            | Server.code_change_in socket data =>
                cc_projectId data = Some pid -> userId socket = uid
            | Server.file_operation_in socket data =>
                fo_projectId data = Some pid -> userId socket = uid
            | _ => True
            end) trace.

(** The project is stored as [project], no pending timer is for it, and
    no save was made to it. *)
Definition untouched (pid : string) (project : Project.t) (w : World)
    : Prop :=
  projects (db w) pid = Found project
  /\ Forall (fun tm => t_projectId tm <> pid) (timers w)
  /\ Forall (fun e => writesTo pid e = false) (saveLog w).

(** carol, who may read p1 and not write it, tries to edit and to create
    a file there; alice creates a file in p3; the clock runs past the
    delay of the saves. *)
Definition carolTries : list (Z * Server.Inbound) :=
  [ (0, Server.join_project Scenario.carol (Some "p1"));
    (1, Server.code_change_in Scenario.carol Scenario.editMain);
    (2, Server.file_operation_in Scenario.carol
          {| fo_projectId := Some "p1"; fo_operation := Some "delete";
             fo_filePath := Some "src/main.js"; fo_newPath := None;
             fo_content := None |});
    (3, Server.file_operation_in Scenario.alice
          {| fo_projectId := Some "p3"; fo_operation := Some "create";
             fo_filePath := Some "a.txt"; fo_newPath := None;
             fo_content := Some "a" |});
    (5000, Server.tick) ].

(** bob creates [docs/notes.md] in p1. *)
Definition createNotes : FileOperationData :=
  {| fo_projectId := Some "p1"; fo_operation := Some "create";
     fo_filePath := Some "docs/notes.md"; fo_newPath := None;
     fo_content := None |}.

End Writes.

(** * Properties *)

(** ** Insertion-ordered maps *)

Section JsMapFacts.
Variable V : Type.
Implicit Types (m : JsMap.t V) (k : string) (v : V).

Lemma get_set_same m k v : JsMap.get (JsMap.set m k v) k = Some v.
Proof.
  induction m as [|[k' v'] m IH]; simpl.
  - now rewrite String.eqb_refl.
  - destruct (String.eqb k' k) eqn:E; simpl.
    + now rewrite String.eqb_refl.
    + now rewrite E.
Qed.

Lemma get_set_other m k k' v :
  k <> k' -> JsMap.get (JsMap.set m k v) k' = JsMap.get m k'.
Proof.
  intros Hne. induction m as [|[k0 v0] m IH]; simpl.
  - apply String.eqb_neq in Hne. now rewrite Hne.
  - destruct (String.eqb k0 k) eqn:E; simpl.
    + apply String.eqb_eq in E. subst k0.
      apply String.eqb_neq in Hne. now rewrite Hne.
    + now rewrite IH.
Qed.

Lemma get_None_not_key m k :
  JsMap.get m k = None -> ~ In k (JsMap.keys m).
Proof.
  induction m as [|[k' v'] m IH]; simpl; [tauto|].
  destruct (String.eqb k' k) eqn:E; [discriminate|].
  apply String.eqb_neq in E. intros H [Hk|Hk]; [congruence|now apply IH].
Qed.

Lemma get_Some_key m k v :
  JsMap.get m k = Some v -> In k (JsMap.keys m).
Proof.
  induction m as [|[k' v'] m IH]; simpl; [discriminate|].
  destruct (String.eqb k' k) eqn:E.
  - apply String.eqb_eq in E. now left.
  - intros H. right. now apply IH.
Qed.

Lemma key_get_Some m k :
  In k (JsMap.keys m) -> exists v, JsMap.get m k = Some v.
Proof.
  induction m as [|[k' v'] m IH]; simpl; [tauto|].
  destruct (String.eqb k' k) eqn:E; [eauto|].
  apply String.eqb_neq in E. intros [Hk|Hk]; [congruence|now apply IH].
Qed.

Lemma keys_set m k v :
  JsMap.keys (JsMap.set m k v) =
  if JsMap.has m k then JsMap.keys m else (JsMap.keys m ++ [k])%list.
Proof.
  unfold JsMap.has. induction m as [|[k' v'] m IH]; simpl; [reflexivity|].
  destruct (String.eqb k' k) eqn:E; simpl.
  - apply String.eqb_eq in E. now subst.
  - rewrite IH. now destruct (JsMap.get m k).
Qed.

Lemma wf_set m k v : JsMap.wf m -> JsMap.wf (JsMap.set m k v).
Proof.
  unfold JsMap.wf. intros Hwf. rewrite keys_set. unfold JsMap.has.
  destruct (JsMap.get m k) eqn:E; [assumption|].
  apply get_None_not_key in E.
  apply NoDup_app; [assumption | repeat constructor; simpl; tauto |].
  intros x Hx [Hk|[]]. now subst.
Qed.

Lemma keys_delete_incl m k x :
  In x (JsMap.keys (JsMap.delete m k)) -> In x (JsMap.keys m).
Proof.
  induction m as [|[k' v'] m IH]; simpl; [tauto|].
  destruct (String.eqb k' k); simpl; [tauto|].
  intros [H|H]; [now left | right; now apply IH].
Qed.

Lemma wf_delete m k : JsMap.wf m -> JsMap.wf (JsMap.delete m k).
Proof.
  unfold JsMap.wf. induction m as [|[k' v'] m IH]; simpl; [trivial|].
  intros Hwf. inversion Hwf as [|? ? Hnin Hnd]; subst.
  destruct (String.eqb k' k); simpl; [assumption|].
  constructor; [|now apply IH].
  intros Hin. apply Hnin. now apply keys_delete_incl in Hin.
Qed.

Lemma get_delete_same m k :
  JsMap.wf m -> JsMap.get (JsMap.delete m k) k = None.
Proof.
  unfold JsMap.wf. induction m as [|[k' v'] m IH]; simpl; [trivial|].
  intros Hwf. inversion Hwf as [|? ? Hnin Hnd]; subst.
  destruct (String.eqb k' k) eqn:E; simpl.
  - apply String.eqb_eq in E. subst k'.
    destruct (JsMap.get m k) eqn:G; [|reflexivity].
    apply get_Some_key in G. contradiction.
  - rewrite E. now apply IH.
Qed.

Lemma get_delete_other m k k' :
  k <> k' -> JsMap.get (JsMap.delete m k) k' = JsMap.get m k'.
Proof.
  intros Hne. induction m as [|[k0 v0] m IH]; simpl; [trivial|].
  destruct (String.eqb k0 k) eqn:E; simpl.
  - apply String.eqb_eq in E. subst k0.
    apply String.eqb_neq in Hne. now rewrite Hne.
  - now rewrite IH.
Qed.

End JsMapFacts.

(** ** Positional adjustment *)

Section Transform.
Import OT.

Lemma transformOperation_single q pid fp op prior ts :
  JsMap.get q (queueKey pid fp) = Some [prior] ->
  tsLt (timestamp prior) ts = true ->
  transformOperation q pid op fp ts =
  transformAgainstOperation op (operation prior).
Proof.
  intros Hq Hts. unfold transformOperation. rewrite Hq. simpl.
  now rewrite Hts.
Qed.

Lemma isType_insert_not_delete op :
  isType op "insert" = true -> isType op "delete" = false.
Proof.
  unfold isType. destruct (type op) as [s|]; [|discriminate].
  intros H. apply String.eqb_eq in H. now subst s.
Qed.

Lemma isType_delete_not_insert op :
  isType op "delete" = true -> isType op "insert" = false.
Proof.
  unfold isType. destruct (type op) as [s|]; [|discriminate].
  intros H. apply String.eqb_eq in H. now subst s.
Qed.

Lemma withPosition_same op : withPosition op (position op) = op.
Proof. now destruct op. Qed.

End Transform.



(** The second example through the handlers: with alice and bob in the
    Room of p1, bob's insert arrives at alice moved from offset 10 to
    offset 14. *)
Example two_inserts_through_the_relay :
  snd (Server.run Scenario.aliceAndBobInRoom Scenario.twoInserts) =
  [ ("s-bob",
     Collab.code_change "s-alice" "src/main.js" (Scenario.insertAt 3 "abcd")
       (Some "letabcd x = 1;") None (Some 1) (Some "alice"));
    ("s-alice",
     Collab.code_change "s-bob" "src/main.js" (Scenario.insertAt 14 "!")
       (Some "let x = 1;!") None (Some 2) (Some "bob")) ].
Proof. reflexivity. Qed.




(** ** The session directory *)

Section DirectoryFacts.
Import Collab Directory.

Lemma In_set_other (V : Type) (m : JsMap.t V) k k' v v' :
  In (k, v) m -> k <> k' -> In (k, v) (JsMap.set m k' v').
Proof.
  intros Hin Hne. induction m as [|[k0 v0] m IH]; simpl in *; [tauto|].
  destruct (String.eqb k0 k') eqn:E.
  - apply String.eqb_eq in E. subst k0.
    destruct Hin as [H|H]; [congruence | now right].
  - destruct Hin as [H|H]; [now left | right; now apply IH].
Qed.

Lemma In_set_same (V : Type) (m : JsMap.t V) k v :
  In (k, v) (JsMap.set m k v).
Proof.
  induction m as [|[k0 v0] m IH]; simpl; [now left|].
  destruct (String.eqb k0 k); [now left | now right].
Qed.

Lemma roomsOfConnection_spec s sid pid :
  In pid (roomsOfConnection s sid) <->
  exists projectUsers,
    In (pid, projectUsers) (activeUsers s) /\
    JsMap.has projectUsers sid = true.
Proof.
  unfold roomsOfConnection. rewrite in_map_iff. split.
  - intros [[k v] [Hk Hin]]. simpl in Hk. subst k.
    apply filter_In in Hin. now exists v.
  - intros [v [Hin Hhas]]. exists (pid, v). split; [reflexivity|].
    apply filter_In. now split.
Qed.

(** What a Join that passes every check does to the directory. *)
Lemma handleUserJoin_granted now w socket pid uid project user :
  userId socket = Some uid ->
  uid <> "" ->
  projects (db w) pid = Found project ->
  Project.canUserAccess project (Some uid) Project.act_read = true ->
  users (db w) uid = Found user ->
  activeUsers (service (fst (handleUserJoin now w socket (Some pid)))) =
    JsMap.set
      (if JsMap.has (activeUsers (service w)) pid
       then activeUsers (service w)
       else JsMap.set (activeUsers (service w)) pid [])
      pid
      (JsMap.set (roomOf (service w) pid) (id socket)
         (newSession now socket uid user))
  /\ db (fst (handleUserJoin now w socket (Some pid))) = db w.
Proof.
  intros Huid Hne Hproj Hacc Huser.
  unfold handleUserJoin. rewrite Huid. simpl falsy.
  apply String.eqb_neq in Hne. rewrite Hne.
  simpl findProjectById. rewrite Hproj, Hacc. simpl negb. cbv iota.
  cbv zeta. simpl db. rewrite Huser. simpl fst.
  split; [|reflexivity].
  simpl. unfold roomOf. simpl. unfold JsMap.has.
  destruct (JsMap.get (activeUsers (service w)) pid) eqn:G.
  - now rewrite G.
  - now rewrite get_set_same.
Qed.

Lemma has_set_same (V : Type) (m : JsMap.t V) k v :
  JsMap.has (JsMap.set m k v) k = true.
Proof. unfold JsMap.has. now rewrite get_set_same. Qed.

Lemma has_delete_same (V : Type) (m : JsMap.t V) k :
  JsMap.wf m -> JsMap.has (JsMap.delete m k) k = false.
Proof. intros Hwf. unfold JsMap.has. now rewrite get_delete_same. Qed.

Lemma has_get (V : Type) (m : JsMap.t V) k :
  JsMap.has m k = false -> JsMap.get m k = None.
Proof. unfold JsMap.has. now destruct (JsMap.get m k). Qed.

(** The loop of Leave on a connection that sits in at most one Room. *)
Lemma leaveLoop_clears entries sid :
  Forall (fun e => JsMap.wf (snd e)) entries ->
  (List.length (filter (fun e => JsMap.has (snd e) sid) entries) <= 1)%nat ->
  filter (fun e : string * JsMap.t UserData => JsMap.has (snd e) sid)
         (snd (leaveLoop entries sid)) = [].
Proof.
  induction entries as [|[pid projectUsers] rest IH]; simpl;
    [reflexivity|].
  intros Hwf Hone. inversion Hwf as [|? ? Hwf0 Hwfr]; subst.
  simpl in Hwf0. unfold JsMap.has at 1 in Hone.
  destruct (JsMap.get projectUsers sid) as [userData|] eqn:G.
  - simpl in Hone.
    assert (Hrest : filter (fun e : string * JsMap.t UserData =>
                              JsMap.has (snd e) sid) rest = []).
    { destruct (filter _ rest); [reflexivity | simpl in Hone; lia]. }
    simpl. destruct (JsMap.size (JsMap.delete projectUsers sid) =? 0)%nat.
    + exact Hrest.
    + simpl. rewrite (has_delete_same _ Hwf0). exact Hrest.
  - destruct (leaveLoop rest sid) as [found rest'] eqn:L. simpl.
    unfold JsMap.has at 1. rewrite G.
    exact (IH Hwfr Hone).
Qed.

Lemma leaveLoop_none entries sid :
  fst (leaveLoop entries sid) = None ->
  snd (leaveLoop entries sid) = entries.
Proof.
  induction entries as [|[pid projectUsers] rest IH]; simpl;
    [reflexivity|].
  destruct (JsMap.get projectUsers sid); [discriminate|].
  destruct (leaveLoop rest sid) as [found rest']. simpl in *.
  intros H. now rewrite (IH H).
Qed.

Lemma handleUserLeave_directory w socket :
  activeUsers (service (fst (handleUserLeave w socket))) =
  snd (leaveLoop (activeUsers (service w)) (id socket)).
Proof.
  unfold handleUserLeave.
  destruct (leaveLoop (activeUsers (service w)) (id socket))
    as [[[projectId userData]|] au] eqn:L; simpl.
  - reflexivity.
  - symmetry. change au with (snd (@None (string * UserData), au)).
    rewrite <- L. apply leaveLoop_none. now rewrite L.
Qed.

Lemma get_In (V : Type) (m : JsMap.t V) k v :
  JsMap.get m k = Some v -> In (k, v) m.
Proof.
  induction m as [|[k' v'] m IH]; simpl; [discriminate|].
  destruct (String.eqb k' k) eqn:E.
  - apply String.eqb_eq in E. intros H. inversion H; subst. now left.
  - intros H. right. now apply IH.
Qed.

Lemma Forall_set (V : Type) (P : string * V -> Prop) (m : JsMap.t V) k v :
  Forall P m -> P (k, v) -> Forall P (JsMap.set m k v).
Proof.
  intros Hm Hkv. induction Hm as [|[k' v'] m Hx Hm IH]; simpl.
  - now constructor.
  - destruct (String.eqb k' k); constructor; assumption.
Qed.

Lemma set_set (V : Type) (m : JsMap.t V) k v0 v :
  JsMap.set (JsMap.set m k v0) k v = JsMap.set m k v.
Proof.
  induction m as [|[k' v'] m IH]; simpl.
  - now rewrite String.eqb_refl.
  - destruct (String.eqb k' k) eqn:E; simpl.
    + now rewrite String.eqb_refl.
    + now rewrite E, IH.
Qed.

Lemma set_nonempty (V : Type) (m : JsMap.t V) k v :
  JsMap.size (JsMap.set m k v) <> 0%nat.
Proof.
  destruct m as [|[k' v'] m]; simpl; [discriminate|].
  destruct (String.eqb k' k); discriminate.
Qed.

(** The directory after a Join that passes every check, in one [set]. *)
Lemma handleUserJoin_granted_set now w socket pid uid project user :
  userId socket = Some uid ->
  uid <> "" ->
  projects (db w) pid = Found project ->
  Project.canUserAccess project (Some uid) Project.act_read = true ->
  users (db w) uid = Found user ->
  activeUsers (service (fst (handleUserJoin now w socket (Some pid)))) =
    JsMap.set (activeUsers (service w)) pid
      (JsMap.set (roomOf (service w) pid) (id socket)
         (newSession now socket uid user)).
Proof.
  intros Huid Hne Hproj Hacc Huser.
  destruct (handleUserJoin_granted now w socket pid Huid Hne Hproj Hacc
              Huser) as [Hau _].
  rewrite Hau.
  destruct (JsMap.has (activeUsers (service w)) pid);
    [reflexivity | apply set_set].
Qed.

Lemma leaveLoop_keys entries sid k :
  In k (JsMap.keys (snd (leaveLoop entries sid))) ->
  In k (JsMap.keys entries).
Proof.
  induction entries as [|[pid projectUsers] rest IH]; simpl; [tauto|].
  destruct (JsMap.get projectUsers sid).
  - simpl. destruct (JsMap.size _ =? 0)%nat; simpl; tauto.
  - destruct (leaveLoop rest sid) as [found rest']. simpl in *.
    intros [H|H]; [now left | right; now apply IH].
Qed.

Lemma leaveLoop_wf entries sid :
  JsMap.wf entries ->
  Forall (fun e => JsMap.wf (snd e)) entries ->
  JsMap.wf (snd (leaveLoop entries sid))
  /\ Forall (fun e : string * JsMap.t UserData => JsMap.wf (snd e))
       (snd (leaveLoop entries sid)).
Proof.
  unfold JsMap.wf at 1 3.
  induction entries as [|[pid projectUsers] rest IH]; simpl;
    [split; constructor|].
  intros Hnd Hall. inversion Hnd as [|? ? Hnin Hnd']; subst.
  inversion Hall as [|? ? Hwf0 Hallr]; subst. simpl in Hwf0.
  destruct (JsMap.get projectUsers sid).
  - simpl. destruct (JsMap.size _ =? 0)%nat; simpl; [now split|].
    split; [now constructor|].
    constructor; [now apply wf_delete | exact Hallr].
  - pose proof (@leaveLoop_keys rest sid) as Hkeys.
    destruct (IH Hnd' Hallr) as [IH1 IH2].
    destruct (leaveLoop rest sid) as [found rest']. simpl in *.
    split; [|now constructor].
    constructor; [|exact IH1]. intros Hin. apply Hnin. now apply Hkeys.
Qed.

Lemma leaveLoop_inhabited entries sid :
  Forall (fun e : string * JsMap.t UserData =>
            JsMap.size (snd e) <> 0%nat) entries ->
  Forall (fun e : string * JsMap.t UserData =>
            JsMap.size (snd e) <> 0%nat) (snd (leaveLoop entries sid)).
Proof.
  induction 1 as [|[pid projectUsers] rest Hx Hrest IH]; simpl;
    [constructor|].
  destruct (JsMap.get projectUsers sid).
  - simpl. destruct (JsMap.size _ =? 0)%nat eqn:E; [exact Hrest|].
    constructor; [|exact Hrest]. simpl. now apply Nat.eqb_neq.
  - destruct (leaveLoop rest sid) as [found rest']. simpl in *.
    now constructor.
Qed.

Lemma sweepRoom_keys now projectUsers k :
  In k (JsMap.keys (fst (sweepRoom now projectUsers))) ->
  In k (JsMap.keys projectUsers).
Proof.
  induction projectUsers as [|[sid u] rest IH]; simpl; [tauto|].
  destruct (sweepRoom now rest) as [kept evicted]. simpl in *.
  destruct (isInactive now u); simpl; [tauto|].
  intros [H|H]; [now left | right; now apply IH].
Qed.

Lemma sweepRoom_wf now projectUsers :
  JsMap.wf projectUsers -> JsMap.wf (fst (sweepRoom now projectUsers)).
Proof.
  unfold JsMap.wf.
  induction projectUsers as [|[sid u] rest IH]; simpl; [trivial|].
  intros Hnd. inversion Hnd as [|? ? Hnin Hnd']; subst.
  pose proof (@sweepRoom_keys now rest) as Hkeys.
  specialize (IH Hnd').
  destruct (sweepRoom now rest) as [kept evicted]. simpl in *.
  destruct (isInactive now u); simpl; [exact IH|].
  constructor; [|exact IH]. intros Hin. apply Hnin. now apply Hkeys.
Qed.

Lemma sweepRooms_keys now rs entries k :
  In k (JsMap.keys (fst (fst (sweepRooms now rs entries)))) ->
  In k (JsMap.keys entries).
Proof.
  induction entries as [|[pid projectUsers] rest IH]; simpl; [tauto|].
  destruct (sweepRoom now projectUsers) as [kept evicted].
  destruct (sweepRooms now rs rest) as [[rest' gone] out]. simpl in *.
  destruct (JsMap.size kept =? 0)%nat; simpl; [tauto|].
  intros [H|H]; [now left | right; now apply IH].
Qed.

Lemma sweepRooms_wf now rs entries :
  JsMap.wf entries ->
  Forall (fun e => JsMap.wf (snd e)) entries ->
  JsMap.wf (fst (fst (sweepRooms now rs entries)))
  /\ Forall (fun e : string * JsMap.t UserData => JsMap.wf (snd e))
       (fst (fst (sweepRooms now rs entries))).
Proof.
  unfold JsMap.wf at 1 3.
  induction entries as [|[pid projectUsers] rest IH]; simpl;
    [split; constructor|].
  intros Hnd Hall. inversion Hnd as [|? ? Hnin Hnd']; subst.
  inversion Hall as [|? ? Hwf0 Hallr]; subst. simpl in Hwf0.
  pose proof (@sweepRoom_wf now projectUsers Hwf0) as Hkept.
  pose proof (@sweepRooms_keys now rs rest) as Hkeys.
  destruct (IH Hnd' Hallr) as [IH1 IH2].
  destruct (sweepRoom now projectUsers) as [kept evicted].
  destruct (sweepRooms now rs rest) as [[rest' gone] out]. simpl in *.
  destruct (JsMap.size kept =? 0)%nat; simpl; [now split|].
  split; [|now constructor].
  constructor; [|exact IH1]. intros Hin. apply Hnin. now apply Hkeys.
Qed.

(** The sweep drops every entry that holds no Session, whether it emptied
    it or found it empty. *)
Lemma sweepRooms_inhabited now rs entries :
  Forall (fun e : string * JsMap.t UserData =>
            JsMap.size (snd e) <> 0%nat)
         (fst (fst (sweepRooms now rs entries))).
Proof.
  induction entries as [|[pid projectUsers] rest IH]; simpl;
    [constructor|].
  destruct (sweepRoom now projectUsers) as [kept evicted].
  destruct (sweepRooms now rs rest) as [[rest' gone] out]. simpl in *.
  destruct (JsMap.size kept =? 0)%nat eqn:E; [exact IH|].
  constructor; [|exact IH]. simpl. now apply Nat.eqb_neq.
Qed.

(** On every path but the failed user lookup the relay leaves no entry
    without Session behind: not a Join that passes the checks, not a
    Leave, not a cursor-move, and the sweep leaves none at all. *)
Lemma other_paths_leave_no_empty_room now w socket :
  noEmptyRoom (service w) ->
  (forall pid uid project user,
      userId socket = Some uid -> uid <> "" ->
      projects (db w) pid = Found project ->
      Project.canUserAccess project (Some uid) Project.act_read = true ->
      users (db w) uid = Found user ->
      noEmptyRoom (service (fst (handleUserJoin now w socket (Some pid)))))
  /\ noEmptyRoom (service (fst (handleUserLeave w socket)))
  /\ (forall data,
        noEmptyRoom (service (fst (handleCursorMove now w socket data))))
  /\ noEmptyRoom (service (fst (cleanupInactiveUsers now w))).
Proof.
  intros H. unfold noEmptyRoom in *. split; [|split; [|split]].
  - intros pid uid project user Huid Hne Hproj Hacc Huser.
    rewrite (@handleUserJoin_granted_set now w socket pid uid project user
               Huid Hne Hproj Hacc Huser).
    apply Forall_set; [exact H | apply set_nonempty].
  - rewrite handleUserLeave_directory. now apply leaveLoop_inhabited.
  - intros data. unfold handleCursorMove. simpl.
    destruct (cm_projectId data) as [pid|]; [|exact H].
    destruct (JsMap.get (activeUsers (service w)) pid) as [room|];
      [|exact H].
    destruct (JsMap.get room (id socket)); [|exact H].
    apply Forall_set; [exact H | apply set_nonempty].
  - unfold cleanupInactiveUsers.
    pose proof (sweepRooms_inhabited now (rooms w)
                  (activeUsers (service w))) as Hs.
    destruct (sweepRooms now (rooms w) (activeUsers (service w)))
      as [[au gone] out]. exact Hs.
Qed.

End DirectoryFacts.

(** C4, at the input where it fails. The server has just started; the
    connection of user ghost, who owns project p2 but whose user record
    cannot be found, asks to join p2: it gets the error of a failed join,
    and the directory keeps an entry for p2 that holds no Session. *)
Theorem C4_failed_lookup_leaves_empty_room :
  let result :=
    Server.onJoinProject 0 (Collab.initial Scenario.store) Scenario.ghost
      (Some "p2") in
  snd result =
    [("s-ghost", Collab.collaboration_error "Failed to join project")]
  /\ Collab.activeUsers (Collab.service (fst result)) = [("p2", [])]
  /\ Directory.sessionCount (Collab.service (fst result)) "p2" = 0%nat
  /\ Directory.emptyRooms (Collab.service (fst result)) = ["p2"].
Proof. cbv zeta. repeat split; reflexivity. Qed.

(** Against C5 as stated: alice's connection joins project p1 and then
    project p3, both of which she owns; the directory then holds it in the
    Rooms of p1 and of p3, and after its disconnect still in that of p3. *)
Lemma C5_connection_in_two_rooms :
  let w :=
    fst (Server.run (Collab.initial Scenario.store)
           [(0, Server.join_project Scenario.alice (Some "p1"));
            (1, Server.join_project Scenario.alice (Some "p3"))]) in
  Directory.roomsOfConnection (Collab.service w) "s-alice" = ["p1"; "p3"]
  /\ Directory.roomsOfConnection
       (Collab.service (fst (Server.onDisconnect w Scenario.alice)))
       "s-alice" = ["p3"].
Proof. cbv zeta. split; reflexivity. Qed.

(** C5, as the code has it. A Join that passes the checks puts the
    connection into the Room of the project joined and takes it out of no
    Room it was in; a Leave of a connection that is in at most one Room
    (each Room listing a connection once) leaves it in no Room. *)
Theorem C5_join_adds_room_leave_clears_single_room :
  (forall now w socket pid uid project user,
      Collab.userId socket = Some uid ->
      uid <> "" ->
      Collab.projects (Collab.db w) pid = Found project ->
      Project.canUserAccess project (Some uid) Project.act_read = true ->
      Collab.users (Collab.db w) uid = Found user ->
      let s' :=
        Collab.service (fst (Collab.handleUserJoin now w socket (Some pid))) in
      In pid (Directory.roomsOfConnection s' (Collab.id socket))
      /\ forall other,
           In other (Directory.roomsOfConnection (Collab.service w)
                       (Collab.id socket)) ->
           In other (Directory.roomsOfConnection s' (Collab.id socket)))
  /\
  (forall w socket,
      Directory.roomsWf (Collab.service w) ->
      (List.length (Directory.roomsOfConnection (Collab.service w)
                      (Collab.id socket)) <= 1)%nat ->
      Directory.roomsOfConnection
        (Collab.service (fst (Collab.handleUserLeave w socket)))
        (Collab.id socket) = []).
Proof.
  split.
  - intros now w socket pid uid project user Huid Hne Hproj Hacc Huser s'.
    destruct (handleUserJoin_granted now w socket pid Huid Hne Hproj Hacc
                Huser) as [Hau _].
    assert (Hpid : In pid (Directory.roomsOfConnection s' (Collab.id socket))).
    { apply roomsOfConnection_spec. subst s'. rewrite Hau.
      eexists. split; [apply In_set_same | apply has_set_same]. }
    split; [exact Hpid|].
    intros other Hother.
    destruct (string_dec other pid) as [->|Hne']; [exact Hpid|].
    apply roomsOfConnection_spec in Hother.
    destruct Hother as [projectUsers [Hin Hhas]].
    apply roomsOfConnection_spec. exists projectUsers.
    split; [|exact Hhas]. subst s'. rewrite Hau.
    apply In_set_other; [|exact Hne'].
    destruct (JsMap.has (Collab.activeUsers (Collab.service w)) pid);
      [exact Hin | now apply In_set_other].
  - intros w socket Hwf Hone.
    unfold Directory.roomsOfConnection in *.
    rewrite handleUserLeave_directory.
    rewrite leaveLoop_clears; [reflexivity | exact Hwf |].
    now rewrite length_map in Hone.
Qed.

(** C5 at alice's connection: it joins p3 while in the Room of p1 and is
    then in both; on a directory where it is in the Room of p1 only, its
    Leave takes it out of every Room. *)
Lemma C5_join_then_leave_example :
  let w1 :=
    fst (Server.run (Collab.initial Scenario.store)
           [(0, Server.join_project Scenario.alice (Some "p1"))]) in
  let w2 := fst (Collab.handleUserJoin 1 w1 Scenario.alice (Some "p3")) in
  (In "p3" (Directory.roomsOfConnection (Collab.service w2) "s-alice")
   /\ In "p1" (Directory.roomsOfConnection (Collab.service w2) "s-alice"))
  /\ Directory.roomsOfConnection
       (Collab.service (fst (Collab.handleUserLeave w1 Scenario.alice)))
       "s-alice" = [].
Proof.
  cbv zeta. split.
  - destruct (proj1 C5_join_adds_room_leave_clears_single_room 1
                (fst (Server.run (Collab.initial Scenario.store)
                        [(0, Server.join_project Scenario.alice (Some "p1"))]))
                Scenario.alice "p3" "alice" Scenario.projectThree
                (Collab.mkUser "alice" "Alice A" "a.png")
                eq_refl ltac:(discriminate) eq_refl eq_refl eq_refl)
      as [H3 Hkeep].
    split; [exact H3|]. apply Hkeep. vm_compute. now left.
  - apply (proj2 C5_join_adds_room_leave_clears_single_room).
    + repeat constructor; simpl; tauto.
    + vm_compute. lia.
Defined.

Section JoinLeaveRuns.
Import Collab Directory.

Variables (socket : Socket) (pid uid : string).
Variables (d : Database) (project : Project.t) (user : User).
Hypothesis Huid : userId socket = Some uid.
Hypothesis Hne : uid <> "".
Hypothesis Hproj : projects d pid = Found project.
Hypothesis Hacc :
  Project.canUserAccess project (Some uid) Project.act_read = true.
Hypothesis Huser : users d uid = Found user.

Local Abbreviation aloneOrAbsent := (Directory.aloneOrAbsent socket pid d).

Lemma join_alone now w :
  aloneOrAbsent w ->
  let w' := fst (handleUserJoin now w socket (Some pid)) in
  db w' = d /\
  activeUsers (service w') =
    [(pid, [(id socket, newSession now socket uid user)])].
Proof.
  intros [Hdb Hau]. rewrite <- Hdb in Hproj, Huser.
  destruct (handleUserJoin_granted now w socket pid Huid Hne Hproj Hacc
              Huser) as [Hau' Hdb'].
  cbv zeta. rewrite Hau', Hdb'. split; [exact Hdb|].
  unfold roomOf, JsMap.has.
  destruct Hau as [E|[session E]]; rewrite E; simpl;
    repeat rewrite String.eqb_refl; simpl;
    repeat rewrite String.eqb_refl; reflexivity.
Qed.

Lemma leave_absent w :
  aloneOrAbsent w ->
  let w' := fst (handleUserLeave w socket) in
  db w' = d /\ activeUsers (service w') = [].
Proof.
  intros [Hdb Hau]. cbv zeta. rewrite handleUserLeave_directory.
  split.
  - unfold handleUserLeave.
    destruct (leaveLoop (activeUsers (service w)) (id socket))
      as [[[projectId userData]|] au]; exact Hdb.
  - destruct Hau as [E|[session E]]; rewrite E; simpl;
      [reflexivity|]. now rewrite String.eqb_refl.
Qed.

Lemma presenceStep_alone w e :
  aloneOrAbsent w -> aloneOrAbsent (presenceStep socket pid w e).
Proof.
  intros Hw. unfold presenceStep. destruct (snd e).
  - destruct (join_alone (fst e) Hw) as [Hdb Hau].
    split; [exact Hdb | right; eauto].
  - destruct (leave_absent Hw) as [Hdb Hau].
    split; [exact Hdb | now left].
Qed.

Lemma presenceRun_alone trace w :
  aloneOrAbsent w -> aloneOrAbsent (presenceRun socket pid w trace).
Proof.
  revert w. induction trace as [|e trace IH]; intros w Hw; simpl;
    [exact Hw|].
  apply IH. now apply presenceStep_alone.
Qed.

End JoinLeaveRuns.



(** ** The transport rooms *)

Section TransportFacts.
Import Collab.

Lemma roomEqb_refl room : SocketIO.roomEqb room room = true.
Proof. destruct room; simpl; [apply String.eqb_refl | reflexivity]. Qed.

Lemma isMember_app rs rs' room sid :
  SocketIO.isMember (rs ++ rs')%list room sid =
  SocketIO.isMember rs room sid || SocketIO.isMember rs' room sid.
Proof. unfold SocketIO.isMember. apply existsb_app. Qed.

Lemma isMember_join_same rs room sid :
  SocketIO.isMember (SocketIO.join rs room sid) room sid = true.
Proof.
  unfold SocketIO.join.
  destruct (SocketIO.isMember rs room sid) eqn:E; [exact E|].
  rewrite isMember_app, E. simpl.
  now rewrite roomEqb_refl, String.eqb_refl.
Qed.

Lemma isMember_join_mono rs room sid room' sid' :
  SocketIO.isMember rs room sid = true ->
  SocketIO.isMember (SocketIO.join rs room' sid') room sid = true.
Proof.
  intros H. unfold SocketIO.join.
  destruct (SocketIO.isMember rs room' sid'); [exact H|].
  now rewrite isMember_app, H.
Qed.

Lemma isMember_leaveAll_other rs room sid sid' :
  sid' <> sid ->
  SocketIO.isMember rs room sid = true ->
  SocketIO.isMember (SocketIO.leaveAll rs sid') room sid = true.
Proof.
  intros Hne. unfold SocketIO.isMember, SocketIO.leaveAll.
  rewrite !existsb_exists. intros [e [Hin He]].
  exists e. split; [|exact He]. apply filter_In. split; [exact Hin|].
  apply andb_true_iff in He. destruct He as [_ He].
  apply String.eqb_eq in He. rewrite He.
  apply negb_true_iff. apply String.eqb_neq. congruence.
Qed.

Lemma isMember_members rs room sid :
  SocketIO.isMember rs room sid = true <->
  In sid (SocketIO.members rs room).
Proof.
  unfold SocketIO.isMember, SocketIO.members.
  rewrite existsb_exists, in_map_iff. split.
  - intros [e [Hin He]]. apply andb_true_iff in He.
    destruct He as [Hr Hs]. apply String.eqb_eq in Hs.
    exists e. split; [exact Hs|]. apply filter_In. now split.
  - intros [e [Hs Hin]]. apply filter_In in Hin. destruct Hin as [Hin Hr].
    exists e. split; [exact Hin|]. rewrite Hr, Hs. simpl.
    apply String.eqb_refl.
Qed.

(** A member of the room other than the sender gets the broadcast. *)
Lemma socketTo_reaches (ev : Event) rs sender room sid :
  SocketIO.isMember rs room sid = true ->
  sender <> sid ->
  In (sid, ev) (SocketIO.socketTo rs sender room ev).
Proof.
  intros Hmem Hne. unfold SocketIO.socketTo.
  apply in_map_iff. exists sid. split; [reflexivity|].
  apply filter_In. split; [now apply isMember_members|].
  apply negb_true_iff. apply String.eqb_neq. congruence.
Qed.

Lemma handleUserJoin_rooms_mono now w socket projectId room sid :
  SocketIO.isMember (rooms w) room sid = true ->
  SocketIO.isMember (rooms (fst (handleUserJoin now w socket projectId)))
    room sid = true.
Proof.
  intros H. unfold handleUserJoin, denied.
  destruct (userId socket) as [uid|]; [|exact H].
  destruct (falsy (Some uid)); [exact H|].
  destruct projectId as [pid|];
    destruct (findProjectById (db w) _) as [project| |msg]; try exact H.
  destruct (negb _); [exact H|].
  cbv zeta. simpl db.
  destruct (users (db w) uid); simpl; now apply isMember_join_mono.
Qed.

Lemma debouncedSave_rooms now w pid fp content :
  rooms (debouncedSave now w pid fp content) = rooms w.
Proof. reflexivity. Qed.

Lemma handleCodeChange_rooms now w socket data :
  rooms (fst (handleCodeChange now w socket data)) = rooms w.
Proof.
  unfold handleCodeChange, denied.
  destruct (falsy (cc_projectId data) || falsy (cc_filePath data));
    [reflexivity|].
  destruct (cc_projectId data), (cc_filePath data),
    (findProjectById (db w) _); try reflexivity.
  now destruct (negb _).
Qed.

Lemma handleFileOperation_rooms now w socket data :
  rooms (fst (handleFileOperation now w socket data)) = rooms w.
Proof.
  unfold handleFileOperation, fileOperationFailed, denied.
  destruct (fo_projectId data), (findProjectById (db w) _);
    try reflexivity.
  destruct (negb _); [reflexivity|].
  destruct (applyFileOperation now _ data) as [[[p1 r] ty]|msg];
    [|reflexivity].
  now destruct (saveError (db w)).
Qed.

Lemma handleUserLeave_rooms w socket :
  rooms (fst (handleUserLeave w socket)) = rooms w.
Proof.
  unfold handleUserLeave.
  now destruct (leaveLoop (activeUsers (service w)) (id socket))
    as [[[projectId userData]|] au].
Qed.

Lemma cleanupInactiveUsers_rooms now w :
  rooms (fst (cleanupInactiveUsers now w)) = rooms w.
Proof.
  unfold cleanupInactiveUsers.
  now destruct (sweepRooms now (rooms w) (activeUsers (service w)))
    as [[au gone] out].
Qed.

Lemma saveCallback_rooms w tm : rooms (saveCallback w tm) = rooms w.
Proof.
  unfold saveCallback.
  destruct (projects (db w) (t_projectId tm)); try reflexivity.
  destruct (t_content tm); [|reflexivity].
  destruct (Project.updateFile _ _ _ _ _) as [[p' f]|]; [|reflexivity].
  now destruct (saveErrorAs (db w) "system").
Qed.

Lemma runTimers_rooms now w : rooms (runTimers now w) = rooms w.
Proof.
  unfold runTimers.
  set (w0 := withTimers w _ _). change (rooms w) with (rooms w0).
  generalize w0. generalize (filter (fun tm => due tm <=? now) (timers w)).
  intros l. induction l as [|tm l IH]; intros w1; simpl; [reflexivity|].
  now rewrite IH, saveCallback_rooms.
Qed.

(** A connection that does not close stays in the rooms it is in. *)
Lemma run_keeps_member socket room trace :
  Server.staysConnected socket trace ->
  forall w,
    SocketIO.isMember (rooms w) room (id socket) = true ->
    SocketIO.isMember (rooms (fst (Server.run w trace))) room (id socket)
      = true.
Proof.
  induction 1 as [|[now e] trace He Htrace IH]; intros w Hw; simpl;
    [exact Hw|].
  destruct (Server.step now w e) as [w1 out1] eqn:Hstep.
  assert (H1 : SocketIO.isMember (rooms w1) room (id socket) = true).
  { replace w1 with (fst (Server.step now w e)) by now rewrite Hstep.
    clear Hstep. destruct e; simpl in *.
    - unfold Server.onJoinProject. apply handleUserJoin_rooms_mono.
      now apply isMember_join_mono.
    - now rewrite handleCodeChange_rooms.
    - exact Hw.
    - now rewrite handleFileOperation_rooms.
    - unfold Server.onDisconnect.
      destruct (handleUserLeave w socket0) as [w' out] eqn:L. simpl.
      apply isMember_leaveAll_other; [exact He|].
      replace w' with (fst (handleUserLeave w socket0)) by now rewrite L.
      now rewrite handleUserLeave_rooms.
    - now rewrite cleanupInactiveUsers_rooms.
    - now rewrite runTimers_rooms. }
  specialize (IH w1 H1).
  destruct (Server.run w1 trace) as [w2 out2]. exact IH.
Qed.

End TransportFacts.

Section BroadcastFacts.
Import Collab.

Lemma onJoinProject_denied now w socket pid :
  Server.accessDenied (db w) socket pid = true ->
  exists msg,
    Server.onJoinProject now w socket (Some pid) =
    (withRooms w (SocketIO.join (rooms w) (Some pid) (id socket)),
     [(id socket, collaboration_error msg)]).
Proof.
  unfold Server.accessDenied, Server.onJoinProject, handleUserJoin, denied.
  simpl db. simpl findProjectById.
  destruct (userId socket) as [uid|];
    [|intros _; eexists; reflexivity].
  destruct (falsy (Some uid)); [intros _; eexists; reflexivity|].
  destruct (projects (db w) pid) as [project| |msg];
    intros Hd; [|eexists; reflexivity|discriminate].
  rewrite Hd. eexists; reflexivity.
Qed.

Lemma filter_Permutation (A : Type) (f : A -> bool) (l l' : list A) :
  Permutation l l' -> Permutation (filter f l) (filter f l').
Proof.
  induction 1 as [|x l l' _ IH|x y l|l l' l'' _ IH1 _ IH2]; simpl.
  - constructor.
  - destruct (f x); [now constructor | exact IH].
  - destruct (f x), (f y); try apply Permutation_refl. constructor.
  - now transitivity (filter f l').
Qed.

(** Taking one present element out of a list without repetition. *)
Lemma length_without (l : list string) (x : string) :
  NoDup l -> In x l ->
  S (List.length (filter (fun y => negb (String.eqb y x)) l)) =
  List.length l.
Proof.
  induction 1 as [|y l Hnin Hnd IH]; simpl; [tauto|].
  intros [->|Hin].
  - rewrite String.eqb_refl. simpl. f_equal.
    clear IH Hnd. induction l as [|z l IHl]; simpl; [reflexivity|].
    destruct (String.eqb z x) eqn:E.
    + apply String.eqb_eq in E. subst z. exfalso. apply Hnin. now left.
    + simpl. f_equal. apply IHl. intros H. apply Hnin. now right.
  - destruct (String.eqb y x) eqn:E.
    + apply String.eqb_eq in E. subst y. contradiction.
    + simpl. f_equal. now apply IH.
Qed.

Lemma recipients_socketTo (ev : Event) rs sender room :
  map fst (SocketIO.socketTo rs sender room ev) =
  filter (fun sid => negb (String.eqb sid sender)) (SocketIO.members rs room).
Proof.
  unfold SocketIO.socketTo. rewrite map_map. simpl. apply map_id.
Qed.

End BroadcastFacts.

(** C2. A connection asks to join a project for which the access check
    fails. It is sent one collaboration-error and nothing else, and the
    relay's own state does not change; but the connection handler has
    already put it into the broadcast room of the project. From then on,
    as long as it stays connected, whatever happens in between, every
    cursor-move of another connection for that project, and every
    code-change of another connection that passes the write check, is
    delivered to it. *)
Theorem C2_denied_connection_receives_broadcasts
    (now : Z) (w : Collab.World) (socket : Collab.Socket) (pid : string)
    (Hdenied : Server.accessDenied (Collab.db w) socket pid = true) :
  let joined := Server.onJoinProject now w socket (Some pid) in
  (exists msg,
      snd joined = [(Collab.id socket, Collab.collaboration_error msg)])
  /\ Collab.service (fst joined) = Collab.service w
  /\ forall trace,
       Server.staysConnected socket trace ->
       let w' := fst (Server.run (fst joined) trace) in
       SocketIO.isMember (Collab.rooms w') (Some pid) (Collab.id socket)
         = true
       /\ (forall now' sender data,
             Collab.id sender <> Collab.id socket ->
             Collab.cm_projectId data = Some pid ->
             In (Collab.id socket,
                 Collab.cursor_move (Collab.id sender) (Collab.userId sender)
                   (Collab.cursorOf data))
                (snd (Collab.handleCursorMove now' w' sender data)))
       /\ (forall now' sender data fp project,
             Collab.id sender <> Collab.id socket ->
             Collab.cc_projectId data = Some pid ->
             pid <> "" ->
             Collab.cc_filePath data = Some fp ->
             fp <> "" ->
             Collab.projects (Collab.db w') pid = Found project ->
             Project.canUserAccess project (Collab.userId sender)
               Project.act_write = true ->
             In (Collab.id socket,
                 Collab.code_change (Collab.id sender) fp
                   (OT.transformOperation
                      (Collab.operationQueue (Collab.service w')) pid
                      (Collab.cc_operation data) fp (Collab.cc_timestamp data))
                   (Collab.cc_content data) (Collab.cc_position data)
                   (Collab.cc_timestamp data) (Collab.userId sender))
                (snd (Collab.handleCodeChange now' w' sender data))).
Proof.
  destruct (onJoinProject_denied now w socket pid Hdenied) as [msg Hj].
  cbv zeta. rewrite Hj. simpl fst. simpl snd.
  split; [now exists msg|]. split; [reflexivity|].
  intros trace Hconn.
  assert (Hmem : SocketIO.isMember
                   (Collab.rooms
                      (fst (Server.run
                              (Collab.withRooms w
                                 (SocketIO.join (Collab.rooms w) (Some pid)
                                    (Collab.id socket))) trace)))
                   (Some pid) (Collab.id socket) = true).
  { apply run_keeps_member; [exact Hconn|]. simpl.
    apply isMember_join_same. }
  split; [exact Hmem|]. split.
  - intros now' sender data Hne Hpid.
    unfold Collab.handleCursorMove. simpl snd. rewrite Hpid.
    now apply socketTo_reaches.
  - intros now' sender data fp project Hne Hpid Hpne Hfp Hfne Hproj Hacc.
    unfold Collab.handleCodeChange. rewrite Hpid, Hfp. simpl falsy.
    apply String.eqb_neq in Hpne, Hfne. rewrite Hpne, Hfne. simpl orb.
    cbv iota. simpl Collab.findProjectById. rewrite Hproj, Hacc.
    simpl negb. cbv iota. cbv zeta. simpl snd.
    now apply socketTo_reaches.
Qed.

(** C2 at mallory's connection, which project p1 does not let in: alice
    is in the room, mallory asks to join and is turned away, bob joins;
    alice's next cursor-move and code-change for p1 both reach mallory. *)
Lemma C2_example :
  let w' :=
    fst (Server.run
           (fst (Server.onJoinProject 1 Scenario.aliceInRoom Scenario.mallory
                   (Some "p1")))
           [(2, Server.join_project Scenario.bob (Some "p1"))]) in
  Server.accessDenied (Collab.db Scenario.aliceInRoom) Scenario.mallory "p1"
    = true
  /\ In ("s-mallory",
         Collab.cursor_move "s-alice" (Some "alice")
           (Collab.cursorOf Scenario.cursorInMain))
        (snd (Collab.handleCursorMove 3 w' Scenario.alice
                Scenario.cursorInMain))
  /\ In ("s-mallory",
         Collab.code_change "s-alice" "src/main.js"
           (Scenario.insertAt 4 "y") (Some "let y = 1;")
           (Some (Collab.mkPosition 1 5)) (Some 10) (Some "alice"))
        (snd (Collab.handleCodeChange 4 w' Scenario.alice Scenario.editMain)).
Proof.
  cbv zeta.
  destruct (@C2_denied_connection_receives_broadcasts 1 Scenario.aliceInRoom
              Scenario.mallory "p1" eq_refl) as (_ & _ & Hrun).
  destruct (Hrun [(2, Server.join_project Scenario.bob (Some "p1"))])
    as (_ & Hcursor & Hchange).
  { repeat constructor. }
  split; [reflexivity|]. split.
  - apply (Hcursor 3 Scenario.alice Scenario.cursorInMain);
      [discriminate | reflexivity].
  - apply (Hchange 4 Scenario.alice Scenario.editMain "src/main.js"
             Scenario.projectOne);
      try discriminate; reflexivity.
Defined.

(** Against C8 as stated: the Room of p1 has the one Session of alice,
    mallory's connection was turned away at the access check; alice's
    cursor-move is still delivered once, to mallory's connection, which
    has no Session, where the claim gives 1 - 1 = 0 notifications. *)
Lemma C8_notification_outside_the_room :
  let w := Scenario.malloryTurnedAway in
  let out :=
    snd (Collab.handleCursorMove 2 w Scenario.alice Scenario.cursorInMain) in
  Directory.sessionCount (Collab.service w) "p1" = 1%nat
  /\ JsMap.keys (Collab.roomOf (Collab.service w) "p1") = ["s-alice"]
  /\ map fst out = ["s-mallory"]
  /\ List.length out <>
     (Directory.sessionCount (Collab.service w) "p1" - 1)%nat.
Proof. cbv zeta. repeat split; try reflexivity. vm_compute. discriminate. Qed.

(** C8, as the code has it. A cursor-move of a connection that has a
    Session in the Room of the project is delivered, each time as the same
    cursor-move event, to every connection of the project's broadcast room
    but the sender. When the broadcast room holds exactly the connections
    of the N Sessions of the Room, these are N - 1 notifications, one to
    every Session but the sender's. The sender's Session gets the new
    cursor and the current time as last activity, and the cursor table the
    new cursor. *)
Theorem C8_cursor_move_reaches_the_broadcast_room
    (now : Z) (w : Collab.World) (socket : Collab.Socket)
    (data : Collab.CursorMoveData) (pid : string)
    (projectUsers : JsMap.t Collab.UserData) (userData : Collab.UserData)
    (Hpid : Collab.cm_projectId data = Some pid)
    (Hroom : JsMap.get (Collab.activeUsers (Collab.service w)) pid
             = Some projectUsers)
    (Hsession : JsMap.get projectUsers (Collab.id socket) = Some userData) :
  let result := Collab.handleCursorMove now w socket data in
  let event :=
    Collab.cursor_move (Collab.id socket) (Collab.userId socket)
      (Collab.cursorOf data) in
  snd result =
    map (fun sid => (sid, event))
        (filter (fun sid => negb (String.eqb sid (Collab.id socket)))
                (SocketIO.members (Collab.rooms w) (Some pid)))
  /\ (JsMap.wf projectUsers ->
      Permutation (SocketIO.members (Collab.rooms w) (Some pid))
                  (JsMap.keys projectUsers) ->
      S (List.length (snd result)) = JsMap.size projectUsers
      /\ NoDup (map fst (snd result))
      /\ forall sid,
           In sid (map fst (snd result)) <->
           In sid (JsMap.keys projectUsers) /\ sid <> Collab.id socket)
  /\ JsMap.get (Collab.roomOf (Collab.service (fst result)) pid)
       (Collab.id socket)
     = Some (Collab.moved now userData (Collab.cursorOf data))
  /\ JsMap.get (Collab.cursors (Collab.service (fst result)))
       (Collab.id socket)
     = Some {| Collab.ce_cursor := Collab.cursorOf data;
               Collab.ce_timestamp := now |}.
Proof.
  cbv zeta.
  assert (Hout : snd (Collab.handleCursorMove now w socket data) =
                 SocketIO.socketTo (Collab.rooms w) (Collab.id socket)
                   (Some pid)
                   (Collab.cursor_move (Collab.id socket)
                      (Collab.userId socket) (Collab.cursorOf data))).
  { unfold Collab.handleCursorMove. simpl. now rewrite Hpid. }
  split; [exact Hout|]. split; [|split].
  - intros Hwf Hperm. rewrite Hout, recipients_socketTo.
    unfold SocketIO.socketTo. rewrite length_map.
    pose proof (filter_Permutation
                  (fun sid => negb (String.eqb sid (Collab.id socket)))
                  Hperm) as Hfilter.
    split; [|split].
    + rewrite (Permutation_length Hfilter).
      unfold JsMap.size. rewrite <- (length_map fst projectUsers).
      apply length_without; [exact Hwf|].
      exact (get_Some_key _ _ Hsession).
    + apply (Permutation_NoDup (Permutation_sym Hfilter)).
      now apply NoDup_filter.
    + intros sid. rewrite filter_In, negb_true_iff, String.eqb_neq.
      split; intros [Hin Hne]; (split; [|exact Hne]).
      * exact (Permutation_in _ Hperm Hin).
      * exact (Permutation_in _ (Permutation_sym Hperm) Hin).
  - unfold Collab.handleCursorMove, Collab.roomOf. simpl.
    rewrite Hpid, Hroom, Hsession.
    now rewrite !get_set_same.
  - unfold Collab.handleCursorMove. simpl. now rewrite get_set_same.
Qed.

(** C8 at the Room of p1 with the Sessions of alice and bob and nobody
    else in the broadcast room: alice's cursor-move makes one
    notification, to bob. *)
Lemma C8_example :
  let result :=
    Collab.handleCursorMove 5 Scenario.aliceAndBobInRoom Scenario.alice
      Scenario.cursorInMain in
  S (List.length (snd result)) = 2%nat
  /\ (forall sid,
        In sid (map fst (snd result)) <->
        In sid ["s-alice"; "s-bob"] /\ sid <> "s-alice")
  /\ JsMap.get (Collab.cursors (Collab.service (fst result))) "s-alice"
     = Some {| Collab.ce_cursor := Collab.cursorOf Scenario.cursorInMain;
               Collab.ce_timestamp := 5 |}.
Proof.
  cbv zeta.
  destruct (@C8_cursor_move_reaches_the_broadcast_room 5
              Scenario.aliceAndBobInRoom Scenario.alice Scenario.cursorInMain
              "p1"
              [("s-alice", Collab.newSession 0 Scenario.alice "alice"
                             (Collab.mkUser "alice" "Alice A" "a.png"));
               ("s-bob", Collab.newSession 1 Scenario.bob "bob"
                           (Collab.mkUser "bob" "Bob B" "b.png"))]
              (Collab.newSession 0 Scenario.alice "alice"
                 (Collab.mkUser "alice" "Alice A" "a.png"))
              eq_refl eq_refl eq_refl)
    as (_ & Hcount & _ & Hcursor).
  destruct Hcount as (Hn & _ & Hwho).
  - unfold JsMap.wf. simpl. repeat constructor; simpl; intuition discriminate.
  - apply Permutation_refl.
  - split; [exact Hn|]. split; [exact Hwho | exact Hcursor].
Defined.

(** ** Rejected events *)

Section RejectionFacts.
Import Collab.

Lemma find_present (A : Type) (f : A -> bool) (l : list A) (x : A) :
  In x l -> f x = true -> exists y, find f l = Some y.
Proof.
  induction l as [|a l IH]; simpl; [tauto|].
  intros [->|Hin] Hx.
  - rewrite Hx. eauto.
  - destruct (f a); eauto.
Qed.

(** Without a file path no kind of file operation goes through. *)
Lemma applyFileOperation_without_path now project data :
  fo_filePath data = None ->
  exists msg, applyFileOperation now project data = Throw msg.
Proof.
  intros Hfp. unfold applyFileOperation, Project.addFile,
    Project.deleteFile, renameFile.
  rewrite Hfp. simpl.
  destruct (isOp data "create"); [eauto|].
  destruct (isOp data "delete"); [eauto|].
  destruct (isOp data "rename"); eauto.
Qed.

End RejectionFacts.

(** C10. A file-operation of kind create whose path is that of a file the
    project already has changes nothing in the world (no file, no activity
    record, no save, no relay state) and causes exactly one delivery: a
    collaboration-error to the requesting connection. *)
Theorem C10_create_existing_path_rejected
    (now : Z) (w : Collab.World) (socket : Collab.Socket)
    (data : Collab.FileOperationData) (pid fp : string)
    (project : Project.t) (existing : Project.File)
    (Hop : Collab.fo_operation data = Some "create")
    (Hpid : Collab.fo_projectId data = Some pid)
    (Hfp : Collab.fo_filePath data = Some fp)
    (Hproj : Collab.projects (Collab.db w) pid = Found project)
    (Hin : In existing (Project.files project))
    (Hpath : Project.path existing = fp) :
  Collab.handleFileOperation now w socket data =
  (w, [(Collab.id socket,
        Collab.collaboration_error
          (if Project.canUserAccess project (Collab.userId socket)
                Project.act_write
           then "File operation failed: File already exists"
           else "Insufficient permissions"))]).
Proof.
  unfold Collab.handleFileOperation. rewrite Hpid. simpl. rewrite Hproj.
  destruct (Project.canUserAccess project (Collab.userId socket)
              Project.act_write); simpl; [|reflexivity].
  unfold Collab.applyFileOperation, Collab.isOp. rewrite Hop. simpl.
  unfold Project.addFile, Project.findFile. rewrite Hfp.
  destruct (find_present (fun f => String.eqb (Project.path f) fp)
              (Project.files project) existing Hin) as [y Hy].
  { rewrite Hpath. apply String.eqb_refl. }
  rewrite Hy. reflexivity.
Qed.

(** C10 at project p1, which has src/main.js: alice, its owner, asks to
    create src/main.js while bob is in the room too; she alone hears of
    it, and neither the store nor the log of saves changes. *)
Lemma C10_example :
  let result :=
    Collab.handleFileOperation 7 Scenario.aliceAndBobInRoom Scenario.alice
      Scenario.createMainAgain in
  snd result =
    [("s-alice",
      Collab.collaboration_error "File operation failed: File already exists")]
  /\ fst result = Scenario.aliceAndBobInRoom.
Proof.
  cbv zeta.
  rewrite (@C10_create_existing_path_rejected 7 Scenario.aliceAndBobInRoom
             Scenario.alice Scenario.createMainAgain "p1" "src/main.js"
             Scenario.projectOne Scenario.mainFile
             eq_refl eq_refl eq_refl eq_refl (or_introl eq_refl) eq_refl).
  split; reflexivity.
Defined.

(** Against C7 as stated: alice and bob are in the Room of p1; alice's
    cursor-move carries no file path and no position. No error is sent to
    alice: the one delivery is the cursor-move to bob, and both the cursor
    table and alice's Session have changed. *)
Lemma C7_cursor_move_not_validated :
  let w := Scenario.aliceAndBobInRoom in
  let result :=
    Collab.handleCursorMove 9 w Scenario.alice Scenario.cursorWithoutFile in
  Collab.cm_filePath Scenario.cursorWithoutFile = None
  /\ snd result =
       [("s-bob",
         Collab.cursor_move "s-alice" (Some "alice")
           (Collab.mkCursor None None None))]
  /\ JsMap.get (Collab.cursors (Collab.service w)) "s-alice" = None
  /\ JsMap.get (Collab.cursors (Collab.service (fst result))) "s-alice" =
       Some (Collab.mkCursorEntry (Collab.mkCursor None None None) 9)
  /\ Collab.service (fst result) <> Collab.service w.
Proof.
  cbv zeta. repeat split; try reflexivity. vm_compute. discriminate.
Qed.

(** C7, as the code has it. A code-change whose project id or file path is
    missing or empty, and a file-operation whose project id or file path
    is missing, leave the world as it is (relay state, store, timers) and
    cause exactly one delivery, a collaboration-error to the requesting
    connection. A cursor-move is not validated: whatever it lacks, it is
    recorded in the cursor table and broadcast to the room named by its
    project id: what it delivers is the cursor-move event, once to every
    member of that room other than the sender and to nobody else, never
    an error. *)
Theorem C7_missing_fields
    (now : Z) (w : Collab.World) (socket : Collab.Socket) :
  (forall data,
      falsy (Collab.cc_projectId data) || falsy (Collab.cc_filePath data)
        = true ->
      Collab.handleCodeChange now w socket data =
      (w, [(Collab.id socket,
            Collab.collaboration_error
              "Missing project or file information")]))
  /\
  (forall data,
      Collab.fo_projectId data = None \/ Collab.fo_filePath data = None ->
      exists msg,
        Collab.handleFileOperation now w socket data =
        (w, [(Collab.id socket, Collab.collaboration_error msg)]))
  /\
  (forall data,
      JsMap.get
        (Collab.cursors
           (Collab.service (fst (Collab.handleCursorMove now w socket data))))
        (Collab.id socket)
      = Some {| Collab.ce_cursor := Collab.cursorOf data;
                Collab.ce_timestamp := now |}
      /\ snd (Collab.handleCursorMove now w socket data) =
           SocketIO.socketTo (Collab.rooms w) (Collab.id socket)
             (Collab.cm_projectId data)
             (Collab.cursor_move (Collab.id socket) (Collab.userId socket)
                (Collab.cursorOf data))
      /\ map fst (snd (Collab.handleCursorMove now w socket data)) =
           filter (fun sid => negb (String.eqb sid (Collab.id socket)))
                  (SocketIO.members (Collab.rooms w)
                     (Collab.cm_projectId data))
      /\ (forall sid,
            SocketIO.isMember (Collab.rooms w) (Collab.cm_projectId data) sid
              = true ->
            sid <> Collab.id socket ->
            In (sid,
                Collab.cursor_move (Collab.id socket) (Collab.userId socket)
                  (Collab.cursorOf data))
               (snd (Collab.handleCursorMove now w socket data)))
      /\ forall delivery,
           In delivery (snd (Collab.handleCursorMove now w socket data)) ->
           snd delivery =
             Collab.cursor_move (Collab.id socket) (Collab.userId socket)
               (Collab.cursorOf data)).
Proof.
  split; [|split].
  - intros data Hmissing. unfold Collab.handleCodeChange.
    now rewrite Hmissing.
  - intros data Hmissing.
    unfold Collab.handleFileOperation, Collab.fileOperationFailed,
      Collab.denied, SocketIO.emit.
    destruct (Collab.fo_projectId data) as [pid|] eqn:Hpid; simpl.
    + destruct Hmissing as [Hnone|Hfp]; [discriminate|].
      destruct (Collab.projects (Collab.db w) pid) as [project| |msg];
        [|eauto|eauto].
      destruct (negb _); [eauto|].
      destruct (applyFileOperation_without_path now project data Hfp)
        as [msg Hthrow].
      rewrite Hthrow. eauto.
    + eauto.
  - intros data. split; [|split; [|split; [|split]]].
    + unfold Collab.handleCursorMove. simpl. apply get_set_same.
    + reflexivity.
    + unfold Collab.handleCursorMove. cbn [snd].
      apply recipients_socketTo.
    + intros sid Hmem Hne. unfold Collab.handleCursorMove. cbn [snd].
      apply socketTo_reaches; [exact Hmem | congruence].
    + intros [sid ev] Hin. unfold Collab.handleCursorMove in Hin.
      simpl in Hin. unfold SocketIO.socketTo in Hin.
      apply in_map_iff in Hin. destruct Hin as [x [Hx _]].
      now inversion Hx.
Qed.

(** C7 at alice's connection: a code-change and a create without file
    path are each answered by one error to alice and change nothing. *)
Lemma C7_example :
  Collab.handleCodeChange 9 Scenario.aliceAndBobInRoom Scenario.alice
    Scenario.editWithoutFile =
  (Scenario.aliceAndBobInRoom,
   [("s-alice",
     Collab.collaboration_error "Missing project or file information")])
  /\
  exists msg,
    Collab.handleFileOperation 9 Scenario.aliceAndBobInRoom Scenario.alice
      Scenario.createWithoutPath =
    (Scenario.aliceAndBobInRoom,
     [("s-alice", Collab.collaboration_error msg)]).
Proof.
  destruct (C7_missing_fields 9 Scenario.aliceAndBobInRoom Scenario.alice)
    as (Hchange & Hfile & _).
  split.
  - apply (Hchange Scenario.editWithoutFile). reflexivity.
  - apply (Hfile Scenario.createWithoutPath). right. reflexivity.
Defined.

(** ** Debounced persistence *)

Section DebounceFacts.
Import Collab Debounce.
Local Open Scope list_scope.

Variables (pid fp : string).
Local Abbreviation k := (saveKey pid fp).

(** Equal project and path give the same key. *)
Lemma other_key_other_file tm :
  keyOf tm <> k ->
  String.eqb (t_projectId tm) pid && String.eqb (t_filePath tm) fp = false.
Proof.
  intros Hk. destruct (String.eqb (t_projectId tm) pid) eqn:Ep;
    [|reflexivity].
  destruct (String.eqb (t_filePath tm) fp) eqn:Ef; [|reflexivity].
  apply String.eqb_eq in Ep, Ef. exfalso. apply Hk.
  unfold keyOf. now rewrite Ep, Ef.
Qed.

Lemma tracked_keyTracked w : timersTracked w -> keyTracked w k.
Proof.
  intros [_ Hall]. unfold keyTracked.
  apply Forall_impl with (2 := Hall).
  intros tm [_ [m [Hm Hget]]] Hk. exists m. now rewrite <- Hk.
Qed.

Lemma focused_keyTracked w h d c : focused w pid fp h d c -> keyTracked w k.
Proof.
  intros (rest & m & Ht & Hrest & Hm & Hget). unfold keyTracked.
  rewrite Ht. apply Forall_app. split.
  - apply Forall_impl with (2 := Hrest). intros tm Hne Hk. contradiction.
  - constructor; [|constructor]. intros _. now exists m.
Qed.

(** A call of [debouncedSave] leaves the new timer as the only one of
    its key. *)
Lemma debouncedSave_focuses now w c :
  keyTracked w k ->
  focused (debouncedSave now w pid fp (Some c)) pid fp (nextHandle w)
    (now + saveDelay) c.
Proof.
  intros Htr. unfold focused, debouncedSave. simpl.
  eexists. eexists. split; [reflexivity|].
  split; [|split; [reflexivity | apply get_set_same]].
  unfold keyTracked in Htr. rewrite Forall_forall in Htr.
  apply Forall_forall. intros tm Hin Hk.
  destruct (saveTimeouts (service w)) as [m|] eqn:Hm.
  - destruct (JsMap.get m k) as [h0|] eqn:Hget.
    + unfold clearTimeout in Hin. apply filter_In in Hin.
      destruct Hin as [Hin Hh].
      destruct (Htr tm Hin Hk) as [m' [Hm' Hget']].
      inversion Hm'; subst m'. rewrite Hget in Hget'.
      inversion Hget'; subst h0. now rewrite Nat.eqb_refl in Hh.
    + destruct (Htr tm Hin Hk) as [m' [Hm' Hget']].
      inversion Hm'; subst m'. congruence.
  - destruct (Htr tm Hin Hk) as [m' [Hm' _]]. discriminate.
Qed.

Lemma filter_other_keys l :
  Forall (fun tm => keyOf tm <> k) l ->
  filter (fun tm => String.eqb (keyOf tm) k) l = [].
Proof.
  induction 1 as [|tm l Hne _ IH]; cbn [filter]; [reflexivity|].
  apply String.eqb_neq in Hne. now rewrite Hne.
Qed.

Lemma focused_pending w h d c :
  focused w pid fp h d c ->
  pendingFor w k =
  [ {| handle := h; due := d; t_projectId := pid; t_filePath := fp;
       t_content := Some c |} ].
Proof.
  intros (rest & m & Ht & Hrest & _). unfold pendingFor.
  rewrite Ht, filter_app.
  rewrite (filter_other_keys Hrest).
  simpl. unfold keyOf. simpl. now rewrite String.eqb_refl.
Qed.

(** What one callback can do to the timers and to [this.saveTimeouts],
    the store and the log. *)
Lemma saveCallback_frame w tm :
  timers (saveCallback w tm) = timers w
  /\ nextHandle (saveCallback w tm) = nextHandle w
  /\ (saveTimeouts (service (saveCallback w tm)) = saveTimeouts (service w)
      \/ exists m,
           saveTimeouts (service w) = Some m /\
           saveTimeouts (service (saveCallback w tm)) =
             Some (JsMap.delete m (keyOf tm))).
Proof.
  unfold saveCallback, forgetTimeout.
  destruct (projects (db w) (t_projectId tm)) as [project| |msg].
  - destruct (t_content tm) as [c|]; [|auto].
    destruct (Project.updateFile _ _ _ _ _) as [[p' f]|]; [|auto].
    destruct (saveErrorAs (db w) "system"); [auto|]. simpl.
    split; [reflexivity|]. split; [reflexivity|].
    destruct (saveTimeouts (service w)) as [m|]; [right; eauto | now left].
  - simpl. split; [reflexivity|]. split; [reflexivity|].
    destruct (saveTimeouts (service w)) as [m|]; [right; eauto | now left].
  - auto.
Qed.

Lemma touch_path now f c u :
  Project.path (Project.touch now f c u) = Project.path f.
Proof. reflexivity. Qed.

Lemma find_replaceFirst now c u fs fp' x :
  find (fun f => String.eqb (Project.path f) fp) fs = Some x ->
  exists y,
    find (fun f => String.eqb (Project.path f) fp)
         (Project.replaceFirst fs fp'
            (fun f => Project.touch now f c u)) = Some y.
Proof.
  induction fs as [|f fs IH]; simpl; [discriminate|].
  destruct (String.eqb (Project.path f) fp') eqn:E'; simpl.
  - destruct (String.eqb (Project.path f) fp); eauto.
  - destruct (String.eqb (Project.path f) fp); eauto.
Qed.

(** No callback takes the file out of the store. *)
Lemma saveCallback_store w tm :
  storeHasFile (db w) pid fp -> storeHasFile (db (saveCallback w tm)) pid fp.
Proof.
  intros Hs. unfold saveCallback, forgetTimeout.
  destruct (projects (db w) (t_projectId tm)) as [project| |msg] eqn:Hp;
    try exact Hs.
  destruct (t_content tm) as [c|]; [|exact Hs].
  destruct (Project.updateFile _ _ _ _ _) as [[p' f]|]; exact Hs.
Qed.

(** A callback for another key makes no save of the file. *)
Lemma saveCallback_other_file w tm :
  keyOf tm <> k ->
  savesOf pid fp (saveLog (saveCallback w tm)) = savesOf pid fp (saveLog w).
Proof.
  intros Hk. unfold saveCallback, forgetTimeout.
  destruct (projects (db w) (t_projectId tm)) as [project| |msg];
    try reflexivity.
  destruct (t_content tm) as [c|]; [|reflexivity].
  destruct (Project.updateFile _ _ _ _ _) as [[p' f]|]; [|reflexivity].
  destruct (saveErrorAs (db w) "system"); [reflexivity|]. simpl.
  unfold savesOf. rewrite filter_app. simpl.
  rewrite (@other_key_other_file tm Hk). apply app_nil_r.
Qed.

(** The callbacks of timers filed under other keys, one after the
    other. *)
Lemma callbacks_of_other_keys fired : forall w,
  Forall (fun tm => keyOf tm <> k) fired ->
  let w' := fold_left saveCallback fired w in
  timers w' = timers w
  /\ nextHandle w' = nextHandle w
  /\ (forall m h,
        saveTimeouts (service w) = Some m -> JsMap.get m k = Some h ->
        exists m', saveTimeouts (service w') = Some m' /\
                   JsMap.get m' k = Some h)
  /\ (storeHasFile (db w) pid fp -> storeHasFile (db w') pid fp)
  /\ savesOf pid fp (saveLog w') = savesOf pid fp (saveLog w).
Proof.
  induction fired as [|tm fired IH]; intros w Hall; simpl.
  - split; [reflexivity|]. split; [reflexivity|].
    split; [|split; [tauto | reflexivity]].
    intros m h Hm Hget. now exists m.
  - inversion Hall as [|? ? Hk Hrest]; subst.
    destruct (IH (saveCallback w tm) Hrest) as (Ht & Hn & Hm & Hs & Hl).
    destruct (saveCallback_frame w tm) as (Ht0 & Hn0 & Hm0).
    split; [congruence|]. split; [congruence|]. split; [|split].
    + intros m h Hsome Hget. destruct Hm0 as [Hsame|[m0 [Hm0 Hdel]]].
      * apply (Hm m h); [congruence | exact Hget].
      * apply (Hm (JsMap.delete m0 (keyOf tm)) h); [exact Hdel|].
        rewrite get_delete_other; [congruence | exact Hk].
    + intros Hstore. apply Hs. now apply saveCallback_store.
    + rewrite Hl. now apply saveCallback_other_file.
Qed.

Lemma Forall_filter (A : Type) (P : A -> Prop) (f : A -> bool) l :
  Forall P l -> Forall P (filter f l).
Proof.
  intros H. rewrite Forall_forall in *. intros x Hx.
  apply filter_In in Hx. now apply H.
Qed.

Local Abbreviation theTimer := (Debounce.theTimer pid fp).

(** The clock stops before the timer of the file is due: it stays
    pending, and the file is not written. *)
Lemma runTimers_before_due now w h d c :
  focused w pid fp h d c ->
  now < d ->
  focused (runTimers now w) pid fp h d c
  /\ (storeHasFile (db w) pid fp ->
      storeHasFile (db (runTimers now w)) pid fp)
  /\ savesOf pid fp (saveLog (runTimers now w)) = savesOf pid fp (saveLog w).
Proof.
  intros (rest & m & Ht & Hrest & Hm & Hget) Hnow.
  unfold runTimers. rewrite Ht, !filter_app. cbn [filter due].
  assert (Hd : (d <=? now) = false) by now apply Z.leb_gt.
  rewrite Hd. cbn [negb]. rewrite app_nil_r.
  set (w0 := withTimers w _ _).
  destruct (@callbacks_of_other_keys
              (filter (fun tm => due tm <=? now) rest) w0
              (@Forall_filter _ _ (fun tm => due tm <=? now) _ Hrest))
    as (Ht' & _ & Hm' & Hs' & Hl').
  split; [|split; [exact Hs' | exact Hl']].
  destruct (Hm' m h Hm Hget) as [m' [Hm1 Hget1]].
  exists (filter (fun tm => negb (due tm <=? now)) rest), m'.
  split; [exact Ht'|]. split; [now apply Forall_filter|]. now split.
Qed.

Lemma find_replaceFirst_same (g : Project.File -> Project.File) fs x :
  (forall f, Project.path (g f) = Project.path f) ->
  find (fun f => String.eqb (Project.path f) fp) fs = Some x ->
  find (fun f => String.eqb (Project.path f) fp)
       (Project.replaceFirst fs fp g) = Some (g x).
Proof.
  intros Hg. induction fs as [|f fs IH]; simpl; [discriminate|].
  destruct (String.eqb (Project.path f) fp) eqn:E; simpl.
  - intros H. inversion H; subst. now rewrite Hg, E.
  - rewrite E. exact IH.
Qed.

(** No callback writes: the author [system] is no ObjectId, the save
    rejects and the callback ends in its [catch]. *)
Lemma saveCallback_never_writes w tm :
  db (saveCallback w tm) = db w /\ saveLog (saveCallback w tm) = saveLog w.
Proof.
  unfold saveCallback, forgetTimeout.
  destruct (projects (db w) (t_projectId tm)) as [project| |msg];
    try (split; reflexivity).
  destruct (t_content tm) as [c|]; [|split; reflexivity].
  destruct (Project.updateFile _ _ _ _ _) as [[p' f]|];
    split; reflexivity.
Qed.

Lemma callbacks_never_write fired : forall w,
  db (fold_left saveCallback fired w) = db w
  /\ saveLog (fold_left saveCallback fired w) = saveLog w.
Proof.
  induction fired as [|tm fired IH]; intros w; simpl;
    [split; reflexivity|].
  destruct (IH (saveCallback w tm)) as [Hd Hl].
  destruct (saveCallback_never_writes w tm) as [Hd0 Hl0].
  split; congruence.
Qed.

Lemma runTimers_never_writes now w :
  db (runTimers now w) = db w /\ saveLog (runTimers now w) = saveLog w.
Proof.
  unfold runTimers.
  exact (callbacks_never_write
           (filter (fun tm => due tm <=? now) (timers w))
           (withTimers w (filter (fun tm => negb (due tm <=? now)) (timers w))
              (nextHandle w))).
Qed.

(** The callback of the timer of the file, on a store that has the
    file: the world stays as it is, the entry of the key in
    [this.saveTimeouts] included. *)
Lemma saveCallback_rejected w h d c :
  storeHasFile (db w) pid fp ->
  saveCallback w (theTimer h d c) = w.
Proof.
  intros [He (project & file & Hp & Hf)].
  unfold saveCallback, Debounce.theTimer.
  cbn [t_projectId t_filePath t_content due].
  rewrite Hp. unfold Project.updateFile. rewrite Hf. reflexivity.
Qed.

(** The clock reaches the due time of the timer of the file: it fires,
    after the due timers of other keys, and nothing is written; the
    handle of the fired timer stays filed under the key. *)
Lemma runTimers_at_due now w h d c :
  focused w pid fp h d c ->
  d <= now ->
  storeHasFile (db w) pid fp ->
  pendingFor (runTimers now w) k = []
  /\ exists m,
       saveTimeouts (service (runTimers now w)) = Some m /\
       JsMap.get m k = Some h.
Proof.
  intros (rest & m & Ht & Hrest & Hm & Hget) Hnow Hstore.
  unfold runTimers. rewrite Ht, !filter_app. cbn [filter due].
  assert (Hd : (d <=? now) = true) by now apply Z.leb_le.
  rewrite Hd. cbn [negb]. rewrite app_nil_r, fold_left_app.
  cbn [fold_left].
  set (w0 := withTimers w _ _).
  destruct (@callbacks_of_other_keys
              (filter (fun tm => due tm <=? now) rest) w0
              (@Forall_filter _ _ (fun tm => due tm <=? now) _ Hrest))
    as (Ht' & _ & Hm' & Hs' & _).
  set (w1 := fold_left saveCallback _ w0) in *.
  fold (Debounce.theTimer pid fp h d c).
  rewrite (@saveCallback_rejected w1 h d c (Hs' Hstore)).
  split.
  - unfold pendingFor. rewrite Ht'. subst w0.
    cbn [timers withTimers].
    apply filter_other_keys. now apply Forall_filter.
  - exact (Hm' m h Hm Hget).
Qed.

End DebounceFacts.

Section TrackingFacts.
Import Collab Debounce.
Local Open Scope list_scope.

Lemma NoDup_map_filter (A B : Type) (f : A -> B) (q : A -> bool) l :
  NoDup (map f l) -> NoDup (map f (filter q l)).
Proof.
  induction l as [|a l IH]; simpl; [trivial|].
  intros Hnd. inversion Hnd as [|? ? Hnin Hnd']; subst.
  destruct (q a); simpl; [|now apply IH].
  constructor; [|now apply IH].
  intros Hin. apply Hnin. apply in_map_iff in Hin.
  destruct Hin as [x [Hx Hin]]. apply filter_In in Hin.
  apply in_map_iff. exists x. tauto.
Qed.

Lemma NoDup_map_inj (A B : Type) (f : A -> B) l x y :
  NoDup (map f l) -> In x l -> In y l -> f x = f y -> x = y.
Proof.
  induction l as [|a l IH]; simpl; [tauto|].
  intros Hnd. inversion Hnd as [|? ? Hnin Hnd']; subst.
  intros [->|Hx] [->|Hy] Hf; trivial.
  - exfalso. apply Hnin. rewrite Hf. now apply in_map.
  - exfalso. apply Hnin. rewrite <- Hf. now apply in_map.
  - now apply IH.
Qed.

(** In a list without repeated handles, the entries that share one
    handle are at most one. *)
Lemma at_most_one_with_handle (q : Timer -> bool) (h : nat) l :
  NoDup (map handle l) ->
  (forall tm, In tm l -> q tm = true -> handle tm = h) ->
  (List.length (filter q l) <= 1)%nat.
Proof.
  induction l as [|a l IH]; simpl; [lia|].
  intros Hnd Hq. inversion Hnd as [|? ? Hnin Hnd']; subst.
  destruct (q a) eqn:Ea; [|apply IH; auto].
  simpl. destruct (filter q l) as [|b rest] eqn:Ef; [simpl; lia|].
  exfalso. apply Hnin.
  assert (Hb : In b (filter q l)) by (rewrite Ef; now left).
  apply filter_In in Hb. destruct Hb as [Hin Hqb].
  rewrite (Hq a (or_introl eq_refl) Ea).
  rewrite <- (Hq b (or_intror Hin) Hqb). now apply in_map.
Qed.

Lemma filter_none (A : Type) (q : A -> bool) l :
  (forall x, In x l -> q x = false) -> filter q l = [].
Proof.
  induction l as [|a l IH]; simpl; [reflexivity|].
  intros H. rewrite (H a (or_introl eq_refl)). apply IH. auto.
Qed.

Lemma tracked_atMostOne w : timersTracked w -> atMostOnePerKey w.
Proof.
  intros [Hnd Hall] key. unfold pendingFor.
  rewrite Forall_forall in Hall.
  destruct (saveTimeouts (service w)) as [m|] eqn:Hm.
  - destruct (JsMap.get m key) as [h|] eqn:Hget.
    + apply at_most_one_with_handle with (h := h); [exact Hnd|].
      intros tm Hin Hk. apply String.eqb_eq in Hk.
      destruct (Hall tm Hin) as [_ [m' [Hm' Hget']]].
      inversion Hm'; subst m'. congruence.
    + rewrite filter_none; [simpl; lia|].
      intros tm Hin. apply String.eqb_neq. intros Hk.
      destruct (Hall tm Hin) as [_ [m' [Hm' Hget']]].
      inversion Hm'; subst m'. congruence.
  - destruct (timers w) as [|tm l]; [simpl; lia|].
    destruct (Hall tm (or_introl eq_refl)) as [_ [m' [Hm' _]]].
    discriminate.
Qed.

(** [debouncedSave] keeps every pending timer tracked. *)
Lemma tracked_debouncedSave now w pid fp content :
  timersTracked w -> timersTracked (debouncedSave now w pid fp content).
Proof.
  intros [Hnd Hall]. rewrite Forall_forall in Hall.
  unfold timersTracked, debouncedSave.
  cbn [timers nextHandle service withTimers withService saveTimeouts
       withSaveTimeouts].
  set (key := saveKey pid fp).
  set (pending := match saveTimeouts (service w) with
                  | Some m => match JsMap.get m key with
                              | Some h => clearTimeout (timers w) h
                              | None => timers w
                              end
                  | None => timers w
                  end).
  set (m0 := match saveTimeouts (service w) with
             | Some m => m
             | None => []
             end).
  assert (Hsub : forall tm, In tm pending -> In tm (timers w)).
  { intros tm. subst pending.
    destruct (saveTimeouts (service w)) as [m|]; [|trivial].
    destruct (JsMap.get m key); [|trivial].
    unfold clearTimeout. intros Hin. now apply filter_In in Hin. }
  assert (Hndp : NoDup (map handle pending)).
  { subst pending.
    destruct (saveTimeouts (service w)) as [m|]; [|exact Hnd].
    destruct (JsMap.get m key); [|exact Hnd].
    now apply NoDup_map_filter. }
  assert (Hkey : forall tm, In tm pending -> keyOf tm <> key).
  { intros tm Hin Hk. subst pending.
    destruct (saveTimeouts (service w)) as [m|] eqn:Hm.
    - destruct (JsMap.get m key) as [h0|] eqn:Hget.
      + unfold clearTimeout in Hin. apply filter_In in Hin.
        destruct Hin as [Hin Hh].
        destruct (Hall tm Hin) as [_ [m' [Hm' Hget']]].
        inversion Hm'; subst m'. rewrite Hk, Hget in Hget'.
        inversion Hget'; subst h0. now rewrite Nat.eqb_refl in Hh.
      + destruct (Hall tm Hin) as [_ [m' [Hm' Hget']]].
        inversion Hm'; subst m'. congruence.
    - destruct (Hall tm Hin) as [_ [m' [Hm' _]]]. discriminate. }
  split.
  - rewrite map_app. apply NoDup_app; [exact Hndp | |].
    + simpl. repeat constructor. simpl. tauto.
    + intros h Hin [Hh|[]]. simpl in Hh. subst h.
      apply in_map_iff in Hin. destruct Hin as [tm [Hh Hin]].
      destruct (Hall tm (Hsub tm Hin)) as [Hlt _]. lia.
  - apply Forall_app. split.
    + apply Forall_forall. intros tm Hin.
      destruct (Hall tm (Hsub tm Hin)) as [Hlt [m [Hm Hget]]].
      split; [lia|]. eexists. split; [reflexivity|].
      rewrite get_set_other.
      * subst m0. now rewrite Hm.
      * intros Hk. now apply (Hkey tm Hin).
    + constructor; [|constructor]. split; [simpl; lia|].
      eexists. split; [reflexivity|]. apply get_set_same.
Qed.

(** The callbacks of fired timers whose keys no pending timer shares. *)
Lemma tracked_callbacks fired : forall w,
  timersTracked w ->
  (forall tmf tm, In tmf fired -> In tm (timers w) ->
                  keyOf tmf <> keyOf tm) ->
  timersTracked (fold_left saveCallback fired w).
Proof.
  induction fired as [|tmf fired IH]; intros w Htr Hkeys; simpl;
    [exact Htr|].
  destruct (saveCallback_frame w tmf) as (Ht & Hn & Hm).
  apply IH.
  - destruct Htr as [Hnd Hall]. unfold timersTracked.
    rewrite Ht, Hn. split; [exact Hnd|].
    rewrite Forall_forall in *. intros tm Hin.
    destruct (Hall tm Hin) as [Hlt [m [Hsome Hget]]].
    split; [exact Hlt|].
    destruct Hm as [Hsame|[m0 [Hm0 Hdel]]].
    + exists m. split; [congruence | exact Hget].
    + exists (JsMap.delete m0 (keyOf tmf)). split; [exact Hdel|].
      rewrite get_delete_other; [congruence|].
      apply Hkeys; [now left | exact Hin].
  - intros tmf' tm Hin' Hin. rewrite Ht in Hin.
    apply Hkeys; [now right | exact Hin].
Qed.

(** The clock advancing keeps every pending timer tracked. *)
Lemma tracked_runTimers now w :
  timersTracked w -> timersTracked (runTimers now w).
Proof.
  intros [Hnd Hall]. unfold runTimers. apply tracked_callbacks.
  - split; cbn [timers withTimers nextHandle service saveTimeouts].
    + now apply NoDup_map_filter.
    + rewrite Forall_forall in *. intros tm Hin.
      apply filter_In in Hin. now apply Hall.
  - cbn [timers withTimers]. intros tmf tm Hf Hl Hk.
    apply filter_In in Hf. destruct Hf as [Hf Hdue].
    apply filter_In in Hl. destruct Hl as [Hl Hnot].
    rewrite Forall_forall in Hall.
    destruct (Hall tmf Hf) as [_ [m [Hm Hget]]].
    destruct (Hall tm Hl) as [_ [m' [Hm' Hget']]].
    assert (Heq : tmf = tm).
    { apply (NoDup_map_inj handle (timers w)); trivial.
      rewrite Hm in Hm'. inversion Hm'; subst m'. congruence. }
    subst tm. rewrite Hdue in Hnot. discriminate.
Qed.

Lemma tracked_initial d : timersTracked (initial d).
Proof. split; simpl; constructor. Qed.

Lemma tracked_step now w e :
  timersTracked w -> timersTracked (fst (Server.step now w e)).
Proof.
  intros H. destruct e as [socket projectId|socket data|socket data
                          |socket data|socket| |]; simpl.
  - unfold Server.onJoinProject, handleUserJoin, denied.
    destruct (userId socket) as [uid|]; [|exact H].
    destruct (falsy (Some uid)); [exact H|].
    destruct projectId as [pid|];
      destruct (findProjectById _ _) as [project| |msg]; try exact H.
    destruct (negb _); [exact H|].
    cbv zeta. destruct (users _ uid); exact H.
  - unfold handleCodeChange, denied.
    destruct (falsy (cc_projectId data) || falsy (cc_filePath data));
      [exact H|].
    destruct (cc_projectId data), (cc_filePath data),
      (findProjectById (db w) _); try exact H.
    destruct (negb _); [exact H|].
    simpl. apply tracked_debouncedSave. exact H.
  - exact H.
  - unfold handleFileOperation, fileOperationFailed, denied.
    destruct (fo_projectId data), (findProjectById (db w) _);
      try exact H.
    destruct (negb _); [exact H|].
    destruct (applyFileOperation now _ data) as [[[p1 r] ty]|msg];
      [|exact H].
    destruct (saveError (db w)); exact H.
  - unfold Server.onDisconnect, handleUserLeave.
    destruct (leaveLoop (activeUsers (service w)) (id socket))
      as [[[projectId userData]|] au]; exact H.
  - unfold cleanupInactiveUsers.
    destruct (sweepRooms now (rooms w) (activeUsers (service w)))
      as [[au gone] out]. exact H.
  - now apply tracked_runTimers.
Qed.

(** Every world that a run reaches from a server that has just started
    has its pending timers tracked. *)
Lemma tracked_run trace : forall w,
  timersTracked w -> timersTracked (fst (Server.run w trace)).
Proof.
  induction trace as [|[now e] trace IH]; intros w H; simpl; [exact H|].
  pose proof (tracked_step now e H) as H1.
  destruct (Server.step now w e) as [w1 out1]. simpl in H1.
  specialize (IH w1 H1).
  destruct (Server.run w1 trace) as [w2 out2]. exact IH.
Qed.

End TrackingFacts.

(** C9, as the code has it. In a world whose pending timers are tracked
    (every world a run reaches is), on a store that has the file and
    accepts saves, [debouncedSave] is called for the file at [t1], at
    [t2] and at [t3], all within the delay of two seconds from [t1], and
    the clock then runs on to some [T] at least two seconds after [t3].
    The calls coalesce: after each call the key of the file has exactly
    one pending timer, the one of that call, in every world of the run
    no key has more than one, and at [T] the timer of the third call has
    fired. But nothing is written: the callback gives [updateFile] the
    author [system], which is no ObjectId, the save rejects, and the
    store and the log of saves are at the end what they were at the
    start; the handle of the fired timer stays in [this.saveTimeouts]. *)
Theorem C9_three_saves_no_write
    (w : Collab.World) (pid fp c1 c2 c3 : string) (t1 t2 t3 T : Z)
    (Htracked : Debounce.timersTracked w)
    (Hstore : Debounce.storeHasFile (Collab.db w) pid fp)
    (H12 : t1 <= t2) (H23 : t2 <= t3)
    (Hwindow : t3 < t1 + Collab.saveDelay)
    (Hlater : t3 + Collab.saveDelay <= T) :
  let w1 := Collab.debouncedSave t1 w pid fp (Some c1) in
  let w1' := Collab.runTimers t2 w1 in
  let w2 := Collab.debouncedSave t2 w1' pid fp (Some c2) in
  let w2' := Collab.runTimers t3 w2 in
  let w3 := Collab.debouncedSave t3 w2' pid fp (Some c3) in
  let w4 := Collab.runTimers T w3 in
  let key := Collab.saveKey pid fp in
  Collab.saveLog w4 = Collab.saveLog w
  /\ Collab.db w4 = Collab.db w
  /\ Debounce.pendingFor w1 key =
       [Debounce.theTimer pid fp (Collab.nextHandle w)
          (t1 + Collab.saveDelay) c1]
  /\ Debounce.pendingFor w2 key =
       [Debounce.theTimer pid fp (Collab.nextHandle w1')
          (t2 + Collab.saveDelay) c2]
  /\ Debounce.pendingFor w3 key =
       [Debounce.theTimer pid fp (Collab.nextHandle w2')
          (t3 + Collab.saveDelay) c3]
  /\ Debounce.pendingFor w4 key = []
  /\ (exists m,
        Collab.saveTimeouts (Collab.service w4) = Some m /\
        JsMap.get m key = Some (Collab.nextHandle w2'))
  /\ Forall Debounce.atMostOnePerKey [w1; w1'; w2; w2'; w3; w4].
Proof.
  intros w1 w1' w2 w2' w3 w4 key.
  assert (F1 : Debounce.focused w1 pid fp (Collab.nextHandle w)
                 (t1 + Collab.saveDelay) c1).
  { apply debouncedSave_focuses. now apply tracked_keyTracked. }
  destruct (runTimers_before_due (now := t2) F1) as (F1' & S1' & _);
    [lia|].
  fold w1' in F1', S1'.
  assert (F2 : Debounce.focused w2 pid fp (Collab.nextHandle w1')
                 (t2 + Collab.saveDelay) c2).
  { apply debouncedSave_focuses. exact (focused_keyTracked F1'). }
  destruct (runTimers_before_due (now := t3) F2) as (F2' & S2' & _);
    [lia|].
  fold w2' in F2', S2'.
  assert (F3 : Debounce.focused w3 pid fp (Collab.nextHandle w2')
                 (t3 + Collab.saveDelay) c3).
  { apply debouncedSave_focuses. exact (focused_keyTracked F2'). }
  assert (Hstore3 : Debounce.storeHasFile (Collab.db w3) pid fp).
  { apply S2'. apply S1'. exact Hstore. }
  destruct (runTimers_at_due (now := T) F3 Hlater Hstore3)
    as (Hnone & Hstale).
  fold w4 in Hnone, Hstale.
  destruct (runTimers_never_writes t2 w1) as [D1 L1].
  destruct (runTimers_never_writes t3 w2) as [D2 L2].
  destruct (runTimers_never_writes T w3) as [D3 L3].
  fold w1' in D1, L1. fold w2' in D2, L2. fold w4 in D3, L3.
  split.
  { rewrite L3. change (Collab.saveLog w3) with (Collab.saveLog w2').
    rewrite L2. change (Collab.saveLog w2) with (Collab.saveLog w1').
    rewrite L1. reflexivity. }
  split.
  { rewrite D3. change (Collab.db w3) with (Collab.db w2').
    rewrite D2. change (Collab.db w2) with (Collab.db w1').
    rewrite D1. reflexivity. }
  split; [exact (focused_pending F1)|].
  split; [exact (focused_pending F2)|].
  split; [exact (focused_pending F3)|].
  split; [exact Hnone|].
  split; [exact Hstale|].
  assert (T1 : Debounce.timersTracked w1)
    by now apply tracked_debouncedSave.
  assert (T1' : Debounce.timersTracked w1') by now apply tracked_runTimers.
  assert (T2 : Debounce.timersTracked w2)
    by now apply tracked_debouncedSave.
  assert (T2' : Debounce.timersTracked w2') by now apply tracked_runTimers.
  assert (T3 : Debounce.timersTracked w3)
    by now apply tracked_debouncedSave.
  assert (T4 : Debounce.timersTracked w4) by now apply tracked_runTimers.
  repeat (constructor; [now apply tracked_atMostOne|]). constructor.
Qed.

(** C9 on the store of the examples, right after alice joined: saves of
    src/main.js at 0, 600 and 1900 milliseconds and the clock at 3900
    make no save at all, and src/main.js is stored with the content it
    had. *)
Lemma C9_no_write_example :
  let w := Scenario.aliceInRoom in
  let w1 := Collab.debouncedSave 0 w "p1" "src/main.js" (Some "one") in
  let w2 :=
    Collab.debouncedSave 600 (Collab.runTimers 600 w1) "p1" "src/main.js"
      (Some "two") in
  let w3 :=
    Collab.debouncedSave 1900 (Collab.runTimers 1900 w2) "p1" "src/main.js"
      (Some "three") in
  let w4 := Collab.runTimers 3900 w3 in
  Collab.saveLog w4 = []
  /\ Collab.projects (Collab.db w4) "p1" = Found Scenario.projectOne
  /\ Debounce.pendingFor w4 (Collab.saveKey "p1" "src/main.js") = [].
Proof.
  cbv zeta.
  assert (Htr : Debounce.timersTracked Scenario.aliceInRoom).
  { apply (tracked_run [(0, Server.join_project Scenario.alice (Some "p1"))]).
    apply tracked_initial. }
  assert (Hst : Debounce.storeHasFile (Collab.db Scenario.aliceInRoom)
                  "p1" "src/main.js").
  { split; [reflexivity|].
    exists Scenario.projectOne, Scenario.mainFile. split; reflexivity. }
  destruct (@C9_three_saves_no_write Scenario.aliceInRoom "p1"
              "src/main.js" "one" "two" "three" 0 600 1900 3900
              Htr Hst ltac:(lia) ltac:(lia)
              ltac:(unfold Collab.saveDelay; lia)
              ltac:(unfold Collab.saveDelay; lia))
    as (Hlog & Hdb & _ & _ & _ & Hnone & _).
  split; [rewrite Hlog; reflexivity|].
  split; [rewrite Hdb; reflexivity | exact Hnone].
Defined.

(** The same through the handlers: three code-change events of alice for
    src/main.js within two seconds, the clock running on; the store is
    never written. *)
Example three_edits_no_save :
  Collab.saveLog (fst (Server.run Scenario.aliceInRoom Scenario.threeEdits)) =
  [].
Proof. reflexivity. Qed.

(** ** The directory in every world a run reaches *)

Section DirectoryInvariant.
Import Collab Directory.

Lemma wf_set_room (au : JsMap.t (JsMap.t UserData)) pid room :
  JsMap.wf au ->
  Forall (fun e => JsMap.wf (snd e)) au ->
  JsMap.wf room ->
  JsMap.wf (JsMap.set au pid room)
  /\ Forall (fun e => JsMap.wf (snd e)) (JsMap.set au pid room).
Proof.
  intros Hwf Hall Hroom. split; [now apply wf_set | now apply Forall_set].
Qed.

Lemma wf_get_room (au : JsMap.t (JsMap.t UserData)) pid :
  Forall (fun e => JsMap.wf (snd e)) au ->
  JsMap.wf match JsMap.get au pid with
           | Some projectUsers => projectUsers
           | None => []
           end.
Proof.
  intros Hall. destruct (JsMap.get au pid) as [room|] eqn:G.
  - apply get_In in G. rewrite Forall_forall in Hall.
    exact (Hall _ G).
  - constructor.
Qed.

Lemma handleUserJoin_wf now w socket projectId :
  directoryWf (service w) ->
  directoryWf (service (fst (handleUserJoin now w socket projectId))).
Proof.
  intros H. unfold handleUserJoin, denied.
  destruct (userId socket) as [uid|]; [|exact H].
  destruct (falsy (Some uid)); [exact H|].
  destruct projectId as [pid|];
    destruct (findProjectById (db w) _) as [project| |msg]; try exact H.
  destruct (negb _); [exact H|].
  cbv zeta. simpl db.
  destruct H as [Hwf Hall]. unfold directoryWf, roomsWf in *.
  assert (H1 : JsMap.wf
                 (if JsMap.has (activeUsers (service w)) pid
                  then activeUsers (service w)
                  else JsMap.set (activeUsers (service w)) pid [])
               /\ Forall (fun e => JsMap.wf (snd e))
                    (if JsMap.has (activeUsers (service w)) pid
                     then activeUsers (service w)
                     else JsMap.set (activeUsers (service w)) pid [])).
  { destruct (JsMap.has (activeUsers (service w)) pid); [now split|].
    apply wf_set_room; trivial. constructor. }
  destruct H1 as [Hwf1 Hall1].
  destruct (users (db w) uid) as [user| |msg]; simpl;
    try (split; assumption).
  apply wf_set_room; trivial.
  apply wf_set. unfold roomOf. simpl. now apply wf_get_room.
Qed.

Lemma saveCallback_activeUsers w tm :
  activeUsers (service (saveCallback w tm)) = activeUsers (service w).
Proof.
  unfold saveCallback, forgetTimeout.
  destruct (projects (db w) (t_projectId tm)); try reflexivity.
  destruct (t_content tm); [|reflexivity].
  destruct (Project.updateFile _ _ _ _ _) as [[p' f]|]; [|reflexivity].
  now destruct (saveErrorAs (db w) "system").
Qed.

Lemma runTimers_activeUsers now w :
  activeUsers (service (runTimers now w)) = activeUsers (service w).
Proof.
  unfold runTimers.
  set (w0 := withTimers w _ _).
  change (activeUsers (service w)) with (activeUsers (service w0)).
  generalize w0. generalize (filter (fun tm => due tm <=? now) (timers w)).
  intros l. induction l as [|tm l IH]; intros w1; simpl; [reflexivity|].
  now rewrite IH, saveCallback_activeUsers.
Qed.

Lemma directoryWf_step now w e :
  directoryWf (service w) ->
  directoryWf (service (fst (Server.step now w e))).
Proof.
  intros H. destruct e as [socket projectId|socket data|socket data
                          |socket data|socket| |]; simpl.
  - unfold Server.onJoinProject. now apply handleUserJoin_wf.
  - unfold handleCodeChange, denied.
    destruct (falsy (cc_projectId data) || falsy (cc_filePath data));
      [exact H|].
    destruct (cc_projectId data), (cc_filePath data),
      (findProjectById (db w) _); try exact H.
    destruct (negb _); exact H.
  - unfold handleCursorMove. simpl.
    destruct (cm_projectId data) as [pid|]; [|exact H].
    destruct (JsMap.get (activeUsers (service w)) pid) as [room|] eqn:G;
      [|exact H].
    destruct (JsMap.get room (id socket)); [|exact H].
    destruct H as [Hwf Hall]. unfold directoryWf, roomsWf in *. simpl.
    apply wf_set_room; trivial. apply wf_set.
    apply get_In in G. rewrite Forall_forall in Hall. exact (Hall _ G).
  - unfold handleFileOperation, fileOperationFailed, denied.
    destruct (fo_projectId data), (findProjectById (db w) _);
      try exact H.
    destruct (negb _); [exact H|].
    destruct (applyFileOperation now _ data) as [[[p1 r] ty]|msg];
      [|exact H].
    destruct (saveError (db w)); exact H.
  - unfold Server.onDisconnect.
    pose proof (handleUserLeave_directory w socket) as Hd.
    destruct (handleUserLeave w socket) as [w' out]. simpl in *.
    unfold directoryWf, roomsWf. rewrite Hd.
    destruct H as [Hwf Hall]. now apply leaveLoop_wf.
  - unfold cleanupInactiveUsers.
    destruct H as [Hwf Hall].
    pose proof (@sweepRooms_wf now (rooms w) (activeUsers (service w))
                  Hwf Hall) as Hs.
    destruct (sweepRooms now (rooms w) (activeUsers (service w)))
      as [[au gone] out]. exact Hs.
  - unfold directoryWf, roomsWf. now rewrite runTimers_activeUsers.
Qed.

(** In every world that a run reaches from a server that has just
    started, no project id has two entries and no Room lists a connection
    twice. *)
Lemma directoryWf_run d trace :
  directoryWf (service (fst (Server.run (initial d) trace))).
Proof.
  assert (Hgen : forall w, directoryWf (service w) ->
                           directoryWf (service (fst (Server.run w trace)))).
  { induction trace as [|[now e] trace IH]; intros w H; simpl; [exact H|].
    pose proof (@directoryWf_step now w e H) as H1.
    destruct (Server.step now w e) as [w1 out1]. simpl in H1.
    specialize (IH w1 H1).
    destruct (Server.run w1 trace) as [w2 out2]. exact IH. }
  apply Hgen. split; constructor.
Qed.

End DirectoryInvariant.

(** * Further properties *)

(** ** The positional adjustment beyond the claims *)

Section TransformMore.
Import OT.

Lemma against_keeps_fields op1 op2 :
  transformAgainstOperation op1 op2 =
  withPosition op1 (position (transformAgainstOperation op1 op2)).
Proof.
  unfold transformAgainstOperation.
  repeat match goal with
         | |- context [if ?b then _ else _] => destruct b
         end; simpl; try (now destruct op1).
Qed.

Lemma loop_keeps_fields pendingOps ts : forall op,
  type (transformLoop pendingOps ts op) = type op
  /\ length (transformLoop pendingOps ts op) = length op
  /\ text (transformLoop pendingOps ts op) = text op.
Proof.
  induction pendingOps as [|p rest IH]; intros op; simpl; [tauto|].
  destruct (tsLt (timestamp p) ts); [|apply IH].
  destruct (IH (transformAgainstOperation op (operation p))) as (H1 & H2 & H3).
  rewrite H1, H2, H3, (against_keeps_fields op (operation p)). simpl. tauto.
Qed.

Lemma loop_app a b ts op :
  transformLoop (a ++ b)%list ts op = transformLoop b ts (transformLoop a ts op).
Proof.
  revert op. induction a as [|p a IH]; intros op; simpl; [reflexivity|].
  apply IH.
Qed.

Lemma transformOperation_pendingOf q pid op fp ts :
  transformOperation q pid op fp ts =
  transformLoop (Observing.pendingOf q pid fp) ts op.
Proof. reflexivity. Qed.

End TransformMore.

(** X1. Whatever is pending, the adjustment changes nothing of an
    operation but its position: kind, length and text come out as they
    went in. *)
Theorem X_transform_changes_position_only
    (q : JsMap.t (list OT.QueuedOp)) (pid fp : string) (op : OT.Operation)
    (ts : option Z) :
  OT.transformOperation q pid op fp ts =
  OT.withPosition op (OT.position (OT.transformOperation q pid op fp ts)).
Proof.
  unfold OT.transformOperation.
  destruct (loop_keeps_fields
              match JsMap.get q (OT.queueKey pid fp) with
              | Some l => l
              | None => []
              end ts op) as (H1 & H2 & H3).
  destruct (OT.transformLoop _ ts op) as [ty po le te].
  destruct op as [ty0 po0 le0 te0]. simpl in *. now subst.
Qed.





(** X4. Only inserts move a delete: an incoming delete comes out
    unchanged when no pending operation of its file is an insert, however
    many deletes are pending and wherever they are. *)
Theorem X_delete_moved_by_inserts_only
    (q : JsMap.t (list OT.QueuedOp)) (pid fp : string) (op : OT.Operation)
    (ts : option Z)
    (Hop : OT.isType op "delete" = true)
    (Hnoins : Forall (fun p => OT.isType (OT.operation p) "insert" = false)
                     (Observing.pendingOf q pid fp)) :
  OT.transformOperation q pid op fp ts = op.
Proof.
  rewrite transformOperation_pendingOf.
  induction Hnoins as [|p rest Hp _ IH]; simpl; [reflexivity|].
  replace (OT.transformAgainstOperation op (OT.operation p)) with op.
  - now destruct (OT.tsLt (OT.timestamp p) ts).
  - unfold OT.transformAgainstOperation.
    now rewrite (isType_delete_not_insert _ Hop), Hop, Hp.
Qed.

(** X4 with two earlier deletes pending in front of a delete at offset
    9. *)
Lemma X_delete_moved_by_inserts_only_example :
  OT.transformOperation
    (Cases.queueOf [Cases.queuedDelete 0 4 1; Cases.queuedDelete 2 3 2])
    "p1" (Scenario.deleteAt 9 1) "main.js" (Some 3) = Scenario.deleteAt 9 1.
Proof.
  apply X_delete_moved_by_inserts_only; [reflexivity|].
  repeat constructor.
Defined.



(** ** The queues of pending operations *)

Section QueueFacts.
Import Collab Observing.
Local Open Scope list_scope.

Lemma skipn_snoc (A : Type) (l : list A) (x : A) n :
  (n <= List.length l)%nat -> skipn n (l ++ [x]) = skipn n l ++ [x].
Proof.
  intros Hn. rewrite skipn_app.
  replace (n - List.length l)%nat with O by lia. reflexivity.
Qed.

(** [queueOperation] in one [set]: what was pending without its oldest
    entries beyond ninety-nine, and the new entry behind. *)
Lemma queueOperation_as_set q pid fp e :
  OT.queueOperation q pid fp e =
  JsMap.set q (OT.queueKey pid fp)
    (skipn (S (List.length (pendingOf q pid fp)) - 100) (pendingOf q pid fp)
     ++ [e]).
Proof.
  unfold OT.queueOperation, pendingOf, JsMap.has.
  set (key := OT.queueKey pid fp).
  destruct (JsMap.get q key) as [old|] eqn:G.
  - rewrite G. cbv zeta.
    destruct (100 <? List.length (old ++ [e]))%nat eqn:E.
    + rewrite set_set. unfold OT.lastHundred.
      rewrite length_app, Nat.add_1_r.
      rewrite skipn_snoc by lia. reflexivity.
    + apply Nat.ltb_ge in E. rewrite length_app, Nat.add_1_r in E.
      replace (S (List.length old) - 100)%nat with O by lia. reflexivity.
  - rewrite get_set_same. cbv zeta. simpl. now rewrite set_set.
Qed.

Lemma hasColon_behind a b : hasColon (a ++ String ":"%char b)%string = true.
Proof.
  induction a as [|c a IH]; simpl; [reflexivity|].
  rewrite IH. apply orb_true_r.
Qed.

Lemma hasColon_queueKey pid fp : hasColon (OT.queueKey pid fp) = true.
Proof. exact (hasColon_behind pid fp). Qed.

Lemma queueOperation_bounded q pid fp e :
  Forall (fun x : string * list OT.QueuedOp =>
            (1 <= List.length (snd x) <= 100)%nat
            /\ hasColon (fst x) = true) q ->
  Forall (fun x : string * list OT.QueuedOp =>
            (1 <= List.length (snd x) <= 100)%nat
            /\ hasColon (fst x) = true)
         (OT.queueOperation q pid fp e).
Proof.
  intros H. rewrite queueOperation_as_set. apply Forall_set; [exact H|].
  simpl. split; [|apply hasColon_queueKey].
  rewrite length_app, length_skipn. simpl. lia.
Qed.

Lemma saveCallback_operationQueue w tm :
  operationQueue (service (saveCallback w tm)) = operationQueue (service w).
Proof.
  unfold saveCallback, forgetTimeout.
  destruct (projects (db w) (t_projectId tm)); try reflexivity.
  destruct (t_content tm); [|reflexivity].
  destruct (Project.updateFile _ _ _ _ _) as [[p' f]|]; [|reflexivity].
  now destruct (saveErrorAs (db w) "system").
Qed.

Lemma runTimers_operationQueue now w :
  operationQueue (service (runTimers now w)) = operationQueue (service w).
Proof.
  unfold runTimers.
  set (w0 := withTimers w _ _).
  change (operationQueue (service w)) with (operationQueue (service w0)).
  generalize w0. generalize (filter (fun tm => due tm <=? now) (timers w)).
  intros l. induction l as [|tm l IH]; intros w1; simpl; [reflexivity|].
  now rewrite IH, saveCallback_operationQueue.
Qed.

Lemma queuesBounded_step now w e :
  queuesBounded (service w) ->
  queuesBounded (service (fst (Server.step now w e))).
Proof.
  intros H. destruct e as [socket projectId|socket data|socket data
                          |socket data|socket| |]; simpl.
  - unfold Server.onJoinProject, handleUserJoin, denied.
    destruct (userId socket) as [uid|]; [|exact H].
    destruct (falsy (Some uid)); [exact H|].
    destruct projectId as [pid|];
      destruct (findProjectById _ _) as [project| |msg]; try exact H.
    destruct (negb _); [exact H|].
    cbv zeta. destruct (users _ uid); exact H.
  - unfold handleCodeChange, denied.
    destruct (falsy (cc_projectId data) || falsy (cc_filePath data));
      [exact H|].
    destruct (cc_projectId data), (cc_filePath data),
      (findProjectById (db w) _); try exact H.
    destruct (negb _); [exact H|].
    unfold queuesBounded. simpl. now apply queueOperation_bounded.
  - exact H.
  - unfold handleFileOperation, fileOperationFailed, denied.
    destruct (fo_projectId data), (findProjectById (db w) _);
      try exact H.
    destruct (negb _); [exact H|].
    destruct (applyFileOperation now _ data) as [[[p1 r] ty]|msg];
      [|exact H].
    destruct (saveError (db w)); exact H.
  - unfold Server.onDisconnect, handleUserLeave.
    destruct (leaveLoop (activeUsers (service w)) (id socket))
      as [[[projectId userData]|] au]; exact H.
  - unfold cleanupInactiveUsers.
    destruct (sweepRooms now (rooms w) (activeUsers (service w)))
      as [[au gone] out]. exact H.
  - unfold queuesBounded. now rewrite runTimers_operationQueue.
Qed.

(** What every step keeps holds in every world of a run. *)
Lemma run_invariant (I : World -> Prop) :
  (forall now w e, I w -> I (fst (Server.step now w e))) ->
  forall trace w, I w -> I (fst (Server.run w trace)).
Proof.
  intros Hstep. induction trace as [|[now e] trace IH]; intros w H; simpl;
    [exact H|].
  pose proof (Hstep now w e H) as H1.
  destruct (Server.step now w e) as [w1 out1]. simpl in H1.
  specialize (IH w1 H1).
  destruct (Server.run w1 trace) as [w2 out2]. exact IH.
Qed.

Lemma get_without_colon (V : Type) (m : JsMap.t V) k :
  Forall (fun e => hasColon (fst e) = true) m ->
  hasColon k = false ->
  JsMap.get m k = None.
Proof.
  intros Hall Hk. induction Hall as [|[k' v] m Hx _ IH]; simpl;
    [reflexivity|].
  destruct (String.eqb k' k) eqn:E; [|exact IH].
  apply String.eqb_eq in E. simpl in Hx. congruence.
Qed.

End QueueFacts.

(** X6. Queueing an operation for a file leaves, as the pending operations
    of that file, those that were pending without the oldest beyond
    ninety-nine, followed by the new one: never more than a hundred, the
    new one last, the oldest dropped first. The queues of other files stay
    as they are. *)
Theorem X_queueOperation_keeps_last_hundred
    (q : JsMap.t (list OT.QueuedOp)) (pid fp : string) (e : OT.QueuedOp) :
  let old := Observing.pendingOf q pid fp in
  let q' := OT.queueOperation q pid fp e in
  Observing.pendingOf q' pid fp =
    (skipn (S (List.length old) - 100) old ++ [e])%list
  /\ List.length (Observing.pendingOf q' pid fp) =
       Nat.min 100 (S (List.length old))
  /\ forall key, key <> OT.queueKey pid fp ->
                 JsMap.get q' key = JsMap.get q key.
Proof.
  cbv zeta. rewrite queueOperation_as_set. split; [|split].
  - unfold Observing.pendingOf at 1. now rewrite get_set_same.
  - unfold Observing.pendingOf at 1. rewrite get_set_same.
    rewrite length_app, length_skipn. cbn [List.length]. lia.
  - intros key Hne. apply get_set_other. congruence.
Qed.

(** X7. In every world that a run reaches from a server that has just
    started, every queue of pending operations holds at least one and at
    most a hundred operations and is filed under a key that contains a
    colon. *)
Theorem X_queues_bounded_in_every_run
    (d : Collab.Database) (trace : list (Z * Server.Inbound)) :
  Observing.queuesBounded
    (Collab.service (fst (Server.run (Collab.initial d) trace))).
Proof.
  apply (run_invariant
           (fun w => Observing.queuesBounded (Collab.service w))).
  - intros now w e. apply queuesBounded_step.
  - constructor.
Qed.

(** X8. [getAnalytics] looks the pending operations up under the project
    id alone, while they are filed under project id, colon, file path:
    in every world a run reaches, for a project id without colon, it
    reports no operation at all and no recent activity, whatever has been
    queued for the files of the project. *)
Theorem X_analytics_reports_no_operations
    (d : Collab.Database) (trace : list (Z * Server.Inbound)) (pid : string)
    (Hpid : Observing.hasColon pid = false) :
  let s := Collab.service (fst (Server.run (Collab.initial d) trace)) in
  Stats.an_totalOperations (Stats.getAnalytics s pid) = 0%nat
  /\ Stats.an_recentActivity (Stats.getAnalytics s pid) = [].
Proof.
  cbv zeta.
  pose proof (@run_invariant
                (fun w => Observing.queuesBounded (Collab.service w))
                (fun now w e => @queuesBounded_step now w e)
                trace (Collab.initial d) (Forall_nil _)) as Hb.
  simpl in Hb. unfold Observing.queuesBounded in Hb.
  unfold Stats.getAnalytics. simpl.
  rewrite (@get_without_colon _ _ pid); [split; reflexivity | | exact Hpid].
  apply Forall_impl with (2 := Hb). tauto.
Qed.

(** X8 after alice and bob have each queued an insert for src/main.js of
    project p1: two operations are pending, and the analytics of p1 count
    none. *)
Lemma X_analytics_reports_no_operations_example :
  let s :=
    Collab.service
      (fst (Server.run (Collab.initial Scenario.store)
              Cases2.joinsAndInserts)) in
  List.length
    (Observing.pendingOf (Collab.operationQueue s) "p1" "src/main.js")
    = 2%nat
  /\ Stats.an_totalOperations (Stats.getAnalytics s "p1") = 0%nat
  /\ Stats.an_activeUsers (Stats.getAnalytics s "p1") = 2%nat.
Proof.
  cbv zeta. split; [reflexivity|]. split; [|reflexivity].
  exact (proj1 (@X_analytics_reports_no_operations Scenario.store
                  Cases2.joinsAndInserts "p1" eq_refl)).
Defined.

(** ** Access to a project *)

Section AccessFacts.
Local Open Scope list_scope.

Lemma find_app_none (A : Type) (f : A -> bool) l l' :
  find f l = None -> find f (l ++ l') = find f l'.
Proof.
  induction l as [|a l IH]; simpl; [reflexivity|].
  destruct (f a); [discriminate | exact IH].
Qed.

Lemma find_app_some (A : Type) (f : A -> bool) l l' x :
  find f l = Some x -> find f (l ++ l') = Some x.
Proof.
  induction l as [|a l IH]; simpl; [discriminate|].
  destruct (f a); [trivial | exact IH].
Qed.

Lemma find_snoc_false (A : Type) (f : A -> bool) l x :
  f x = false -> find f (l ++ [x]) = find f l.
Proof.
  intros Hx. induction l as [|a l IH]; simpl; [now rewrite Hx|].
  destruct (f a); [reflexivity | exact IH].
Qed.

Lemma find_none_not_in userId cs :
  find (Collaborators.isUser userId) cs = None ->
  ~ In userId (map Project.user cs).
Proof.
  induction cs as [|c cs IH]; simpl; [tauto|].
  destruct (Collaborators.isUser userId c) eqn:E; [discriminate|].
  unfold Collaborators.isUser in E.
  apply String.eqb_neq in E. intros H [Hc|Hc]; [congruence | now apply IH].
Qed.

Lemma removeFirstOf_absent userId cs :
  find (Collaborators.isUser userId) cs = None ->
  Collaborators.removeFirstOf cs userId = cs.
Proof.
  induction cs as [|c cs IH]; simpl; [reflexivity|].
  destruct (Collaborators.isUser userId c); [discriminate|].
  intros H. now rewrite IH.
Qed.

Lemma removeFirstOf_users userId cs x :
  In x (map Project.user (Collaborators.removeFirstOf cs userId)) ->
  In x (map Project.user cs).
Proof.
  induction cs as [|c cs IH]; simpl; [tauto|].
  destruct (Collaborators.isUser userId c); simpl; [tauto|].
  intros [H|H]; [now left | right; now apply IH].
Qed.

Lemma removeFirstOf_unique userId cs :
  NoDup (map Project.user cs) ->
  NoDup (map Project.user (Collaborators.removeFirstOf cs userId))
  /\ ~ In userId (map Project.user (Collaborators.removeFirstOf cs userId)).
Proof.
  induction cs as [|c cs IH]; simpl; [split; [constructor | tauto]|].
  intros Hnd. inversion Hnd as [|? ? Hnin Hnd']; subst.
  destruct (Collaborators.isUser userId c) eqn:E;
    unfold Collaborators.isUser in E.
  - apply String.eqb_eq in E. subst userId. now split.
  - apply String.eqb_neq in E. destruct (IH Hnd') as [IH1 IH2].
    simpl. split.
    + constructor; [|exact IH1]. intros Hin. apply Hnin.
      now apply removeFirstOf_users in Hin.
    + intros [H|H]; [congruence | contradiction].
Qed.

(** Removing the entry of one user leaves the first entry that any test
    on another user finds. *)
Lemma find_removeFirstOf_other (f : Project.Collaborator -> bool) userId cs :
  (forall c, Project.user c = userId -> f c = false) ->
  find f (Collaborators.removeFirstOf cs userId) = find f cs.
Proof.
  intros Hf. induction cs as [|c cs IH]; simpl; [reflexivity|].
  destruct (Collaborators.isUser userId c) eqn:E;
    unfold Collaborators.isUser in E.
  - apply String.eqb_eq in E. now rewrite (Hf c E).
  - simpl. now rewrite IH.
Qed.

Lemma role_of_absent (p : Project.t) userId :
  ~ In userId (map Project.user (Project.collaborators p)) ->
  Project.getCollaboratorRole p userId = None.
Proof.
  intros Hnin. unfold Project.getCollaboratorRole.
  destruct (find _ (Project.collaborators p)) as [c|] eqn:F; [|reflexivity].
  apply find_some in F. destruct F as [Hin Hc].
  apply andb_true_iff in Hc. destruct Hc as [Hu _].
  apply String.eqb_eq in Hu. exfalso. apply Hnin. rewrite <- Hu.
  now apply in_map.
Qed.

End AccessFacts.

(** X9. The actions are ordered: whoever may do anything on a project may
    read it, and whoever may do anything but read may write. *)
Theorem X_access_implies_lower
    (p : Project.t) (userId : option string) (action : Project.Action)
    (Hmay : Project.canUserAccess p userId action = true) :
  Project.canUserAccess p userId Project.act_read = true
  /\ (action <> Project.act_read ->
      Project.canUserAccess p userId Project.act_write = true).
Proof.
  unfold Project.canUserAccess in *.
  destruct userId as [uid|]; [|discriminate].
  destruct (String.eqb (Project.owner p) uid); [tauto|].
  destruct (Project.getCollaboratorRole p uid) as [r|]; [|discriminate].
  destruct action, r; simpl in *; try discriminate; tauto.
Qed.

(** X9 for bob, who may write project p1. *)
Lemma X_access_implies_lower_example :
  Project.canUserAccess Scenario.projectOne (Some "bob") Project.act_read
    = true.
Proof.
  exact (proj1 (@X_access_implies_lower Scenario.projectOne (Some "bob")
                  Project.act_write eq_refl)).
Defined.

(** X10. A user who is not the owner is refused every action unless an
    accepted collaborator entry gives a role other than owner: a pending
    or declined invitation counts for nothing, and neither does an
    accepted entry whose role is owner, which the permission table never
    lists. *)
Theorem X_no_listed_role_no_access
    (p : Project.t) (uid : string) (action : Project.Action)
    (Howner : Project.owner p <> uid)
    (Hrole : forall c, In c (Project.collaborators p) ->
                       Project.user c = uid ->
                       Project.status c = Project.accepted ->
                       Project.role c = Project.role_owner) :
  Project.canUserAccess p (Some uid) action = false.
Proof.
  unfold Project.canUserAccess, Project.getCollaboratorRole.
  apply String.eqb_neq in Howner. rewrite Howner.
  destruct (find _ (Project.collaborators p)) as [c|] eqn:F; [|reflexivity].
  apply find_some in F. destruct F as [Hin Hc].
  apply andb_true_iff in Hc. destruct Hc as [Hu Hs].
  apply String.eqb_eq in Hu.
  rewrite (Hrole c Hin Hu); [now destruct action|].
  now destruct (Project.status c).
Qed.

(** X10 for dave, whose invitation to p1 with the role write is still
    pending. *)
Lemma X_no_listed_role_no_access_example :
  Project.canUserAccess Scenario.projectOne (Some "dave") Project.act_read
    = false.
Proof.
  apply X_no_listed_role_no_access; [discriminate|].
  simpl. intros c [<-|[<-|[<-|[]]]]; simpl; discriminate.
Defined.

(** X11. Adding a collaborator changes nobody's access, the added user's
    included: the entry returned is for that user, pending, with the role
    given or, when none is given, read, and it is stored behind the
    entries the project had, which stay as they are, as does the owner.
    It keeps the users of the entries distinct, and adding the same user
    again is refused. *)
Theorem X_addCollaborator_grants_nothing_yet
    (p p' : Project.t) (userId : string) (role : option Project.Role)
    (c : Project.Collaborator)
    (Hadd : Collaborators.addCollaborator p userId role = Ok (p', c)) :
  (forall v action,
      Project.canUserAccess p' v action = Project.canUserAccess p v action)
  /\ Project.user c = userId
  /\ Project.status c = Project.pending
  /\ Project.role c = match role with
                      | Some r => r
                      | None => Project.role_read
                      end
  /\ Project.collaborators p' = (Project.collaborators p ++ [c])%list
  /\ Project.owner p' = Project.owner p
  /\ (Collaborators.uniqueUsers p -> Collaborators.uniqueUsers p')
  /\ (forall role',
        Collaborators.addCollaborator p' userId role' =
        Throw "User is already a collaborator").
Proof.
  unfold Collaborators.addCollaborator in Hadd.
  destruct (find (Collaborators.isUser userId) (Project.collaborators p))
    eqn:F; [discriminate|].
  inversion Hadd; subst p' c; clear Hadd.
  split; [|split; [reflexivity|split; [reflexivity|split; [reflexivity|
    split; [reflexivity|split; [reflexivity|split]]]]]].
  - intros v action. unfold Project.canUserAccess.
    destruct v as [uid|]; [|reflexivity]. simpl Project.owner.
    unfold Project.getCollaboratorRole. simpl Project.collaborators.
    rewrite find_snoc_false; [reflexivity|]. simpl. apply andb_false_r.
  - unfold Collaborators.uniqueUsers. simpl. intros Hnd.
    rewrite map_app. apply NoDup_app; [exact Hnd | |].
    + simpl. repeat constructor. simpl. tauto.
    + intros x Hin [Hx|[]]. simpl in Hx. subst x.
      now apply (find_none_not_in _ _ F).
  - intros role'. unfold Collaborators.addCollaborator. simpl.
    rewrite (find_app_none _ _ _ F). simpl.
    unfold Collaborators.isUser. simpl. now rewrite String.eqb_refl.
Qed.

(** X11 for erin, invited to p1 with the role admin: she may not read it,
    and bob may write as before. *)
Lemma X_addCollaborator_grants_nothing_yet_example :
  match Collaborators.addCollaborator Scenario.projectOne "erin"
          (Some Project.role_admin) with
  | Ok (p', _) =>
      Project.canUserAccess p' (Some "erin") Project.act_read = false
      /\ Project.canUserAccess p' (Some "bob") Project.act_write = true
  | Throw _ => False
  end.
Proof.
  destruct (Collaborators.addCollaborator Scenario.projectOne "erin"
              (Some Project.role_admin)) as [[p' c]|msg] eqn:E;
    [|discriminate].
  destruct (X_addCollaborator_grants_nothing_yet _ _ _ E) as (Hsame & _).
  rewrite !Hsame. split; reflexivity.
Defined.

(** X12. Removing a collaborator, on a project whose entries have distinct
    users, takes every access from a user who is not the owner, leaves
    the access of everybody else as it was, and keeps the users
    distinct. *)
Theorem X_removeCollaborator_revokes
    (p p' : Project.t) (userId : string)
    (Hunique : Collaborators.uniqueUsers p)
    (Howner : Project.owner p <> userId)
    (Hremove : Collaborators.removeCollaborator p userId = Ok p') :
  (forall action, Project.canUserAccess p' (Some userId) action = false)
  /\ (forall v action,
        v <> userId ->
        Project.canUserAccess p' (Some v) action =
        Project.canUserAccess p (Some v) action)
  /\ Collaborators.uniqueUsers p'.
Proof.
  unfold Collaborators.removeCollaborator in Hremove.
  destruct (find (Collaborators.isUser userId) (Project.collaborators p));
    [|discriminate].
  inversion Hremove; subst p'; clear Hremove.
  destruct (@removeFirstOf_unique userId _ Hunique) as [Hnd Hnin].
  split; [|split; [|exact Hnd]].
  - intros action. unfold Project.canUserAccess. simpl Project.owner.
    apply String.eqb_neq in Howner. rewrite Howner.
    now rewrite role_of_absent.
  - intros v action Hv. unfold Project.canUserAccess. simpl Project.owner.
    unfold Project.getCollaboratorRole. simpl Project.collaborators.
    rewrite find_removeFirstOf_other; [reflexivity|].
    intros c0 Hc. rewrite Hc.
    replace (String.eqb userId v) with false; [reflexivity|].
    symmetry. apply String.eqb_neq. congruence.
Qed.

(** X12 for bob, removed from p1: he may no longer read it, and carol
    still may. *)
Lemma X_removeCollaborator_revokes_example :
  match Collaborators.removeCollaborator Scenario.projectOne "bob" with
  | Ok p' =>
      Project.canUserAccess p' (Some "bob") Project.act_read = false
      /\ Project.canUserAccess p' (Some "carol") Project.act_read = true
  | Throw _ => False
  end.
Proof.
  destruct (Collaborators.removeCollaborator Scenario.projectOne "bob")
    as [p'|msg] eqn:E; [|discriminate].
  assert (Hu : Collaborators.uniqueUsers Scenario.projectOne).
  { unfold Collaborators.uniqueUsers. simpl.
    repeat constructor; simpl; intuition discriminate. }
  assert (Ho : Project.owner Scenario.projectOne <> "bob")
    by (simpl; discriminate).
  destruct (@X_removeCollaborator_revokes _ _ _ Hu Ho E)
    as (Hbob & Hothers & _).
  split; [apply Hbob|]. rewrite Hothers; [reflexivity | discriminate].
Defined.

(** X13. Adding a collaborator and removing that user again gives back the
    project as it was. *)
Theorem X_add_then_remove_collaborator
    (p p' : Project.t) (userId : string) (role : option Project.Role)
    (c : Project.Collaborator)
    (Hadd : Collaborators.addCollaborator p userId role = Ok (p', c)) :
  Collaborators.removeCollaborator p' userId = Ok p.
Proof.
  unfold Collaborators.addCollaborator in Hadd.
  destruct (find (Collaborators.isUser userId) (Project.collaborators p))
    eqn:F; [discriminate|].
  inversion Hadd; subst p' c; clear Hadd.
  unfold Collaborators.removeCollaborator. simpl Project.collaborators.
  rewrite (find_app_none _ _ _ F). simpl find.
  unfold Collaborators.isUser at 1. simpl Project.user.
  rewrite String.eqb_refl. f_equal.
  assert (Hrm : forall cs x,
             find (Collaborators.isUser userId) cs = None ->
             Collaborators.isUser userId x = true ->
             Collaborators.removeFirstOf (cs ++ [x])%list userId = cs).
  { induction cs as [|a cs IH]; simpl; intros x Hn Hx; [now rewrite Hx|].
    destruct (Collaborators.isUser userId a); [discriminate|].
    now rewrite IH. }
  rewrite Hrm; [now destruct p | exact F |].
  unfold Collaborators.isUser. simpl. apply String.eqb_refl.
Qed.

(** X13 for erin and project p1. *)
Lemma X_add_then_remove_collaborator_example :
  match Collaborators.addCollaborator Scenario.projectOne "erin" None with
  | Ok (p', _) =>
      Collaborators.removeCollaborator p' "erin" = Ok Scenario.projectOne
  | Throw _ => False
  end.
Proof.
  destruct (Collaborators.addCollaborator Scenario.projectOne "erin" None)
    as [[p' c]|msg] eqn:E; [|discriminate].
  exact (@X_add_then_remove_collaborator _ _ _ _ _ E).
Defined.

(** ** The files of a project *)

Section FileFacts.
Local Open Scope list_scope.

Local Abbreviation hasPath fp := (fun f => String.eqb (Project.path f) fp).

Lemma find_path_none fs fp :
  find (hasPath fp) fs = None -> ~ In fp (map Project.path fs).
Proof.
  induction fs as [|f fs IH]; simpl; [tauto|].
  destruct (String.eqb (Project.path f) fp) eqn:E; [discriminate|].
  apply String.eqb_neq in E. intros H [Hf|Hf]; [congruence | now apply IH].
Qed.

Lemma find_path_absent fs fp :
  ~ In fp (map Project.path fs) -> find (hasPath fp) fs = None.
Proof.
  induction fs as [|f fs IH]; simpl; [reflexivity|].
  intros Hnin. destruct (String.eqb (Project.path f) fp) eqn:E.
  - apply String.eqb_eq in E. tauto.
  - apply IH. tauto.
Qed.

Lemma find_path_has fs fp f :
  find (hasPath fp) fs = Some f -> Project.path f = fp /\ In f fs.
Proof.
  intros H. apply find_some in H. destruct H as [Hin Hp].
  apply String.eqb_eq in Hp. now split.
Qed.

Lemma paths_replaceFirst_same fs fp (g : Project.File -> Project.File) :
  (forall f, Project.path (g f) = Project.path f) ->
  map Project.path (Project.replaceFirst fs fp g) = map Project.path fs.
Proof.
  intros Hg. induction fs as [|f fs IH]; simpl; [reflexivity|].
  destruct (String.eqb (Project.path f) fp); simpl;
    [now rewrite Hg | now rewrite IH].
Qed.

Lemma find_replaceFirst_other fs fp fp' (g : Project.File -> Project.File) :
  fp' <> fp ->
  (forall f, Project.path f = fp -> Project.path (g f) <> fp') ->
  find (hasPath fp') (Project.replaceFirst fs fp g) = find (hasPath fp') fs.
Proof.
  intros Hne Hg. induction fs as [|f fs IH]; simpl; [reflexivity|].
  destruct (String.eqb (Project.path f) fp) eqn:E; simpl.
  - apply String.eqb_eq in E.
    replace (String.eqb (Project.path (g f)) fp') with false
      by (symmetry; apply String.eqb_neq; now apply Hg).
    replace (String.eqb (Project.path f) fp') with false;
      [reflexivity|].
    symmetry. apply String.eqb_neq. congruence.
  - now rewrite IH.
Qed.

Lemma paths_removeFirst fs fp x :
  In x (map Project.path (Project.removeFirst fs fp)) ->
  In x (map Project.path fs).
Proof.
  induction fs as [|f fs IH]; simpl; [tauto|].
  destruct (String.eqb (Project.path f) fp); simpl; [tauto|].
  intros [H|H]; [now left | right; now apply IH].
Qed.

Lemma removeFirst_unique fs fp :
  NoDup (map Project.path fs) ->
  NoDup (map Project.path (Project.removeFirst fs fp))
  /\ ~ In fp (map Project.path (Project.removeFirst fs fp)).
Proof.
  induction fs as [|f fs IH]; simpl; [split; [constructor | tauto]|].
  intros Hnd. inversion Hnd as [|? ? Hnin Hnd']; subst.
  destruct (String.eqb (Project.path f) fp) eqn:E.
  - apply String.eqb_eq in E. subst fp. now split.
  - apply String.eqb_neq in E. destruct (IH Hnd') as [IH1 IH2].
    simpl. split.
    + constructor; [|exact IH1]. intros Hin. apply Hnin.
      now apply paths_removeFirst in Hin.
    + intros [H|H]; [congruence | contradiction].
Qed.

Lemma find_removeFirst_other fs fp fp' :
  fp' <> fp ->
  find (hasPath fp') (Project.removeFirst fs fp) = find (hasPath fp') fs.
Proof.
  intros Hne. induction fs as [|f fs IH]; simpl; [reflexivity|].
  destruct (String.eqb (Project.path f) fp) eqn:E; simpl.
  - apply String.eqb_eq in E.
    replace (String.eqb (Project.path f) fp') with false; [reflexivity|].
    symmetry. apply String.eqb_neq. congruence.
  - now rewrite IH.
Qed.

Lemma length_removeFirst fs fp f :
  find (hasPath fp) fs = Some f ->
  S (List.length (Project.removeFirst fs fp)) = List.length fs.
Proof.
  induction fs as [|a fs IH]; simpl; [discriminate|].
  destruct (String.eqb (Project.path a) fp); simpl; [reflexivity|].
  intros H. now rewrite IH.
Qed.

Lemma length_replaceFirst fs fp (g : Project.File -> Project.File) :
  List.length (Project.replaceFirst fs fp g) = List.length fs.
Proof.
  induction fs as [|a fs IH]; simpl; [reflexivity|].
  destruct (String.eqb (Project.path a) fp); simpl; [reflexivity|].
  now rewrite IH.
Qed.

Lemma paths_replaceFirst_to fs old np (g : Project.File -> Project.File) x :
  (forall f, Project.path (g f) = np) ->
  In x (map Project.path (Project.replaceFirst fs old g)) ->
  In x (map Project.path fs) \/ x = np.
Proof.
  intros Hg. induction fs as [|f fs IH]; simpl; [tauto|].
  destruct (String.eqb (Project.path f) old); simpl.
  - rewrite Hg. intros [H|H]; [now right | left; now right].
  - intros [H|H]; [left; now left|].
    destruct (IH H) as [H1|H1]; [left; now right | now right].
Qed.

(** Moving the first file of one path to a path that no file has. *)
Lemma replaceFirst_to_unique fs old np (g : Project.File -> Project.File) :
  (forall f, Project.path (g f) = np) ->
  NoDup (map Project.path fs) ->
  ~ In np (map Project.path fs) ->
  NoDup (map Project.path (Project.replaceFirst fs old g)).
Proof.
  intros Hg. induction fs as [|f fs IH]; simpl; [constructor|].
  intros Hnd Hnp. inversion Hnd as [|? ? Hnin Hnd']; subst.
  destruct (String.eqb (Project.path f) old); simpl.
  - rewrite Hg. constructor; [tauto | exact Hnd'].
  - constructor; [|apply IH; tauto].
    intros Hin. apply (@paths_replaceFirst_to fs old np g _ Hg) in Hin.
    destruct Hin as [Hin|Hin]; [contradiction|].
    apply Hnp. now left.
Qed.

Lemma find_moved fs old np (g : Project.File -> Project.File) f :
  (forall x, Project.path (g x) = np) ->
  np <> old ->
  NoDup (map Project.path fs) ->
  ~ In np (map Project.path fs) ->
  find (hasPath old) fs = Some f ->
  find (hasPath old) (Project.replaceFirst fs old g) = None
  /\ find (hasPath np) (Project.replaceFirst fs old g) = Some (g f).
Proof.
  intros Hg Hne. induction fs as [|a fs IH]; simpl; [discriminate|].
  intros Hnd Hnp Hf. inversion Hnd as [|? ? Hnin Hnd']; subst.
  destruct (String.eqb (Project.path a) old) eqn:E; simpl.
  - inversion Hf; subst a. rewrite Hg, String.eqb_refl.
    apply String.eqb_eq in E.
    replace (String.eqb np old) with false
      by (symmetry; now apply String.eqb_neq).
    split; [|reflexivity]. apply find_path_absent. now rewrite <- E.
  - rewrite E.
    replace (String.eqb (Project.path a) np) with false.
    + apply IH; tauto.
    + symmetry. apply String.eqb_neq. tauto.
Qed.

End FileFacts.

(** X14. A file can be added exactly under a path that no file of the
    project has: the project then has one file more, finds the new file
    under that path, with the content given, at version 1 and with one
    history entry; it finds under every other path what it found before;
    and adding under the same path again is refused. *)
Theorem X_addFile_then_find
    (now : Z) (p : Project.t) (fp content : string)
    (Habsent : Project.findFile p (Some fp) = None) :
  exists p' f,
    Project.addFile now p (Some fp) content = Ok (p', f)
    /\ Project.findFile p' (Some fp) = Some f
    /\ Project.path f = fp
    /\ Project.content f = content
    /\ Project.version f = 1
    /\ Observing.versioned f
    /\ List.length (Project.files p') = S (List.length (Project.files p))
    /\ (forall fp', fp' <> fp ->
                    Project.findFile p' (Some fp') =
                    Project.findFile p (Some fp'))
    /\ (forall now' content',
          Project.addFile now' p' (Some fp) content' =
          Throw "File already exists").
Proof.
  unfold Project.addFile. rewrite Habsent.
  eexists. eexists. split; [reflexivity|].
  unfold Project.findFile in *. simpl Project.files.
  split.
  { rewrite (find_app_none _ _ _ Habsent). simpl.
    rewrite String.eqb_refl. reflexivity. }
  repeat (split; [reflexivity|]).
  split; [rewrite length_app; simpl; lia|]. split.
  - intros fp' Hne. apply find_snoc_false. simpl.
    apply String.eqb_neq. congruence.
  - intros now' content'. rewrite (find_app_none _ _ _ Habsent). simpl.
    now rewrite String.eqb_refl.
Qed.

(** X14 on project p1, which has no file notes.txt. *)
Lemma X_addFile_then_find_example :
  exists p' f,
    Project.addFile 3 Scenario.projectOne (Some "docs/notes.txt") "todo"
      = Ok (p', f)
    /\ Project.findFile p' (Some "docs/notes.txt") = Some f
    /\ Project.name f = "notes.txt"
    /\ Project.parent f = "docs".
Proof.
  destruct (@X_addFile_then_find 3 Scenario.projectOne "docs/notes.txt"
              "todo" eq_refl) as (p' & f & Hadd & Hfind & _).
  exists p', f. split; [exact Hadd|]. split; [exact Hfind|].
  simpl in Hadd. inversion Hadd; subst. split; reflexivity.
Defined.

(** X15. Adding, updating, deleting and renaming a file each keep the
    paths of the files of a project distinct. *)
Theorem X_file_operations_keep_paths_unique
    (now : Z) (p : Project.t)
    (Hunique : Observing.uniquePaths p) :
  (forall fp content p' f,
      Project.addFile now p fp content = Ok (p', f) ->
      Observing.uniquePaths p')
  /\ (forall fp content userId p' f,
        Project.updateFile now p fp content userId = Ok (p', f) ->
        Observing.uniquePaths p')
  /\ (forall fp p',
        Project.deleteFile p fp = Ok p' -> Observing.uniquePaths p')
  /\ (forall oldPath newPath p' f,
        Collab.renameFile p oldPath newPath = Ok (p', f) ->
        Observing.uniquePaths p').
Proof.
  unfold Observing.uniquePaths in *. split; [|split; [|split]].
  - intros fp content p' f. unfold Project.addFile.
    destruct (Project.findFile p fp) eqn:F; [discriminate|].
    destruct fp as [fp|]; [|discriminate].
    intros H. inversion H; subst; clear H. simpl.
    rewrite map_app. apply NoDup_app; [exact Hunique | |].
    + simpl. repeat constructor. simpl. tauto.
    + intros x Hin [Hx|[]]. simpl in Hx. subst x.
      now apply (find_path_none _ _ F).
  - intros fp content userId p' f. unfold Project.updateFile.
    destruct (Project.findFile p (Some fp)); [|discriminate].
    intros H. inversion H; subst; clear H. simpl.
    now rewrite paths_replaceFirst_same.
  - intros fp p'. unfold Project.deleteFile.
    destruct (Project.findFile p fp); [|discriminate].
    destruct fp as [fp|]; [|discriminate].
    intros H. inversion H; subst; clear H. simpl.
    now apply removeFirst_unique.
  - intros oldPath newPath p' f. unfold Collab.renameFile.
    destruct (Project.findFile p oldPath); [|discriminate].
    destruct oldPath as [old|]; [|discriminate].
    destruct (Project.findFile p newPath) eqn:F; [discriminate|].
    destruct newPath as [np|]; [|discriminate].
    intros H. inversion H; subst; clear H. simpl.
    apply replaceFirst_to_unique with (np := np);
      [reflexivity | exact Hunique | now apply find_path_none].
Qed.

(** X15 on the project with the two files src/main.js and README.md,
    whose README.md is renamed to docs/README.md. *)
Lemma X_file_operations_keep_paths_unique_example :
  match Collab.renameFile Cases3.twoFiles (Some "README.md")
          (Some "docs/README.md") with
  | Ok (p', _) => Observing.uniquePaths p'
  | Throw _ => False
  end.
Proof.
  destruct (Collab.renameFile Cases3.twoFiles (Some "README.md")
              (Some "docs/README.md")) as [[p' f]|msg] eqn:E;
    [|discriminate].
  assert (Hu : Observing.uniquePaths Cases3.twoFiles).
  { unfold Observing.uniquePaths. simpl.
    repeat constructor; simpl; intuition discriminate. }
  exact (proj2 (proj2 (proj2 (@X_file_operations_keep_paths_unique 0 _ Hu)))
           _ _ _ _ E).
Defined.

(** X16. Deleting a file of a project whose paths are distinct leaves one
    file less, none under the deleted path, and under every other path
    what was found before. *)
Theorem X_deleteFile_removes
    (p p' : Project.t) (fp : string)
    (Hunique : Observing.uniquePaths p)
    (Hdelete : Project.deleteFile p (Some fp) = Ok p') :
  Project.findFile p' (Some fp) = None
  /\ S (List.length (Project.files p')) = List.length (Project.files p)
  /\ forall fp', fp' <> fp ->
                 Project.findFile p' (Some fp') =
                 Project.findFile p (Some fp').
Proof.
  unfold Project.deleteFile in Hdelete.
  destruct (Project.findFile p (Some fp)) as [f|] eqn:F; [|discriminate].
  inversion Hdelete; subst p'; clear Hdelete.
  unfold Project.findFile in *. simpl Project.files.
  split; [|split].
  - apply find_path_absent. now apply removeFirst_unique.
  - exact (length_removeFirst _ _ F).
  - intros fp' Hne. now apply find_removeFirst_other.
Qed.

(** X16 on the project with the two files, README.md deleted. *)
Lemma X_deleteFile_removes_example :
  match Project.deleteFile Cases3.twoFiles (Some "README.md") with
  | Ok p' =>
      Project.findFile p' (Some "README.md") = None
      /\ Project.findFile p' (Some "src/main.js") = Some Scenario.mainFile
  | Throw _ => False
  end.
Proof.
  destruct (Project.deleteFile Cases3.twoFiles (Some "README.md"))
    as [p'|msg] eqn:E; [|discriminate].
  assert (Hu : Observing.uniquePaths Cases3.twoFiles).
  { unfold Observing.uniquePaths. simpl.
    repeat constructor; simpl; intuition discriminate. }
  destruct (@X_deleteFile_removes _ _ _ Hu E) as (Hnone & _ & Hother).
  split; [exact Hnone|]. rewrite Hother; [reflexivity | discriminate].
Defined.

(** X17. Renaming a file of a project whose paths are distinct moves it:
    nothing is found under the old path, under the new path the file is
    found with the content, version and history it had, the other paths
    find what they found before, and the number of files stays. *)
Theorem X_renameFile_moves
    (p p' : Project.t) (oldPath newPath : string) (f' : Project.File)
    (Hunique : Observing.uniquePaths p)
    (Hrename : Collab.renameFile p (Some oldPath) (Some newPath)
               = Ok (p', f')) :
  Project.findFile p' (Some oldPath) = None
  /\ Project.findFile p' (Some newPath) = Some f'
  /\ Project.path f' = newPath
  /\ (exists f,
        Project.findFile p (Some oldPath) = Some f
        /\ Project.content f' = Project.content f
        /\ Project.version f' = Project.version f
        /\ Project.history f' = Project.history f)
  /\ List.length (Project.files p') = List.length (Project.files p)
  /\ forall fp, fp <> oldPath -> fp <> newPath ->
                Project.findFile p' (Some fp) = Project.findFile p (Some fp).
Proof.
  unfold Collab.renameFile in Hrename.
  destruct (Project.findFile p (Some oldPath)) as [f|] eqn:F;
    [|discriminate].
  destruct (Project.findFile p (Some newPath)) eqn:G; [discriminate|].
  inversion Hrename; subst p' f'; clear Hrename.
  unfold Project.findFile in *. simpl Project.files.
  assert (Hne : newPath <> oldPath).
  { intros ->. rewrite F in G. discriminate. }
  match goal with
  | |- context [Project.replaceFirst _ _ ?g] => set (rename := g)
  end.
  destruct (@find_moved (Project.files p) oldPath newPath rename f)
    as [Hold Hnew]; trivial.
  { now apply find_path_none. }
  split; [exact Hold|]. split; [exact Hnew|]. split; [reflexivity|].
  split; [exists f; repeat split; reflexivity|].
  split; [apply length_replaceFirst|].
  intros fp H1 H2. apply find_replaceFirst_other; [exact H1|].
  intros x _. simpl. congruence.
Qed.

(** X17 on the project with the two files, README.md renamed to
    docs/README.md. *)
Lemma X_renameFile_moves_example :
  match Collab.renameFile Cases3.twoFiles (Some "README.md")
          (Some "docs/README.md") with
  | Ok (p', f') =>
      Project.findFile p' (Some "README.md") = None
      /\ Project.findFile p' (Some "docs/README.md") = Some f'
      /\ Project.content f' = "hello"
  | Throw _ => False
  end.
Proof.
  destruct (Collab.renameFile Cases3.twoFiles (Some "README.md")
              (Some "docs/README.md")) as [[p' f']|msg] eqn:E;
    [|discriminate].
  assert (Hu : Observing.uniquePaths Cases3.twoFiles).
  { unfold Observing.uniquePaths. simpl.
    repeat constructor; simpl; intuition discriminate. }
  destruct (@X_renameFile_moves _ _ _ _ _ Hu E)
    as (Hold & Hnew & _ & (f & Hf & Hc & _) & _).
  split; [exact Hold|]. split; [exact Hnew|].
  rewrite Hc. simpl in Hf. inversion Hf. reflexivity.
Defined.

(** X18. Updating a file that the project has keeps the number of files
    and what is found under the other paths; under its path it finds the
    file with the new content, the version raised by one, the given user
    as modifier, and one history entry more, which bears the new version
    number and the content the file had before; a file with one history
    entry per version stays so. *)
Theorem X_updateFile_versions
    (now : Z) (p : Project.t) (fp content userId : string)
    (f : Project.File)
    (Hfile : Project.findFile p (Some fp) = Some f) :
  exists p' f',
    Project.updateFile now p fp content userId = Ok (p', f')
    /\ Project.findFile p' (Some fp) = Some f'
    /\ Project.content f' = content
    /\ Project.version f' = Project.version f + 1
    /\ Project.modifiedBy f' = Some userId
    /\ Project.history f' =
         (Project.history f ++
          [ {| Project.h_version := Project.version f + 1;
               Project.h_content := Project.content f;
               Project.h_modifiedBy := Some userId;
               Project.h_modifiedAt := now |} ])%list
    /\ (Observing.versioned f -> Observing.versioned f')
    /\ List.length (Project.files p') = List.length (Project.files p)
    /\ forall fp', fp' <> fp ->
                   Project.findFile p' (Some fp') =
                   Project.findFile p (Some fp').
Proof.
  unfold Project.updateFile. rewrite Hfile.
  eexists. eexists. split; [reflexivity|].
  unfold Project.findFile in *. simpl Project.files.
  split.
  { apply (@find_replaceFirst_same fp
             (fun f0 => Project.touch now f0 content userId));
      [reflexivity | exact Hfile]. }
  repeat (split; [reflexivity|]).
  split.
  { unfold Observing.versioned. simpl. rewrite length_app. simpl. lia. }
  split; [apply length_replaceFirst|].
  intros fp' Hne. apply find_replaceFirst_other; [exact Hne|].
  intros x Hx. simpl. congruence.
Qed.

(** X18 on src/main.js of project p1, updated by bob. *)
Lemma X_updateFile_versions_example :
  exists p' f',
    Project.updateFile 9 Scenario.projectOne "src/main.js" "let x = 2;" "bob"
      = Ok (p', f')
    /\ Project.version f' = 2
    /\ map Project.h_content (Project.history f') = ["let x = 1;"].
Proof.
  destruct (@X_updateFile_versions 9 Scenario.projectOne "src/main.js"
              "let x = 2;" "bob" Scenario.mainFile eq_refl)
    as (p' & f' & Hup & _ & _ & Hv & _ & Hh & _).
  exists p', f'. split; [exact Hup|]. split; [exact Hv|].
  rewrite Hh. reflexivity.
Defined.

(** ** The session directory beyond the claims *)

Section DirectoryMore.
Import Collab Directory Observing.
Local Open Scope list_scope.

Lemma not_key_get_None (V : Type) (m : JsMap.t V) k :
  ~ In k (JsMap.keys m) -> JsMap.get m k = None.
Proof.
  intros Hnin. destruct (JsMap.get m k) eqn:G; [|reflexivity].
  apply get_Some_key in G. contradiction.
Qed.

Lemma keyed_values (m : JsMap.t UserData) :
  Forall (fun kv => ud_socketId (snd kv) = fst kv) m ->
  map ud_socketId (JsMap.values m) = JsMap.keys m.
Proof.
  induction 1 as [|[k u] m Hk _ IH]; simpl; [reflexivity|].
  simpl in Hk. now rewrite Hk, IH.
Qed.

Lemma keyed_filter_values (m : JsMap.t UserData) sid :
  Forall (fun kv => ud_socketId (snd kv) = fst kv) m ->
  map ud_socketId
      (filter (fun u => negb (String.eqb (ud_socketId u) sid))
              (JsMap.values m)) =
  filter (fun k => negb (String.eqb k sid)) (JsMap.keys m).
Proof.
  induction 1 as [|[k u] m Hk _ IH]; simpl; [reflexivity|].
  simpl in Hk. rewrite Hk.
  destruct (negb (String.eqb k sid)); simpl; now rewrite ?Hk, IH.
Qed.

Lemma keyed_get_room (au : JsMap.t (JsMap.t UserData)) pid :
  Forall (fun e => Forall (fun kv => ud_socketId (snd kv) = fst kv) (snd e))
         au ->
  Forall (fun kv : string * UserData => ud_socketId (snd kv) = fst kv)
         match JsMap.get au pid with
         | Some projectUsers => projectUsers
         | None => []
         end.
Proof.
  intros Hall. destruct (JsMap.get au pid) as [room|] eqn:G.
  - apply get_In in G. rewrite Forall_forall in Hall. exact (Hall _ G).
  - constructor.
Qed.

Lemma Forall_delete (V : Type) (P : string * V -> Prop) (m : JsMap.t V) k :
  Forall P m -> Forall P (JsMap.delete m k).
Proof.
  induction 1 as [|[k' v] m Hx Hm IH]; simpl; [constructor|].
  destruct (String.eqb k' k); [exact Hm | now constructor].
Qed.

Lemma leaveLoop_keyed entries sid :
  Forall (fun e => Forall (fun kv : string * UserData =>
                             ud_socketId (snd kv) = fst kv) (snd e))
         entries ->
  Forall (fun e => Forall (fun kv : string * UserData =>
                             ud_socketId (snd kv) = fst kv) (snd e))
         (snd (leaveLoop entries sid)).
Proof.
  induction 1 as [|[pid room] rest Hx Hrest IH]; simpl; [constructor|].
  destruct (JsMap.get room sid).
  - simpl. destruct (JsMap.size _ =? 0)%nat; [exact Hrest|].
    constructor; [|exact Hrest]. simpl. now apply Forall_delete.
  - destruct (leaveLoop rest sid) as [found rest']. simpl in *.
    now constructor.
Qed.

Lemma sweepRoom_keyed now room :
  Forall (fun kv : string * UserData => ud_socketId (snd kv) = fst kv) room ->
  Forall (fun kv : string * UserData => ud_socketId (snd kv) = fst kv)
         (fst (sweepRoom now room)).
Proof.
  induction 1 as [|[sid u] rest Hx Hrest IH]; simpl; [constructor|].
  destruct (sweepRoom now rest) as [kept evicted]. simpl in *.
  destruct (isInactive now u); simpl; [exact IH | now constructor].
Qed.

Lemma sweepRooms_keyed now rs entries :
  Forall (fun e => Forall (fun kv : string * UserData =>
                             ud_socketId (snd kv) = fst kv) (snd e))
         entries ->
  Forall (fun e => Forall (fun kv : string * UserData =>
                             ud_socketId (snd kv) = fst kv) (snd e))
         (fst (fst (sweepRooms now rs entries))).
Proof.
  induction 1 as [|[pid room] rest Hx Hrest IH]; simpl; [constructor|].
  pose proof (@sweepRoom_keyed now room Hx) as Hkept.
  destruct (sweepRoom now room) as [kept evicted].
  destruct (sweepRooms now rs rest) as [[rest' gone] out]. simpl in *.
  destruct (JsMap.size kept =? 0)%nat; [exact IH | now constructor].
Qed.

Lemma handleUserJoin_keyed now w socket projectId :
  sessionsKeyed (service w) ->
  sessionsKeyed (service (fst (handleUserJoin now w socket projectId))).
Proof.
  intros H. unfold handleUserJoin, denied.
  destruct (userId socket) as [uid|]; [|exact H].
  destruct (falsy (Some uid)); [exact H|].
  destruct projectId as [pid|];
    destruct (findProjectById (db w) _) as [project| |msg]; try exact H.
  destruct (negb _); [exact H|].
  cbv zeta. simpl db. unfold sessionsKeyed in *.
  assert (H1 : Forall (fun e => Forall (fun kv : string * UserData =>
                                          ud_socketId (snd kv) = fst kv)
                                       (snd e))
                 (if JsMap.has (activeUsers (service w)) pid
                  then activeUsers (service w)
                  else JsMap.set (activeUsers (service w)) pid [])).
  { destruct (JsMap.has (activeUsers (service w)) pid); [exact H|].
    apply Forall_set; [exact H | constructor]. }
  destruct (users (db w) uid) as [user| |msg]; simpl; try exact H1.
  apply Forall_set; [exact H1|]. simpl.
  apply Forall_set; [|reflexivity].
  unfold roomOf. simpl. now apply keyed_get_room.
Qed.

Lemma sessionsKeyed_step now w e :
  sessionsKeyed (service w) ->
  sessionsKeyed (service (fst (Server.step now w e))).
Proof.
  intros H. destruct e as [socket projectId|socket data|socket data
                          |socket data|socket| |]; simpl.
  - unfold Server.onJoinProject. now apply handleUserJoin_keyed.
  - unfold handleCodeChange, denied.
    destruct (falsy (cc_projectId data) || falsy (cc_filePath data));
      [exact H|].
    destruct (cc_projectId data), (cc_filePath data),
      (findProjectById (db w) _); try exact H.
    destruct (negb _); exact H.
  - unfold handleCursorMove. simpl.
    destruct (cm_projectId data) as [pid|]; [|exact H].
    destruct (JsMap.get (activeUsers (service w)) pid) as [room|] eqn:G;
      [|exact H].
    destruct (JsMap.get room (id socket)) as [u|] eqn:Gu; [|exact H].
    unfold sessionsKeyed in *. simpl.
    assert (Hroom : Forall (fun kv : string * UserData =>
                              ud_socketId (snd kv) = fst kv) room).
    { apply get_In in G. rewrite Forall_forall in H. exact (H _ G). }
    apply Forall_set; [exact H|]. simpl.
    apply Forall_set; [exact Hroom|]. simpl.
    apply get_In in Gu. rewrite Forall_forall in Hroom.
    exact (Hroom _ Gu).
  - unfold handleFileOperation, fileOperationFailed, denied.
    destruct (fo_projectId data), (findProjectById (db w) _);
      try exact H.
    destruct (negb _); [exact H|].
    destruct (applyFileOperation now _ data) as [[[p1 r] ty]|msg];
      [|exact H].
    destruct (saveError (db w)); exact H.
  - unfold Server.onDisconnect.
    pose proof (handleUserLeave_directory w socket) as Hd.
    destruct (handleUserLeave w socket) as [w' out]. simpl in *.
    unfold sessionsKeyed. rewrite Hd. now apply leaveLoop_keyed.
  - unfold cleanupInactiveUsers.
    pose proof (@sweepRooms_keyed now (rooms w) (activeUsers (service w)) H)
      as Hs.
    destruct (sweepRooms now (rooms w) (activeUsers (service w)))
      as [[au gone] out]. exact Hs.
  - unfold sessionsKeyed. now rewrite runTimers_activeUsers.
Qed.

Lemma sweepRoom_get now room sid :
  JsMap.wf room ->
  JsMap.get (fst (sweepRoom now room)) sid =
  match JsMap.get room sid with
  | Some u => if isInactive now u then None else Some u
  | None => None
  end.
Proof.
  unfold JsMap.wf.
  induction room as [|[k u] rest IH]; simpl; [reflexivity|].
  intros Hnd. inversion Hnd as [|? ? Hnin Hnd']; subst.
  specialize (IH Hnd').
  pose proof (@sweepRoom_keys now rest) as Hkeys.
  destruct (sweepRoom now rest) as [kept evicted]. simpl in *.
  destruct (String.eqb k sid) eqn:E.
  - apply String.eqb_eq in E. subst k.
    destruct (isInactive now u); simpl.
    + apply not_key_get_None. intros Hin. apply Hnin. now apply Hkeys.
    + now rewrite String.eqb_refl.
  - destruct (isInactive now u); simpl; [exact IH|].
    now rewrite E.
Qed.

Lemma sweepRooms_get now rs entries pid sid :
  JsMap.wf entries ->
  Forall (fun e => JsMap.wf (snd e)) entries ->
  JsMap.get match JsMap.get (fst (fst (sweepRooms now rs entries))) pid with
            | Some room => room
            | None => []
            end sid =
  match JsMap.get match JsMap.get entries pid with
                  | Some room => room
                  | None => []
                  end sid with
  | Some u => if isInactive now u then None else Some u
  | None => None
  end.
Proof.
  unfold JsMap.wf at 1.
  induction entries as [|[p0 room0] rest IH]; simpl; [reflexivity|].
  intros Hnd Hall. inversion Hnd as [|? ? Hnin Hnd']; subst.
  inversion Hall as [|? ? Hwf0 Hallr]; subst. simpl in Hwf0.
  specialize (IH Hnd' Hallr).
  pose proof (@sweepRoom_get now room0 sid Hwf0) as Hroom.
  pose proof (@sweepRooms_keys now rs rest) as Hkeys.
  destruct (sweepRoom now room0) as [kept evicted].
  destruct (sweepRooms now rs rest) as [[rest' gone] out]. simpl in *.
  destruct (String.eqb p0 pid) eqn:E.
  - apply String.eqb_eq in E. subst p0.
    destruct (JsMap.size kept =? 0)%nat eqn:S0; simpl.
    + rewrite (@not_key_get_None _ rest' pid)
        by (intros Hin; apply Hnin; now apply Hkeys).
      rewrite <- Hroom. destruct kept; [reflexivity | discriminate].
    + rewrite String.eqb_refl. exact Hroom.
  - destruct (JsMap.size kept =? 0)%nat; simpl; [exact IH|].
    rewrite E. exact IH.
Qed.

End DirectoryMore.

(** X19. In every world that a run reaches from a server that has just
    started, the directory has one entry per project id, every Room lists
    a connection at most once, and every Session is filed under the
    identifier of its own connection. *)
Theorem X_directory_well_formed_in_every_run
    (d : Collab.Database) (trace : list (Z * Server.Inbound)) :
  let s := Collab.service (fst (Server.run (Collab.initial d) trace)) in
  Directory.directoryWf s /\ Observing.sessionsKeyed s.
Proof.
  cbv zeta. split; [apply directoryWf_run|].
  apply (run_invariant
           (fun w => Observing.sessionsKeyed (Collab.service w))).
  - intros now w e. apply sessionsKeyed_step.
  - constructor.
Qed.


(** X21. The sweep, on a directory with one entry per project and one
    Session per connection and Room, evicts exactly the idle: a Session
    is gone when the time since its last activity exceeds five minutes,
    and is there unchanged otherwise (at exactly five minutes it stays).
    It leaves no entry without Session, and it leaves the rooms of the
    transport as they are. *)
Theorem X_sweep_evicts_exactly_the_idle
    (now : Z) (w : Collab.World) (pid sid : string)
    (Hwf : Directory.directoryWf (Collab.service w)) :
  let w' := fst (Collab.cleanupInactiveUsers now w) in
  JsMap.get (Collab.roomOf (Collab.service w') pid) sid =
    match JsMap.get (Collab.roomOf (Collab.service w) pid) sid with
    | Some u => if now - Collab.lastActivity u >? 300000 then None else Some u
    | None => None
    end
  /\ Directory.noEmptyRoom (Collab.service w')
  /\ Collab.rooms w' = Collab.rooms w.
Proof.
  cbv zeta. destruct Hwf as [Hwf Hall].
  split; [|split; [|apply cleanupInactiveUsers_rooms]].
  - pose proof (@sweepRooms_get now (Collab.rooms w)
                  (Collab.activeUsers (Collab.service w)) pid sid Hwf Hall)
      as Hget.
    unfold Collab.cleanupInactiveUsers, Collab.roomOf.
    destruct (Collab.sweepRooms now (Collab.rooms w)
                (Collab.activeUsers (Collab.service w)))
      as [[au gone] out]. exact Hget.
  - unfold Directory.noEmptyRoom, Collab.cleanupInactiveUsers.
    pose proof (sweepRooms_inhabited now (Collab.rooms w)
                  (Collab.activeUsers (Collab.service w))) as Hs.
    destruct (Collab.sweepRooms now (Collab.rooms w)
                (Collab.activeUsers (Collab.service w)))
      as [[au gone] out]. exact Hs.
Qed.

(** X21 with alice last active at 0 and bob at two minutes: a sweep at
    six minutes evicts alice and keeps bob. *)
Lemma X_sweep_evicts_exactly_the_idle_example :
  let w' := fst (Collab.cleanupInactiveUsers 360000 Cases4.aliceIdleBobActive)
  in
  JsMap.get (Collab.roomOf (Collab.service w') "p1") "s-alice" = None
  /\ JsMap.has (Collab.roomOf (Collab.service w') "p1") "s-bob" = true.
Proof.
  cbv zeta.
  assert (Hwf : Directory.directoryWf
                  (Collab.service Cases4.aliceIdleBobActive))
    by apply directoryWf_run.
  split.
  - rewrite (proj1 (@X_sweep_evicts_exactly_the_idle 360000 _ "p1" "s-alice"
                      Hwf)).
    reflexivity.
  - unfold JsMap.has.
    rewrite (proj1 (@X_sweep_evicts_exactly_the_idle 360000 _ "p1" "s-bob"
                      Hwf)).
    reflexivity.
Defined.

(** ** Join and Leave beyond the claims *)

Section PresenceMore.
Import Collab Directory Observing.
Local Open Scope list_scope.

Lemma leaveLoop_absent entries sid :
  filter (fun e : string * JsMap.t UserData => JsMap.has (snd e) sid)
         entries = [] ->
  leaveLoop entries sid = (None, entries).
Proof.
  induction entries as [|[pid room] rest IH]; simpl; [reflexivity|].
  unfold JsMap.has at 1. destruct (JsMap.get room sid); [discriminate|].
  intros H. now rewrite (IH H).
Qed.

Lemma size_delete_present (V : Type) (m : JsMap.t V) k v :
  JsMap.get m k = Some v ->
  S (JsMap.size (JsMap.delete m k)) = JsMap.size m.
Proof.
  unfold JsMap.size.
  induction m as [|[k' v'] m IH]; simpl; [discriminate|].
  destruct (String.eqb k' k); [reflexivity|].
  intros H. simpl. now rewrite (IH H).
Qed.

Lemma leaveLoop_found entries sid :
  filter (fun e : string * JsMap.t UserData => JsMap.has (snd e) sid)
         entries <> [] ->
  exists pid userData,
    fst (leaveLoop entries sid) = Some (pid, userData)
    /\ hd_error (map fst (filter (fun e : string * JsMap.t UserData =>
                                    JsMap.has (snd e) sid) entries)) =
         Some pid
    /\ S (list_sum (map (fun e : string * JsMap.t UserData =>
                           JsMap.size (snd e))
                        (snd (leaveLoop entries sid)))) =
         list_sum (map (fun e : string * JsMap.t UserData =>
                          JsMap.size (snd e)) entries).
Proof.
  induction entries as [|[pid room] rest IH]; simpl; [congruence|].
  destruct (JsMap.get room sid) as [u|] eqn:G.
  - assert (Hhas : JsMap.has room sid = true)
      by (unfold JsMap.has; now rewrite G).
    rewrite Hhas.
    intros _. exists pid, u. simpl.
    split; [reflexivity|]. split; [reflexivity|].
    pose proof (size_delete_present room sid G) as Hs.
    destruct (JsMap.size (JsMap.delete room sid) =? 0)%nat eqn:E; simpl.
    + apply Nat.eqb_eq in E. lia.
    + lia.
  - assert (Hhas : JsMap.has room sid = false)
      by (unfold JsMap.has; now rewrite G).
    rewrite Hhas.
    intros H. destruct (IH H) as (p & u & Hf & Hh & Hs).
    exists p, u. destruct (leaveLoop rest sid) as [found rest'].
    simpl in *. repeat split; try assumption. lia.
Qed.

(** Which Session the loop of Leave takes out, on a directory with one
    entry per project and one Session per connection and Room. *)
Lemma leaveLoop_get entries sid :
  JsMap.wf entries ->
  Forall (fun e : string * JsMap.t UserData => JsMap.wf (snd e)) entries ->
  forall pid u,
    fst (leaveLoop entries sid) = Some (pid, u) ->
    JsMap.get match JsMap.get entries pid with
              | Some room => room
              | None => []
              end sid = Some u
    /\ JsMap.get match JsMap.get (snd (leaveLoop entries sid)) pid with
                 | Some room => room
                 | None => []
                 end sid = None
    /\ forall pid' sid',
         pid' <> pid \/ sid' <> sid ->
         JsMap.get match JsMap.get (snd (leaveLoop entries sid)) pid' with
                   | Some room => room
                   | None => []
                   end sid' =
         JsMap.get match JsMap.get entries pid' with
                   | Some room => room
                   | None => []
                   end sid'.
Proof.
  unfold JsMap.wf at 1.
  induction entries as [|[p0 room0] rest IH]; intros Hnd Hall pid u;
    [discriminate|].
  inversion Hnd as [|? ? Hnin Hnd']; subst.
  inversion Hall as [|? ? Hwf0 Hallr]; subst. simpl in Hwf0.
  cbn [leaveLoop].
  destruct (JsMap.get room0 sid) as [u0|] eqn:G.
  - cbn [fst snd]. intros Hf. inversion Hf; subst p0 u0; clear Hf.
    assert (Hrest : JsMap.get rest pid = None)
      by now apply not_key_get_None.
    cbn [JsMap.get]. rewrite String.eqb_refl.
    split; [exact G|].
    destruct (JsMap.size (JsMap.delete room0 sid) =? 0)%nat eqn:E.
    + assert (Hdel : JsMap.delete room0 sid = []).
      { apply Nat.eqb_eq in E. unfold JsMap.size in E.
        now apply length_zero_iff_nil in E. }
      rewrite Hrest. split; [reflexivity|].
      intros pid' sid' Hne.
      destruct (String.eqb pid pid') eqn:Ep.
      * apply String.eqb_eq in Ep. subst pid'. rewrite Hrest.
        destruct Hne as [Hne|Hne]; [congruence|].
        rewrite <- (@get_delete_other _ room0 sid sid') by congruence.
        now rewrite Hdel.
      * reflexivity.
    + cbn [JsMap.get]. rewrite String.eqb_refl.
      split; [now apply get_delete_same|].
      intros pid' sid' Hne.
      destruct (String.eqb pid pid') eqn:Ep; [|reflexivity].
      apply String.eqb_eq in Ep. subst pid'.
      destruct Hne as [Hne|Hne]; [congruence|].
      apply get_delete_other. congruence.
  - specialize (IH Hnd' Hallr).
    destruct (leaveLoop rest sid) as [found rest'].
    cbn [fst snd] in *. intros Hf.
    destruct (IH pid u Hf) as (H1 & H2 & H3).
    assert (Hne : String.eqb p0 pid = false).
    { apply String.eqb_neq. intros ->.
      rewrite (not_key_get_None _ _ Hnin) in H1. discriminate. }
    cbn [JsMap.get]. rewrite Hne.
    split; [exact H1|]. split; [exact H2|].
    intros pid' sid' Hd.
    destruct (String.eqb p0 pid'); [reflexivity | now apply H3].
Qed.

Lemma roomOf_before_join (au : JsMap.t (JsMap.t UserData)) pid :
  match JsMap.get (if JsMap.has au pid then au else JsMap.set au pid [])
                  pid with
  | Some projectUsers => projectUsers
  | None => []
  end =
  match JsMap.get au pid with
  | Some projectUsers => projectUsers
  | None => []
  end.
Proof.
  unfold JsMap.has. destruct (JsMap.get au pid) eqn:G.
  - now rewrite G.
  - now rewrite get_set_same.
Qed.

Lemma filter_keys_set (m : JsMap.t UserData) sid v :
  filter (fun k => negb (String.eqb k sid)) (JsMap.keys (JsMap.set m sid v)) =
  filter (fun k => negb (String.eqb k sid)) (JsMap.keys m).
Proof.
  rewrite keys_set. destruct (JsMap.has m sid); [reflexivity|].
  rewrite filter_app. simpl. rewrite String.eqb_refl. simpl.
  apply app_nil_r.
Qed.

Lemma saveCallback_users w tm :
  users (db (saveCallback w tm)) = users (db w).
Proof.
  unfold saveCallback, forgetTimeout.
  destruct (projects (db w) (t_projectId tm)); try reflexivity.
  destruct (t_content tm); [|reflexivity].
  destruct (Project.updateFile _ _ _ _ _) as [[p f]|]; [|reflexivity].
  destruct (saveErrorAs (db w) "system"); reflexivity.
Qed.

Lemma runTimers_users now w :
  users (db (runTimers now w)) = users (db w).
Proof.
  unfold runTimers.
  set (w0 := withTimers w _ _).
  change (users (db w)) with (users (db w0)).
  generalize (filter (fun tm => due tm <=? now) (timers w)). clearbody w0.
  intros l. revert w0. induction l as [|tm l IH]; intros w0; simpl;
    [reflexivity|].
  rewrite IH. apply saveCallback_users.
Qed.

Lemma handleUserJoin_users now w socket projectId :
  users (db (fst (handleUserJoin now w socket projectId))) = users (db w).
Proof.
  unfold handleUserJoin, denied.
  destruct (userId socket) as [uid|]; [|reflexivity].
  destruct (falsy (Some uid)); [reflexivity|].
  destruct projectId as [pid|];
    destruct (findProjectById (db w) _) as [project| |msg];
    try reflexivity.
  destruct (negb _); [reflexivity|].
  cbv zeta. simpl db. destruct (users (db w) uid); reflexivity.
Qed.

Lemma handleUserJoin_inhabited now w socket projectId :
  (forall uid, exists user, users (db w) uid = Found user) ->
  noEmptyRoom (service w) ->
  noEmptyRoom (service (fst (handleUserJoin now w socket projectId))).
Proof.
  intros Hu H. unfold handleUserJoin, denied.
  destruct (userId socket) as [uid|]; [|exact H].
  destruct (falsy (Some uid)); [exact H|].
  destruct projectId as [pid|];
    destruct (findProjectById (db w) _) as [project| |msg]; try exact H.
  destruct (negb _); [exact H|].
  cbv zeta. simpl db. destruct (Hu uid) as [user ->].
  unfold noEmptyRoom in *. simpl.
  destruct (JsMap.has (activeUsers (service w)) pid).
  - apply Forall_set; [exact H | apply set_nonempty].
  - rewrite set_set. apply Forall_set; [exact H | apply set_nonempty].
Qed.

Lemma users_step now w e :
  users (db (fst (Server.step now w e))) = users (db w).
Proof.
  destruct e as [socket projectId|socket data|socket data
                |socket data|socket| |]; unfold Server.step.
  - unfold Server.onJoinProject. now rewrite handleUserJoin_users.
  - unfold handleCodeChange, denied.
    destruct (falsy (cc_projectId data) || falsy (cc_filePath data));
      [reflexivity|].
    destruct (findProjectById (db w) (cc_projectId data));
      destruct (cc_projectId data), (cc_filePath data); try reflexivity.
    destruct (negb _); reflexivity.
  - reflexivity.
  - unfold handleFileOperation, fileOperationFailed, denied.
    destruct (findProjectById (db w) (fo_projectId data));
      destruct (fo_projectId data); try reflexivity.
    destruct (negb _); [reflexivity|].
    destruct (applyFileOperation now _ data) as [[[p1 r] ty]|msg];
      [|reflexivity].
    destruct (saveError (db w)); reflexivity.
  - unfold Server.onDisconnect, handleUserLeave.
    destruct (leaveLoop _ _) as [[[pid u]|] au]; reflexivity.
  - unfold cleanupInactiveUsers.
    destruct (sweepRooms _ _ _) as [[au gone] out]. reflexivity.
  - apply runTimers_users.
Qed.

Lemma noEmptyRoom_step now w e :
  (forall uid, exists user, users (db w) uid = Found user) ->
  noEmptyRoom (service w) ->
  noEmptyRoom (service (fst (Server.step now w e))).
Proof.
  intros Hu H.
  pose proof (@other_paths_leave_no_empty_room now w) as Hother.
  destruct e as [socket projectId|socket data|socket data
                |socket data|socket| |]; unfold Server.step.
  - unfold Server.onJoinProject.
    apply handleUserJoin_inhabited; assumption.
  - unfold handleCodeChange, denied.
    destruct (falsy (cc_projectId data) || falsy (cc_filePath data));
      [exact H|].
    destruct (findProjectById (db w) (cc_projectId data));
      destruct (cc_projectId data), (cc_filePath data); try exact H.
    destruct (negb _); exact H.
  - destruct (Hother socket H) as (_ & _ & Hc & _). apply Hc.
  - unfold handleFileOperation, fileOperationFailed, denied.
    destruct (findProjectById (db w) (fo_projectId data));
      destruct (fo_projectId data); try exact H.
    destruct (negb _); [exact H|].
    destruct (applyFileOperation now _ data) as [[[p1 r] ty]|msg];
      [|exact H].
    destruct (saveError (db w)); exact H.
  - unfold Server.onDisconnect.
    destruct (Hother socket H) as (_ & Hl & _).
    destruct (handleUserLeave w socket) as [w' out]. exact Hl.
  - destruct (Hother {| id := EmptyString; userId := None |} H)
      as (_ & _ & _ & Hs).
    exact Hs.
  - unfold noEmptyRoom. cbn [fst]. now rewrite runTimers_activeUsers.
Qed.

End PresenceMore.

(** X22. A Leave of a connection that has no Session changes nothing and
    notifies nobody; a cursor that the relay recorded for the connection
    stays recorded. *)
Theorem X_leave_without_session_is_silent
    (w : Collab.World) (socket : Collab.Socket)
    (H : Directory.roomsOfConnection (Collab.service w) (Collab.id socket)
         = []) :
  Collab.handleUserLeave w socket = (w, []).
Proof.
  unfold Collab.handleUserLeave.
  rewrite leaveLoop_absent; [reflexivity|].
  unfold Directory.roomsOfConnection in H.
  now apply map_eq_nil in H.
Qed.

(** X22 with mallory, who was never let into a Room and has moved its
    cursor: after the Leave the cursor is still recorded. *)
Lemma X_leave_without_session_is_silent_example :
  Collab.handleUserLeave Cases5.malloryMovedCursor Scenario.mallory =
    (Cases5.malloryMovedCursor, [])
  /\ JsMap.has (Collab.cursors
                  (Collab.service
                     (fst (Collab.handleUserLeave Cases5.malloryMovedCursor
                             Scenario.mallory))))
               "s-mallory" = true.
Proof.
  assert (H : Collab.handleUserLeave Cases5.malloryMovedCursor
                Scenario.mallory = (Cases5.malloryMovedCursor, []))
    by (apply X_leave_without_session_is_silent; reflexivity).
  split; [exact H|]. rewrite H. reflexivity.
Defined.

(** X23. A Leave of a connection that has a Session removes exactly one
    Session; it announces the Leave, with the user of the Session taken
    out, to the members of the broadcast room of the first Room of the
    directory that holds the connection, never to the leaver, and it
    forgets the cursor of the connection. On a directory with one entry
    per project and one Session per connection and Room (every directory
    a run reaches) the Session taken out is the leaver's in that Room:
    afterwards the Room has none for the connection, and every other
    Session of every Room is there as before. *)
Theorem X_leave_removes_one_session
    (w : Collab.World) (socket : Collab.Socket)
    (H : Directory.roomsOfConnection (Collab.service w) (Collab.id socket)
         <> []) :
  let r := Collab.handleUserLeave w socket in
  S (Observing.totalSessions (Collab.service (fst r))) =
    Observing.totalSessions (Collab.service w)
  /\ (exists pid u,
        hd_error (Directory.roomsOfConnection (Collab.service w)
                    (Collab.id socket)) = Some pid
        /\ snd r = SocketIO.socketTo (Collab.rooms w) (Collab.id socket)
                     (Some pid)
                     (Collab.user_left (Collab.id socket)
                        (Collab.ud_userId u))
        /\ (Directory.directoryWf (Collab.service w) ->
            JsMap.get (Collab.roomOf (Collab.service w) pid)
              (Collab.id socket) = Some u
            /\ JsMap.get (Collab.roomOf (Collab.service (fst r)) pid)
                 (Collab.id socket) = None
            /\ forall pid' sid',
                 pid' <> pid \/ sid' <> Collab.id socket ->
                 JsMap.get (Collab.roomOf (Collab.service (fst r)) pid') sid'
                 = JsMap.get (Collab.roomOf (Collab.service w) pid') sid'))
  /\ (forall d, In d (snd r) -> fst d <> Collab.id socket)
  /\ Collab.cursors (Collab.service (fst r)) =
       JsMap.delete (Collab.cursors (Collab.service w)) (Collab.id socket).
Proof.
  cbv zeta. unfold Directory.roomsOfConnection in *.
  assert (Hf : filter (fun e : string * JsMap.t Collab.UserData =>
                         JsMap.has (snd e) (Collab.id socket))
                      (Collab.activeUsers (Collab.service w)) <> []).
  { intros E. apply H. now rewrite E. }
  destruct (leaveLoop_found _ _ Hf) as (pid & u & Hfound & Hhd & Hsum).
  pose proof (fun Hwf Hrooms =>
                @leaveLoop_get (Collab.activeUsers (Collab.service w))
                  (Collab.id socket) Hwf Hrooms pid u Hfound) as Hget.
  unfold Collab.handleUserLeave, Observing.totalSessions, Collab.roomOf.
  destruct (Collab.leaveLoop (Collab.activeUsers (Collab.service w))
              (Collab.id socket)) as [found au].
  simpl in Hfound, Hsum, Hget. subst found. simpl.
  split; [exact Hsum|].
  split.
  { exists pid, u. split; [exact Hhd|]. split; [reflexivity|].
    intros [Hwf Hrooms]. exact (Hget Hwf Hrooms). }
  split; [|reflexivity].
  intros d Hin Heq.
  apply (in_map fst) in Hin. rewrite recipients_socketTo in Hin.
  apply filter_In in Hin. destruct Hin as [_ Hin].
  rewrite Heq, String.eqb_refl in Hin. discriminate.
Qed.

(** X23 with alice leaving the Room she shares with bob: one Session is
    left, and bob is told. *)
Lemma X_leave_removes_one_session_example :
  Observing.totalSessions
    (Collab.service
       (fst (Collab.handleUserLeave Scenario.aliceAndBobInRoom
               Scenario.alice))) = 1%nat
  /\ snd (Collab.handleUserLeave Scenario.aliceAndBobInRoom Scenario.alice) =
       [("s-bob", Collab.user_left "s-alice" "alice")]
  /\ JsMap.keys
       (Collab.roomOf
          (Collab.service
             (fst (Collab.handleUserLeave Scenario.aliceAndBobInRoom
                     Scenario.alice))) "p1") = ["s-bob"].
Proof.
  assert (H : Directory.roomsOfConnection
                (Collab.service Scenario.aliceAndBobInRoom)
                (Collab.id Scenario.alice) <> [])
    by (vm_compute; discriminate).
  pose proof (@X_leave_removes_one_session Scenario.aliceAndBobInRoom
                Scenario.alice H) as (Hs & _).
  split; [|split; reflexivity].
  apply eq_add_S. rewrite Hs. reflexivity.
Defined.

(** X24. A Join that is let in, on a well-formed directory, tells the
    joiner who else is there: [active-users] lists the connections the
    Room held before, apart from the joiner's own, in the order of the
    Room, and the count of [project-joined] is the number of Sessions the
    Room has after the Join. The members of the broadcast room other than
    the joiner get [user-joined]. *)
Theorem X_join_announces_the_room
    (now : Z) (w : Collab.World) (socket : Collab.Socket)
    (pid uid : string) (project : Project.t) (user : Collab.User)
    (Huid : Collab.userId socket = Some uid)
    (Hne : uid <> "")
    (Hproj : Collab.projects (Collab.db w) pid = Found project)
    (Hacc : Project.canUserAccess project (Some uid) Project.act_read = true)
    (Huser : Collab.users (Collab.db w) uid = Found user)
    (Hwf : Directory.directoryWf (Collab.service w))
    (Hkeyed : Observing.sessionsKeyed (Collab.service w)) :
  exists others,
    snd (Collab.handleUserJoin now w socket (Some pid)) =
      (SocketIO.socketTo
         (SocketIO.join (Collab.rooms w) (Some pid) (Collab.id socket))
         (Collab.id socket) (Some pid)
         (Collab.user_joined (Collab.id socket)
            {| Collab.uv_id := uid;
               Collab.uv_username := Collab.username user;
               Collab.uv_fullName := Collab.fullName user;
               Collab.uv_avatar := Collab.avatar user |})
       ++ [(Collab.id socket, Collab.active_users others);
           (Collab.id socket,
            Collab.project_joined pid (S (List.length others)))])%list
    /\ map Collab.au_socketId others =
         filter (fun k => negb (String.eqb k (Collab.id socket)))
                (JsMap.keys (Collab.roomOf (Collab.service w) pid))
    /\ S (List.length others) =
         Directory.sessionCount
           (Collab.service (fst (Collab.handleUserJoin now w socket
                                   (Some pid))))
           pid.
Proof.
  pose proof (@handleUserJoin_granted_set now w socket pid uid project user
                Huid Hne Hproj Hacc Huser) as Hau.
  destruct Hwf as [Hwf Hrooms].
  set (room' := JsMap.set (Collab.roomOf (Collab.service w) pid)
                  (Collab.id socket)
                  (Collab.newSession now socket uid user)) in *.
  exists (map Collab.viewOf
            (filter (fun u => negb (String.eqb (Collab.ud_socketId u)
                                      (Collab.id socket)))
                    (JsMap.values room'))).
  assert (Hids : map Collab.au_socketId
                   (map Collab.viewOf
                      (filter (fun u => negb (String.eqb
                                                (Collab.ud_socketId u)
                                                (Collab.id socket)))
                              (JsMap.values room'))) =
                 filter (fun k => negb (String.eqb k (Collab.id socket)))
                        (JsMap.keys room')).
  { rewrite map_map.
    rewrite (map_ext (fun u => Collab.au_socketId (Collab.viewOf u))
               Collab.ud_socketId) by reflexivity.
    apply keyed_filter_values. unfold room'.
    apply Forall_set; [|reflexivity].
    unfold Collab.roomOf. now apply keyed_get_room. }
  split; [|split].
  - unfold Collab.handleUserJoin. rewrite Huid. simpl falsy.
    apply String.eqb_neq in Hne. rewrite Hne.
    simpl Collab.findProjectById. rewrite Hproj, Hacc.
    simpl negb. cbv iota. cbv zeta. simpl Collab.db. rewrite Huser.
    simpl snd. unfold SocketIO.emit, room', Collab.roomOf.
    simpl Collab.activeUsers. rewrite roomOf_before_join. reflexivity.
  - rewrite Hids. unfold room'. apply filter_keys_set.
  - unfold Directory.sessionCount, Collab.roomOf. rewrite Hau.
    rewrite get_set_same.
    rewrite <- (length_map Collab.au_socketId), Hids.
    unfold JsMap.size. rewrite <- (length_map fst room').
    apply length_without.
    + apply wf_set. unfold Collab.roomOf. now apply wf_get_room.
    + pose proof (has_set_same (Collab.roomOf (Collab.service w) pid)
                    (Collab.id socket)
                    (Collab.newSession now socket uid user)) as Hhas.
      unfold JsMap.has in Hhas. fold room' in Hhas.
      destruct (JsMap.get room' (Collab.id socket)) eqn:G; [|discriminate].
      exact (get_Some_key _ _ G).
Qed.

(** X24 with bob joining the Room that holds alice: bob is told of alice
    alone, and of two Sessions. *)
Lemma X_join_announces_the_room_example :
  exists others,
    snd (Collab.handleUserJoin 1 Scenario.aliceInRoom Scenario.bob
           (Some "p1")) =
      (SocketIO.socketTo
         (SocketIO.join (Collab.rooms Scenario.aliceInRoom) (Some "p1")
            "s-bob")
         "s-bob" (Some "p1")
         (Collab.user_joined "s-bob"
            {| Collab.uv_id := "bob"; Collab.uv_username := "bob";
               Collab.uv_fullName := "Bob B";
               Collab.uv_avatar := "b.png" |})
       ++ [("s-bob", Collab.active_users others);
           ("s-bob", Collab.project_joined "p1" (S (List.length others)))])%list
    /\ map Collab.au_socketId others = ["s-alice"]
    /\ S (List.length others) = 2%nat.
Proof.
  apply (@X_join_announces_the_room 1 Scenario.aliceInRoom Scenario.bob
           "p1" "bob" Scenario.projectOne
           (Collab.mkUser "bob" "Bob B" "b.png")).
  - reflexivity.
  - discriminate.
  - reflexivity.
  - reflexivity.
  - reflexivity.
  - apply directoryWf_run.
  - repeat constructor.
Defined.

(** X25. While the database has a record for every user id, no run from
    a server that has just started leaves an entry without Session in the
    directory: the failed user lookup is the only way to one. *)
Theorem X_no_empty_room_while_users_are_found
    (d : Collab.Database) (trace : list (Z * Server.Inbound))
    (Hu : forall uid, exists user, Collab.users d uid = Found user) :
  Directory.noEmptyRoom
    (Collab.service (fst (Server.run (Collab.initial d) trace))).
Proof.
  apply (@run_invariant
           (fun w => (forall uid, exists user,
                         Collab.users (Collab.db w) uid = Found user)
                     /\ Directory.noEmptyRoom (Collab.service w))).
  - intros now w e [Hw Hn]. split.
    + intros uid. rewrite users_step. apply Hw.
    + now apply noEmptyRoom_step.
  - split; [exact Hu | constructor].
Qed.

(** X25 on a run of Joins, a Leave and a sweep. *)
Lemma X_no_empty_room_while_users_are_found_example :
  Directory.noEmptyRoom
    (Collab.service
       (fst (Server.run (Collab.initial Cases5.everyoneKnown)
               Cases5.comingAndGoing))).
Proof.
  apply X_no_empty_room_while_users_are_found.
  intros uid. eexists. reflexivity.
Defined.

(** ** Writes to the store *)

Section WriteFacts.
Import Collab Writes.
Local Open Scope list_scope.

Lemma handleUserJoin_store now w socket projectId :
  db (fst (handleUserJoin now w socket projectId)) = db w
  /\ timers (fst (handleUserJoin now w socket projectId)) = timers w
  /\ saveLog (fst (handleUserJoin now w socket projectId)) = saveLog w.
Proof.
  unfold handleUserJoin, denied.
  destruct (userId socket) as [uid|]; [|now repeat split].
  destruct (falsy (Some uid)); [now repeat split|].
  destruct projectId as [pid|];
    destruct (findProjectById (db w) _) as [project| |msg];
    try (now repeat split).
  destruct (negb _); [now repeat split|].
  cbv zeta. simpl db. destruct (users (db w) uid); now repeat split.
Qed.

Lemma saveCallback_untouched pid project w tm :
  t_projectId tm <> pid ->
  untouched pid project w -> untouched pid project (saveCallback w tm).
Proof.
  intros Hne (Hp & Ht & Hl). unfold saveCallback, forgetTimeout.
  destruct (projects (db w) (t_projectId tm)); try (now repeat split).
  destruct (t_content tm); [|now repeat split].
  destruct (Project.updateFile _ _ _ _ _) as [[p f]|]; [|now repeat split].
  destruct (saveErrorAs (db w) "system"); [now repeat split|].
  split; [|split].
  - simpl. apply String.eqb_neq in Hne. rewrite String.eqb_sym in Hne.
    now rewrite Hne.
  - exact Ht.
  - simpl. apply Forall_app. split; [exact Hl|].
    constructor; [|constructor]. simpl. now apply String.eqb_neq.
Qed.

Lemma callbacks_untouched pid project l : forall w,
  Forall (fun tm => t_projectId tm <> pid) l ->
  untouched pid project w ->
  untouched pid project (fold_left saveCallback l w).
Proof.
  induction l as [|tm l IH]; intros w Hl Hw; simpl; [exact Hw|].
  inversion Hl as [|? ? Htm Hl']; subst.
  apply IH; [exact Hl'|]. now apply saveCallback_untouched.
Qed.

Lemma Forall_kept (A : Type) (P : A -> Prop) (f : A -> bool) l :
  Forall P l -> Forall P (filter f l).
Proof.
  intros H. apply Forall_forall. intros x Hin.
  apply filter_In in Hin. rewrite Forall_forall in H. now apply H.
Qed.

Lemma runTimers_untouched pid project now w :
  untouched pid project w -> untouched pid project (runTimers now w).
Proof.
  intros (Hp & Ht & Hl). unfold runTimers.
  apply callbacks_untouched; [now apply Forall_kept|].
  split; [exact Hp|]. split; [|exact Hl].
  cbn [timers withTimers]. now apply Forall_kept.
Qed.

Lemma debouncedSave_untouched pid project now w p fp c :
  p <> pid ->
  untouched pid project w ->
  untouched pid project (debouncedSave now w p fp c).
Proof.
  intros Hne (Hp & Ht & Hl). split; [exact Hp|]. split; [|exact Hl].
  unfold debouncedSave. cbn [timers withTimers].
  apply Forall_app. split.
  - destruct (saveTimeouts (service w)) as [m|]; [|exact Ht].
    destruct (JsMap.get m (saveKey p fp)); [|exact Ht].
    unfold clearTimeout. now apply Forall_kept.
  - constructor; [exact Hne | constructor].
Qed.

Lemma untouched_step uid pid project now w e :
  Project.canUserAccess project uid Project.act_write = false ->
  match e with
  | Server.code_change_in socket data =>
      cc_projectId data = Some pid -> userId socket = uid
  | Server.file_operation_in socket data =>
      fo_projectId data = Some pid -> userId socket = uid
  | _ => True
  end ->
  untouched pid project w ->
  untouched pid project (fst (Server.step now w e)).
Proof.
  intros Hacc He HI.
  destruct e as [socket projectId|socket data|socket data
                |socket data|socket| |]; unfold Server.step.
  - unfold Server.onJoinProject.
    destruct (handleUserJoin_store now
                (withRooms w (SocketIO.join (rooms w) projectId (id socket)))
                socket projectId) as (Hd & Ht & Hl).
    unfold untouched. rewrite Hd, Ht, Hl. exact HI.
  - unfold handleCodeChange, denied.
    destruct (falsy (cc_projectId data) || falsy (cc_filePath data));
      [exact HI|].
    destruct (cc_projectId data) as [p|] eqn:Ep;
      destruct (cc_filePath data) as [fp|];
      destruct (findProjectById (db w) _) as [pr| |msg] eqn:F;
      try exact HI.
    destruct (negb (Project.canUserAccess pr (userId socket)
                      Project.act_write)) eqn:A; [exact HI|].
    cbn [fst]. apply debouncedSave_untouched; [|exact HI].
    intros ->. simpl in F. destruct HI as (Hp & _).
    rewrite Hp in F. inversion F; subst pr.
    rewrite (He eq_refl), Hacc in A. discriminate.
  - exact HI.
  - unfold handleFileOperation, fileOperationFailed, denied.
    destruct (fo_projectId data) as [p|] eqn:Ep;
      destruct (findProjectById (db w) _) as [pr| |msg] eqn:F;
      try exact HI.
    destruct (negb (Project.canUserAccess pr (userId socket)
                      Project.act_write)) eqn:A; [exact HI|].
    destruct (applyFileOperation now pr data) as [[[p1 r] ty]|msg];
      [|exact HI].
    destruct (saveError (db w)); [exact HI|].
    assert (Hne : p <> pid).
    { intros ->. simpl in F. destruct HI as (Hp & _).
      rewrite Hp in F. inversion F; subst pr.
      rewrite (He eq_refl), Hacc in A. discriminate. }
    destruct HI as (Hp & Ht & Hl). split; [|split].
    + simpl. apply String.eqb_neq in Hne. rewrite String.eqb_sym in Hne.
      now rewrite Hne.
    + exact Ht.
    + simpl. apply Forall_app. split; [exact Hl|].
      constructor; [|constructor]. simpl. now apply String.eqb_neq.
  - unfold Server.onDisconnect, handleUserLeave.
    destruct (leaveLoop _ _) as [[[p u]|] au]; exact HI.
  - unfold cleanupInactiveUsers.
    destruct (sweepRooms _ _ _) as [[au gone] out]. exact HI.
  - cbn [fst]. now apply runTimers_untouched.
Qed.

Lemma untouched_run uid pid project trace : forall w,
  Project.canUserAccess project uid Project.act_write = false ->
  onlyBy uid pid trace ->
  untouched pid project w ->
  untouched pid project (fst (Server.run w trace)).
Proof.
  induction trace as [|[now e] trace IH]; intros w Hacc Ho HI; simpl;
    [exact HI|].
  inversion Ho as [|? ? He Ho']; subst. simpl in He.
  pose proof (@untouched_step uid pid project now w e Hacc He HI) as H1.
  destruct (Server.step now w e) as [w1 out1]. simpl in H1.
  specialize (IH w1 Hacc Ho' H1).
  destruct (Server.run w1 trace) as [w2 out2]. exact IH.
Qed.

End WriteFacts.

(** X26. A file-operation either fails, and then changes nothing and
    sends one [collaboration-error] to the sender alone; or it makes
    exactly one save, to the project it names: no other project, no
    Session, no pending timer changes, the saved project has the
    operation as the newest of at most a hundred activity records, and
    every member of the broadcast room of the project is told. *)
Theorem X_file_operation_all_or_nothing
    (now : Z) (w : Collab.World) (socket : Collab.Socket)
    (data : Collab.FileOperationData) :
  let r := Collab.handleFileOperation now w socket data in
  (fst r = w
   /\ exists msg,
        snd r = [(Collab.id socket, Collab.collaboration_error msg)])
  \/ (exists pid ty result project',
        Collab.fo_projectId data = Some pid
        /\ Collab.saveLog (fst r) =
             (Collab.saveLog w ++
              [Collab.FileOpSaved pid ty (Collab.fo_filePath data)])%list
        /\ Collab.projects (Collab.db (fst r)) pid = Found project'
        /\ (forall other, other <> pid ->
              Collab.projects (Collab.db (fst r)) other =
              Collab.projects (Collab.db w) other)
        /\ hd_error (Project.activity project') =
             Some {| Project.a_type := ty;
                     Project.a_user := Collab.userId socket;
                     Project.a_filePath := Collab.fo_filePath data;
                     Project.a_newPath :=
                       if falsy (Collab.fo_newPath data) then None
                       else Collab.fo_newPath data;
                     Project.a_timestamp := now |}
        /\ (List.length (Project.activity project') <= 100)%nat
        /\ Collab.service (fst r) = Collab.service w
        /\ Collab.timers (fst r) = Collab.timers w
        /\ Collab.rooms (fst r) = Collab.rooms w
        /\ snd r = SocketIO.ioTo (Collab.rooms w) (Some pid)
                     (Collab.file_operation data result
                        (Collab.userId socket) now)).
Proof.
  cbv zeta.
  unfold Collab.handleFileOperation, Collab.fileOperationFailed,
    Collab.denied, SocketIO.emit.
  destruct (Collab.fo_projectId data) as [pid|];
    destruct (Collab.findProjectById (Collab.db w) _) as [pr| |msg];
    try (left; split; [reflexivity | eexists; reflexivity]).
  destruct (negb _);
    [left; split; [reflexivity | eexists; reflexivity]|].
  destruct (Collab.applyFileOperation now pr data) as [[[p1 res] ty]|msg];
    [|left; split; [reflexivity | eexists; reflexivity]].
  destruct (Collab.saveError (Collab.db w));
    [left; split; [reflexivity | eexists; reflexivity]|].
  right. exists pid, ty, res. eexists.
  split; [reflexivity|]. split; [reflexivity|].
  split; [cbn [fst Collab.db Collab.withStore Collab.storeProject
               Collab.projects]; rewrite String.eqb_refl; reflexivity|].
  split.
  { intros other Hne.
    cbn [fst Collab.db Collab.withStore Collab.storeProject Collab.projects].
    apply String.eqb_neq in Hne. now rewrite Hne. }
  split; [reflexivity|].
  split.
  { unfold Project.addToActivity. cbn [Project.activity Project.withActivity].
    rewrite length_firstn. apply Nat.le_min_l. }
  repeat split.
Qed.

(** X27. A create under a path that the project does not have yet, by a
    user who may write, on a store that accepts the save, stores the
    project with the new file: found under its path, with the content
    given or the empty string, at version 1; what was found under the
    other paths is found as before; and every member of the broadcast
    room, the sender included when it is one, receives the file. *)
Theorem X_create_stores_the_file
    (now : Z) (w : Collab.World) (socket : Collab.Socket)
    (data : Collab.FileOperationData) (pid fp : string)
    (project : Project.t)
    (Hop : Collab.fo_operation data = Some "create")
    (Hpid : Collab.fo_projectId data = Some pid)
    (Hfp : Collab.fo_filePath data = Some fp)
    (Hproj : Collab.projects (Collab.db w) pid = Found project)
    (Hacc : Project.canUserAccess project (Collab.userId socket)
              Project.act_write = true)
    (Hnew : Project.findFile project (Some fp) = None)
    (Hsave : Collab.saveError (Collab.db w) = None) :
  let r := Collab.handleFileOperation now w socket data in
  exists project' f,
    Collab.projects (Collab.db (fst r)) pid = Found project'
    /\ Project.findFile project' (Some fp) = Some f
    /\ Project.content f = match Collab.fo_content data with
                           | Some c => c
                           | None => ""
                           end
    /\ Project.version f = 1
    /\ (forall other, other <> fp ->
          Project.findFile project' (Some other) =
          Project.findFile project (Some other))
    /\ snd r = SocketIO.ioTo (Collab.rooms w) (Some pid)
                 (Collab.file_operation data (Collab.resFile f)
                    (Collab.userId socket) now)
    /\ (SocketIO.isMember (Collab.rooms w) (Some pid) (Collab.id socket)
        = true ->
        In (Collab.id socket,
            Collab.file_operation data (Collab.resFile f)
              (Collab.userId socket) now) (snd r)).
Proof.
  cbv zeta. unfold Collab.handleFileOperation.
  rewrite Hpid. cbn [Collab.findProjectById]. rewrite Hproj, Hacc.
  cbn [negb]. unfold Collab.applyFileOperation, Collab.isOp.
  rewrite Hop, Hfp. rewrite String.eqb_refl.
  unfold Project.addFile. rewrite Hnew. cbv zeta. rewrite Hsave.
  eexists. eexists.
  split; [cbn [fst Collab.db Collab.withStore Collab.storeProject
               Collab.projects]; rewrite String.eqb_refl; reflexivity|].
  unfold Project.findFile in *.
  cbn [Project.addToActivity Project.withActivity Project.withFiles
       Project.files].
  split.
  { rewrite find_app_none by exact Hnew.
    cbn [find Project.path]. rewrite String.eqb_refl. reflexivity. }
  split; [reflexivity|]. split; [reflexivity|].
  split.
  { intros other Hne. apply find_snoc_false.
    cbn [Project.path]. apply String.eqb_neq. congruence. }
  split; [reflexivity|].
  intros Hmem. cbn [snd]. unfold SocketIO.ioTo.
  apply in_map_iff. exists (Collab.id socket). split; [reflexivity|].
  unfold SocketIO.members, SocketIO.isMember in *.
  apply existsb_exists in Hmem. destruct Hmem as [[room sid] [Hin Hb]].
  apply andb_true_iff in Hb. destruct Hb as [Hr Hs]. simpl in Hr, Hs.
  apply String.eqb_eq in Hs. subst sid.
  apply in_map_iff. exists (room, Collab.id socket).
  split; [reflexivity|]. apply filter_In. now split.
Qed.

(** X27 with bob creating [docs/notes.md] in p1 without content, in the
    Room he shares with alice: the file is stored empty and both
    receive it. *)
Lemma X_create_stores_the_file_example :
  let r := Collab.handleFileOperation 5 Scenario.aliceAndBobInRoom
             Scenario.bob Writes.createNotes in
  exists project' f,
    Collab.projects (Collab.db (fst r)) "p1" = Found project'
    /\ Project.findFile project' (Some "docs/notes.md") = Some f
    /\ Project.content f = ""
    /\ Project.version f = 1
    /\ map fst (snd r) = ["s-alice"; "s-bob"].
Proof.
  cbv zeta.
  destruct (@X_create_stores_the_file 5 Scenario.aliceAndBobInRoom
              Scenario.bob Writes.createNotes "p1" "docs/notes.md"
              Scenario.projectOne eq_refl eq_refl eq_refl eq_refl eq_refl
              eq_refl eq_refl)
    as (project' & f & Hp & Hf & Hc & Hv & _ & _ & _).
  exists project', f. repeat split; assumption || reflexivity.
Defined.

(** X28. A user who may not write a project cannot change it: in every
    run from a server that has just started in which the code-changes
    and file-operations that name the project all come from connections
    of that user, the project stays stored as it was and no save is made
    to it, whatever else happens. *)
Theorem X_no_write_access_no_change
    (d : Collab.Database) (trace : list (Z * Server.Inbound))
    (uid : option string) (pid : string) (project : Project.t)
    (Hproj : Collab.projects d pid = Found project)
    (Hacc : Project.canUserAccess project uid Project.act_write = false)
    (Honly : Writes.onlyBy uid pid trace) :
  let w := fst (Server.run (Collab.initial d) trace) in
  Collab.projects (Collab.db w) pid = Found project
  /\ Forall (fun e => Writes.writesTo pid e = false) (Collab.saveLog w).
Proof.
  cbv zeta.
  assert (H0 : Writes.untouched pid project (Collab.initial d))
    by (split; [exact Hproj | split; constructor]).
  destruct (@untouched_run uid pid project trace (Collab.initial d)
              Hacc Honly H0) as (Hp & _ & Hl).
  now split.
Qed.

(** X28 with carol, a reader of p1, trying an edit and a delete there
    while alice creates a file in p3. *)
Lemma X_no_write_access_no_change_example :
  let w := fst (Server.run (Collab.initial Scenario.store)
                  Writes.carolTries) in
  Collab.projects (Collab.db w) "p1" = Found Scenario.projectOne
  /\ Forall (fun e => Writes.writesTo "p1" e = false) (Collab.saveLog w).
Proof.
  apply (@X_no_write_access_no_change Scenario.store Writes.carolTries
           (Some "carol") "p1" Scenario.projectOne).
  - reflexivity.
  - reflexivity.
  - unfold Writes.onlyBy, Writes.carolTries.
    repeat constructor; simpl; try reflexivity; discriminate.
Defined.

(** X29. An accepted code-change writes nothing at once: the store and
    the Sessions stay as they are, the members of the broadcast room
    other than the sender receive the adjusted operation, the operation
    is the newest pending one of its file, and exactly one save of the
    file is pending, due two seconds later with the content sent; a save
    that was pending for the file before is gone. *)
Theorem X_accepted_code_change_is_deferred
    (now : Z) (w : Collab.World) (socket : Collab.Socket)
    (data : Collab.CodeChangeData) (pid fp c : string)
    (project : Project.t)
    (Hpid : Collab.cc_projectId data = Some pid)
    (Hpne : pid <> "")
    (Hfp : Collab.cc_filePath data = Some fp)
    (Hfne : fp <> "")
    (Hc : Collab.cc_content data = Some c)
    (Hproj : Collab.projects (Collab.db w) pid = Found project)
    (Hacc : Project.canUserAccess project (Collab.userId socket)
              Project.act_write = true)
    (Htr : Debounce.timersTracked w) :
  let r := Collab.handleCodeChange now w socket data in
  let adjusted :=
    OT.transformOperation (Collab.operationQueue (Collab.service w)) pid
      (Collab.cc_operation data) fp (Collab.cc_timestamp data) in
  snd r = SocketIO.socketTo (Collab.rooms w) (Collab.id socket) (Some pid)
            (Collab.code_change (Collab.id socket) fp adjusted (Some c)
               (Collab.cc_position data) (Collab.cc_timestamp data)
               (Collab.userId socket))
  /\ Collab.db (fst r) = Collab.db w
  /\ Collab.saveLog (fst r) = Collab.saveLog w
  /\ Collab.activeUsers (Collab.service (fst r)) =
       Collab.activeUsers (Collab.service w)
  /\ (exists older,
        Observing.pendingOf (Collab.operationQueue (Collab.service (fst r)))
          pid fp =
        (older ++ [ {| OT.operation := adjusted; OT.content := Some c;
                       OT.userId := Collab.userId socket;
                       OT.timestamp := Collab.cc_timestamp data |} ])%list)
  /\ Debounce.pendingFor (fst r) (Collab.saveKey pid fp) =
       [Debounce.theTimer pid fp (Collab.nextHandle w) (now + 2000) c].
Proof.
  cbv zeta. unfold Collab.handleCodeChange.
  rewrite Hpid, Hfp. cbn [falsy].
  apply String.eqb_neq in Hpne. apply String.eqb_neq in Hfne.
  rewrite Hpne, Hfne. cbn [orb Collab.findProjectById].
  rewrite Hproj, Hacc, Hc. cbn [negb fst snd].
  split; [reflexivity|]. split; [reflexivity|]. split; [reflexivity|].
  split; [reflexivity|]. split.
  - unfold Collab.debouncedSave.
    cbn [Collab.service Collab.withTimers Collab.withService
         Collab.withSaveTimeouts Collab.operationQueue
         Collab.withOperationQueue].
    rewrite queueOperation_as_set. unfold Observing.pendingOf at 1.
    rewrite get_set_same. eexists. reflexivity.
  - apply (@focused_pending pid fp).
    match goal with
    | |- Debounce.focused (Collab.debouncedSave _ ?w1 _ _ _) _ _ _ _ _ =>
        exact (@debouncedSave_focuses pid fp now w1 c
                 (@tracked_keyTracked pid fp w1 Htr))
    end.
Qed.

(** X29 with alice editing [src/main.js] in the Room she shares with
    bob: bob receives the change and one save is pending. *)
Lemma X_accepted_code_change_is_deferred_example :
  let r := Collab.handleCodeChange 10 Scenario.aliceAndBobInRoom
             Scenario.alice Scenario.editMain in
  map fst (snd r) = ["s-bob"]
  /\ Collab.saveLog (fst r) = []
  /\ Debounce.pendingFor (fst r) (Collab.saveKey "p1" "src/main.js") =
       [Debounce.theTimer "p1" "src/main.js" 0 2010 "let y = 1;"].
Proof.
  cbv zeta.
  assert (Htr : Debounce.timersTracked Scenario.aliceAndBobInRoom)
    by (split; constructor).
  destruct (@X_accepted_code_change_is_deferred 10
              Scenario.aliceAndBobInRoom Scenario.alice Scenario.editMain
              "p1" "src/main.js" "let y = 1;" Scenario.projectOne
              eq_refl ltac:(discriminate) eq_refl ltac:(discriminate)
              eq_refl eq_refl eq_refl Htr)
    as (Hs & _ & Hl & _ & _ & Hp).
  split; [rewrite Hs; reflexivity|]. split; [rewrite Hl; reflexivity|].
  exact Hp.
Defined.

(** X30. Moving the cursor is what keeps a Session: a cursor-move that
    names the Room of the sender's Session stamps that Session with the
    time of the move and the cursor, and changes no other Session; a
    sweep no more than five minutes later keeps the Session. *)
Theorem X_cursor_move_keeps_the_session
    (now later : Z) (w : Collab.World) (socket : Collab.Socket)
    (data : Collab.CursorMoveData) (pid : string) (u : Collab.UserData)
    (Hwf : Directory.directoryWf (Collab.service w))
    (Hpid : Collab.cm_projectId data = Some pid)
    (Hs : JsMap.get (Collab.roomOf (Collab.service w) pid)
            (Collab.id socket) = Some u)
    (Hlate : later - now <= 300000) :
  let w1 := fst (Collab.handleCursorMove now w socket data) in
  let w2 := fst (Collab.cleanupInactiveUsers later w1) in
  JsMap.get (Collab.roomOf (Collab.service w1) pid) (Collab.id socket) =
    Some (Collab.moved now u (Collab.cursorOf data))
  /\ (forall pid' sid',
        pid' <> pid \/ sid' <> Collab.id socket ->
        JsMap.get (Collab.roomOf (Collab.service w1) pid') sid' =
        JsMap.get (Collab.roomOf (Collab.service w) pid') sid')
  /\ JsMap.get (Collab.roomOf (Collab.service w2) pid) (Collab.id socket) =
       Some (Collab.moved now u (Collab.cursorOf data)).
Proof.
  cbv zeta.
  pose proof (@directoryWf_step now w (Server.cursor_move_in socket data)
                Hwf) as Hwf1.
  cbn [Server.step] in Hwf1.
  assert (H1 : Collab.activeUsers
                 (Collab.service
                    (fst (Collab.handleCursorMove now w socket data))) =
               JsMap.set (Collab.activeUsers (Collab.service w)) pid
                 (JsMap.set (Collab.roomOf (Collab.service w) pid)
                    (Collab.id socket)
                    (Collab.moved now u (Collab.cursorOf data)))).
  { unfold Collab.handleCursorMove, Collab.roomOf in *. rewrite Hpid.
    cbn [fst Collab.service Collab.withService Collab.activeUsers
         Collab.withCursors Collab.withActiveUsers].
    destruct (JsMap.get (Collab.activeUsers (Collab.service w)) pid)
      as [room|]; [|discriminate].
    now rewrite Hs. }
  assert (Hmoved : JsMap.get
                     (Collab.roomOf
                        (Collab.service
                           (fst (Collab.handleCursorMove now w socket data)))
                        pid) (Collab.id socket) =
                   Some (Collab.moved now u (Collab.cursorOf data))).
  { unfold Collab.roomOf at 1. rewrite H1, get_set_same.
    apply get_set_same. }
  split; [exact Hmoved|]. split.
  - intros pid' sid' Hne. unfold Collab.roomOf at 1. rewrite H1.
    destruct (String.eqb pid pid') eqn:E.
    + apply String.eqb_eq in E. subst pid'.
      rewrite get_set_same. apply get_set_other.
      destruct Hne as [Hne|Hne]; congruence.
    + apply String.eqb_neq in E. rewrite get_set_other by exact E.
      reflexivity.
  - destruct Hwf1 as [Hwf1 Hrooms1].
    pose proof (@sweepRooms_get later
                  (Collab.rooms
                     (fst (Collab.handleCursorMove now w socket data)))
                  _ pid (Collab.id socket) Hwf1 Hrooms1) as Hget.
    unfold Collab.roomOf in Hmoved. rewrite Hmoved in Hget.
    unfold Collab.isInactive, Collab.inactiveThreshold in Hget.
    cbn [Collab.lastActivity Collab.moved] in Hget.
    replace (later - now >? 5 * 60 * 1000) with false in Hget
      by (symmetry; rewrite Z.gtb_ltb; apply Z.ltb_ge; lia).
    unfold Collab.cleanupInactiveUsers, Collab.roomOf.
    destruct (Collab.sweepRooms later _ _) as [[au gone] out].
    exact Hget.
Qed.

(** X30 with alice moving her cursor at two minutes and a sweep at six
    minutes, when bob, who joined at the start and did nothing since, is
    evicted: alice is still there. *)
Lemma X_cursor_move_keeps_the_session_example :
  let w1 := fst (Collab.handleCursorMove 120000 Scenario.aliceAndBobInRoom
                   Scenario.alice Scenario.cursorInMain) in
  let w2 := fst (Collab.cleanupInactiveUsers 360000 w1) in
  JsMap.has (Collab.roomOf (Collab.service w2) "p1") "s-alice" = true
  /\ JsMap.has (Collab.roomOf (Collab.service w2) "p1") "s-bob" = false.
Proof.
  cbv zeta.
  assert (Hwf : Directory.directoryWf
                  (Collab.service Scenario.aliceAndBobInRoom))
    by apply directoryWf_run.
  destruct (@X_cursor_move_keeps_the_session 120000 360000
              Scenario.aliceAndBobInRoom Scenario.alice
              Scenario.cursorInMain "p1" _ Hwf eq_refl eq_refl
              ltac:(vm_compute; discriminate))
    as (_ & _ & H2).
  split; [|reflexivity].
  unfold JsMap.has. change "s-alice" with (Collab.id Scenario.alice).
  rewrite H2. reflexivity.
Defined.
